(** * Device port configuration engine of go-provision: a shallow embedding

    The development follows the Go sources:
    - [net]            the parts of Go's [net] package the agent relies on
                       ([IP.To4], [IP.Equal], [IPNet.Contains],
                       [IP.IsLinkLocalUnicast]);
    - [zedrouter]      the interface directory (ifindex to name, ifindex to
                       addresses), from the policy-routing file;
    - [types]          the records exchanged between the agents;
    - [devicenetwork]  [MakeDeviceNetworkStatus] and its helpers;
    - [nim]            the periodic connectivity test and the test-better timer;
    - [ledmanager]     the consumer of the published status.

    Go's [int] is modelled by [Z], byte slices by [list N], maps by [gmap],
    slices by [list], [time.Time] by [Z] (the zero time is [0]). *)

From Stdlib Require Import ZArith NArith String List Bool Lia.
From stdpp Require Import base option list gmap strings fin_maps.

Local Open Scope Z_scope.

(* ===================================================================== *)
(** ** Go's [net] package: addresses and networks *)
(* ===================================================================== *)

Module net.

(** [type IP []byte], [type IPMask []byte]. *)
Definition IP := list N.
Definition IPMask := list N.

(** [type IPNet struct { IP IP; Mask IPMask }]. *)
Record IPNet := mkIPNet { NetIP : IP; Mask : IPMask }.

#[global] Instance IPNet_eq_dec : EqDecision IPNet.
Proof. solve_decision. Defined.

Definition IPv4len : nat := 4.
Definition IPv6len : nat := 16.

Definition v4InV6Prefix : list N :=
  [0; 0; 0; 0; 0; 0; 0; 0; 0; 0; 255; 255]%N.

Definition bytesEqual (a b : list N) : bool := bool_decide (a = b).

Definition isZeros (p : list N) : bool := forallb (N.eqb 0) p.

(** [func (ip IP) To4() IP]; [None] is Go's [nil]. *)
Definition To4 (ip : IP) : option IP :=
  if (length ip =? IPv4len)%nat then Some ip
  else if (length ip =? IPv6len)%nat
          && isZeros (take 10 ip)
          && bytesEqual (take 2 (drop 10 ip)) [255; 255]%N
       then Some (drop 12 ip)
       else None.

(** [func (ip IP) Equal(x IP) bool]. *)
Definition Equal (ip x : IP) : bool :=
  if (length ip =? length x)%nat then bytesEqual ip x
  else if (length ip =? IPv4len)%nat && (length x =? IPv6len)%nat
       then bytesEqual (take 12 x) v4InV6Prefix && bytesEqual ip (drop 12 x)
  else if (length ip =? IPv6len)%nat && (length x =? IPv4len)%nat
       then bytesEqual (take 12 ip) v4InV6Prefix && bytesEqual (drop 12 ip) x
  else false.

(** [networkNumberAndMask]; the pair [([], [])] is Go's [(nil, nil)]. *)
Definition networkNumberAndMask (n : IPNet) : IP * IPMask :=
  let ip := match To4 (NetIP n) with
            | Some ip4 => Some ip4
            | None => if (length (NetIP n) =? IPv6len)%nat
                      then Some (NetIP n) else None
            end in
  match ip with
  | None => ([], [])
  | Some ip =>
      let m := Mask n in
      if (length m =? IPv4len)%nat then
        if (length ip =? IPv4len)%nat then (ip, m) else ([], [])
      else if (length m =? IPv6len)%nat then
        if (length ip =? IPv4len)%nat then (ip, drop 12 m) else (ip, m)
      else ([], [])
  end.

(** The byte loop of [Contains]: [nn[i]&m[i] == ip[i]&m[i]] for all [i]. *)
Fixpoint maskedEqual (nn m ip : list N) : bool :=
  match nn, m, ip with
  | a :: nn', k :: m', b :: ip' =>
      (N.land a k =? N.land b k)%N && maskedEqual nn' m' ip'
  | _, _, _ => true
  end.

(** [func (n *IPNet) Contains(ip IP) bool]. *)
Definition Contains (n : IPNet) (ip : IP) : bool :=
  let '(nn, m) := networkNumberAndMask n in
  let ip := match To4 ip with Some x => x | None => ip end in
  if (length ip =? length nn)%nat then maskedEqual nn m ip else false.

(** [func (ip IP) IsLinkLocalUnicast() bool]. *)
Definition IsLinkLocalUnicast (ip : IP) : bool :=
  match To4 ip with
  | Some ip4 =>
      bytesEqual (take 2 ip4) [169; 254]%N
  | None =>
      (length ip =? IPv6len)%nat
      && match ip with
         | b0 :: b1 :: _ => (b0 =? 254)%N && (N.land b1 192 =? 128)%N
         | _ => false
         end
  end.

(** What [To4] would leave: the 4-byte form when there is one. *)
Definition norm (ip : IP) : IP :=
  match To4 ip with Some x => x | None => ip end.

(** The 16-byte form of a 4-byte address. *)
Definition canon (ip : IP) : IP :=
  if (length ip =? IPv4len)%nat then v4InV6Prefix ++ ip else ip.

(** A network whose address and mask lengths fit together, so that
    [networkNumberAndMask] does not answer [(nil, nil)]. *)
Definition validNet (n : IPNet) : bool :=
  negb (length (fst (networkNumberAndMask n)) =? 0)%nat.


(** The bytes of a mask of [l] bytes with [n] leading one bits: the loop of
    [CIDRMask]. *)
Fixpoint maskBytes (l : nat) (n : N) : list N :=
  match l with
  | O => []
  | S l' =>
      if (8 <=? n)%N then 255%N :: maskBytes l' (n - 8)
      else N.lxor 255 (N.shiftr 255 n) :: maskBytes l' 0
  end.

(** [func CIDRMask(ones, bits int) IPMask]; [[]] is Go's [nil]. *)
Definition CIDRMask (ones bits : Z) : IPMask :=
  if negb (bits =? 32) && negb (bits =? 128) then []
  else if (ones <? 0) || (bits <? ones) then []
  else maskBytes (Z.to_nat (bits / 8)) (Z.to_N ones).

(** Every element is a byte. *)
Definition isBytes (ip : list N) : Prop := Forall (fun b => (b < 256)%N) ip.

End net.

(* ===================================================================== *)
(** ** The interface directory (package zedrouter / devicenetwork) *)
(* ===================================================================== *)

Module zedrouter.
Import net.

(** [type linkNameType struct { linkName string; linkType string }]. *)
Record linkNameType := mkLink { linkName : string; linkType : string }.

#[global] Instance linkNameType_eq_dec : EqDecision linkNameType.
Proof. solve_decision. Defined.

(** [var ifindexToName map[int]linkNameType] is passed explicitly. *)
Definition IfindexToNameAdd (ifindexToName : gmap Z linkNameType)
    (index : Z) (name type : string) : gmap Z linkNameType * bool :=
  match ifindexToName !! index with
  | None => (<[index := mkLink name type]> ifindexToName, true)
  | Some m =>
      if negb (String.eqb (linkName m) name)
      then (<[index := mkLink name type]> ifindexToName, false)
      else (ifindexToName, false)
  end.

(** [func IfindexToNameDel(index int, linkName string) bool]. *)
Definition IfindexToNameDel (ifindexToName : gmap Z linkNameType)
    (index : Z) (name : string) : gmap Z linkNameType * bool :=
  match ifindexToName !! index with
  | None => (ifindexToName, false)
  | Some m =>
      if negb (String.eqb (linkName m) name)
      then (delete index ifindexToName, true)
      else (delete index ifindexToName, true)
  end.

(** The older variant of the same file keeps [map[int]string]. *)
Definition IfindexToNameDel_uplink (ifindexToName : gmap Z string)
    (index : Z) (name : string) : gmap Z string * bool :=
  match ifindexToName !! index with
  | None => (ifindexToName, false)
  | Some m =>
      if negb (String.eqb m name)
      then (delete index ifindexToName, true)
      else (delete index ifindexToName, true)
  end.

(** [IfnameToIndex]: the cache is searched for the name; on a miss the
    kernel is asked ([netlink.LinkByName], here [linkByName]). The error
    is [None]. Go's [range] delivers the entries of a map in an order it
    leaves open, and which may differ from one loop to the next:
    [IfnameToIndexIn] is the loop over the entries in the order [entries]
    in which they are delivered. *)
Definition IfnameToIndexIn (entries : list (Z * linkNameType))
    (linkByName : string -> option Z) (ifname : string) : option Z :=
  match list_find (fun e : Z * linkNameType =>
                     String.eqb (linkName (snd e)) ifname = true)
                  entries with
  | Some (_, (i, _)) => Some i
  | None => linkByName ifname
  end.

(** [IfnameToIndex] when [range] delivers the entries in the order of
    [map_to_list]. *)
Definition IfnameToIndex (ifindexToName : gmap Z linkNameType)
    (linkByName : string -> option Z) (ifname : string) : option Z :=
  IfnameToIndexIn (map_to_list ifindexToName) linkByName ifname.

(** No two cached ifindexes carry the same name. *)
Definition oneIfindexPerName (ifindexToName : gmap Z linkNameType) : Prop :=
  forall i j e e',
    ifindexToName !! i = Some e -> ifindexToName !! j = Some e' ->
    linkName e = linkName e' -> i = j.

(** The test both [IfindexToAddrsAdd] and [IfindexToAddrsDel] apply to a
    stored entry [a] and the reported address [addr]. *)
Definition sameEntry (a addr : IPNet) : bool :=
  Equal (NetIP a) (NetIP addr)
  && Contains a (NetIP addr) && Contains addr (NetIP a).

(** [func IfindexToAddrsAdd(index int, addr net.IPNet) bool]
    (the devicenetwork copy takes a context it does not use). *)
Definition IfindexToAddrsAdd (ifindexToAddrs : gmap Z (list IPNet))
    (index : Z) (addr : IPNet) : gmap Z (list IPNet) * bool :=
  match ifindexToAddrs !! index with
  | None => (<[index := [addr]]> ifindexToAddrs, true)
  | Some addrs =>
      let found := existsb (fun a => sameEntry a addr) addrs in
      if negb found
      then (<[index := addrs ++ [addr]]> ifindexToAddrs, negb found)
      else (ifindexToAddrs, negb found)
  end.

(** [func IfindexToAddrs(index int) ([]net.IPNet, error)]. *)
Definition IfindexToAddrs (ifindexToAddrs : gmap Z (list IPNet))
    (index : Z) : option (list IPNet) :=
  ifindexToAddrs !! index.

(** The reading of the specification: two entries are the same when each
    network contains the other's address. *)
Definition mutualContainment (a addr : IPNet) : bool :=
  Contains a (NetIP addr) && Contains addr (NetIP a).


(** [func IfindexToName(index int) (string, string, error)]: the cache,
    then the kernel ([netlink.LinkByIndex], here [linkByIndex], which
    answers the name and the type of the link). *)
Definition IfindexToName (ifindexToName : gmap Z linkNameType)
    (linkByIndex : Z -> option (string * string)) (index : Z)
    : option (string * string) :=
  match ifindexToName !! index with
  | Some n => Some (linkName n, linkType n)
  | None => linkByIndex index
  end.

(** [func IfindexToAddrsDel(index int, addr net.IPNet) bool]: the first
    entry that passes the test is cut out,
    [append(addrs[:i], addrs[i+1:]...)]. *)
Definition IfindexToAddrsDel (ifindexToAddrs : gmap Z (list IPNet))
    (index : Z) (addr : IPNet) : gmap Z (list IPNet) * bool :=
  match ifindexToAddrs !! index with
  | None => (ifindexToAddrs, false)
  | Some addrs =>
      match list_find (fun a => sameEntry a addr = true) addrs with
      | Some (i, _) =>
          (<[index := take i addrs ++ drop (S i) addrs]> ifindexToAddrs, true)
      | None => (ifindexToAddrs, false)
      end
  end.

(** No two entries of an address list are the same entry for the test of
    [IfindexToAddrsAdd]. *)
Definition noDupEntries (addrs : list IPNet) : Prop :=
  forall i j a b, i <> j -> addrs !! i = Some a -> addrs !! j = Some b ->
                  sameEntry a b = false.

(** [var FreeTable = 500]; the address families of Linux. *)
Definition FreeTable : Z := 500.
Definition AF_INET : Z := 2.
Definition AF_INET6 : Z := 10.

(** A [netlink.Rule], with the fields this file sets; [NewRule] leaves
    them at their zero values. *)
Record Rule := mkRule {
  Table : Z;
  Family : Z;
  Src : option IPNet;
  IifName : string }.

Definition NewRule : Rule := mkRule 0 0 None "".

#[global] Instance Rule_eq_dec : EqDecision Rule.
Proof. solve_decision. Defined.

(** The requests a function sends to the kernel, in order. *)
Inductive RuleOp := RuleDel (r : Rule) | RuleAdd (r : Rule).

(** [func addSourceRule(ifindex int, p net.IPNet, bridge bool)]. *)
Definition addSourceRule (ifindex : Z) (p : IPNet) (bridge : bool)
    : list RuleOp :=
  let r := NewRule in
  let r := mkRule (FreeTable + ifindex) (Family r) (Src r) (IifName r) in
  let r :=
    match To4 (NetIP p) with
    | Some _ =>
        mkRule (Table r) AF_INET
               (if bridge then Some p
                else Some (mkIPNet (NetIP p) (CIDRMask 32 32)))
               (IifName r)
    | None =>
        mkRule (Table r) AF_INET6
               (if bridge then Some p
                else Some (mkIPNet (NetIP p) (CIDRMask 128 128)))
               (IifName r)
    end in
  [RuleDel r; RuleAdd r].

(** [func delSourceRule(ifindex int, p net.IPNet, bridge bool)]. *)
Definition delSourceRule (ifindex : Z) (p : IPNet) (bridge : bool)
    : list RuleOp :=
  let r := NewRule in
  let r := mkRule (FreeTable + ifindex) (Family r) (Src r) (IifName r) in
  let r :=
    match To4 (NetIP p) with
    | Some _ =>
        mkRule (Table r) AF_INET
               (if bridge then Some p
                else Some (mkIPNet (NetIP p) (CIDRMask 32 32)))
               (IifName r)
    | None =>
        mkRule (Table r) AF_INET6
               (if bridge then Some p
                else Some (mkIPNet (NetIP p) (CIDRMask 128 128)))
               (IifName r)
    end in
  [RuleDel r].

(** [func flushRules(ifindex int)] over the rules the kernel lists:
    the rules it deletes, in order; [None] when a deletion fails
    ([log.Fatalf]). [ruleDel] tells whether the kernel accepts a deletion. *)
Fixpoint flushRules (ruleDel : Rule -> bool) (ifindex : Z) (rules : list Rule)
    : option (list Rule) :=
  match rules with
  | [] => Some []
  | r :: rest =>
      if (ifindex =? 0) && negb (Table r =? FreeTable)
      then flushRules ruleDel ifindex rest
      else if negb (ifindex =? 0) && negb (Table r =? FreeTable + ifindex)
      then flushRules ruleDel ifindex rest
      else if ruleDel r
      then cons r <$> flushRules ruleDel ifindex rest
      else None
  end.

(** The calls [setFreeMgmtPorts] makes into the routing tables. *)
Inductive RouteCall :=
| CallMoveRoutesTable (srcTable ifindex dstTable : Z)
| CallFlushRoutesTable (table ifindex : Z).

(** [func setFreeMgmtPorts(freeMgmtPorts []string)]: the new value of
    [freeMgmtPortList] and the calls made. *)
Definition setFreeMgmtPorts (ifindexToName : gmap Z linkNameType)
    (linkByName : string -> option Z)
    (freeMgmtPortList freeMgmtPorts : list string)
    : list string * list RouteCall :=
  let added :=
    freeMgmtPorts ≫= fun u =>
      let found := existsb (fun old => String.eqb old u) freeMgmtPortList in
      if negb found then
        match IfnameToIndex ifindexToName linkByName u with
        | Some ifindex => [CallMoveRoutesTable 0 ifindex FreeTable]
        | None => []
        end
      else [] in
  let deleted :=
    freeMgmtPortList ≫= fun old =>
      let found := existsb (fun u => String.eqb old u) freeMgmtPorts in
      if negb found then
        match IfnameToIndex ifindexToName linkByName old with
        | Some ifindex => [CallFlushRoutesTable FreeTable ifindex]
        | None => []
        end
      else [] in
  (freeMgmtPorts, added ++ deleted).

(** Every stored address list is free of repeated entries. *)
Definition allNoDup (ifindexToAddrs : gmap Z (list IPNet)) : Prop :=
  map_Forall (fun _ addrs => noDupEntries addrs) ifindexToAddrs.

End zedrouter.

(* ===================================================================== *)
(** ** The records exchanged between the agents (package types) *)
(* ===================================================================== *)

(** Modelled from the spec: the file of package [types] that declares
    [DevicePortConfig], [DevicePortConfigList], [DeviceNetworkStatus],
    [NetworkPortConfig], [NetworkPortStatus], [AddrInfo] and [ProxyConfig]
    is not among the sources. The records below carry the fields the
    sources read and write. Following the data model of the specification
    ("config objects are value types copied into lists"), the candidate list
    is a slice of [DevicePortConfig] values, not of pointers. *)
Module types.

(** [time.Time] in nanoseconds; [0] is the zero time. *)
Definition Time := Z.
Definition Second : Z := 1000000000.
Definition Hour : Z := 3600 * Second.

(** [ipinfo.IPInfo], the geolocation answer. *)
Module ipinfo.
Record IPInfo := mk {
  IP : string; Hostname : string; City : string; Region : string;
  Country : string; Loc : string; Org : string; Postal : string }.
Definition zero : IPInfo := mk "" "" "" "" "" "" "" "".
#[global] Instance IPInfo_eq_dec : EqDecision IPInfo.
Proof. solve_decision. Defined.
End ipinfo.

Module AddrInfo.
Record t := mk {
  Addr : net.IP;
  Geo : ipinfo.IPInfo;
  LastGeoTimestamp : Time }.
#[global] Instance eq_dec : EqDecision t.
Proof. solve_decision. Defined.
End AddrInfo.

Module ProxyConfig.
Record ProxyEntry := mkEntry { ProxyType : Z; Server : string; Port : Z }.
#[global] Instance ProxyEntry_eq_dec : EqDecision ProxyEntry.
Proof. solve_decision. Defined.
Record t := mk {
  Proxies : list ProxyEntry;
  Exceptions : string;
  Pacfile : string;
  NetworkProxyEnable : bool;
  NetworkProxyURL : string }.
Definition zero : t := mk [] "" "" false "".
#[global] Instance eq_dec : EqDecision t.
Proof. solve_decision. Defined.
Definition setPacfile (p : t) (pac : string) : t :=
  mk (Proxies p) (Exceptions p) pac (NetworkProxyEnable p)
     (NetworkProxyURL p).
End ProxyConfig.

Module NetworkPortConfig.
Record t := mk {
  IfName : string;
  Name : string;
  IsMgmt : bool;
  Free : bool;
  Dhcp : Z;
  AddrSubnet : string;
  Gateway : net.IP;
  DomainName : string;
  NtpServer : net.IP;
  DnsServers : list net.IP;
  ProxyConfig : ProxyConfig.t }.
#[global] Instance eq_dec : EqDecision t.
Proof. solve_decision. Defined.
End NetworkPortConfig.

Module NetworkPortStatus.
Record t := mk {
  IfName : string;
  Name : string;
  IsMgmt : bool;
  Free : bool;
  ProxyConfig : ProxyConfig.t;
  Dhcp : Z;
  Subnet : net.IPNet;
  Gateway : net.IP;
  DomainName : string;
  NtpServer : net.IP;
  DnsServers : list net.IP;
  AddrInfoList : list AddrInfo.t;
  Error : string;
  ErrorTime : Time }.
(** The zero value of the struct. *)
Definition zero : t :=
  mk "" "" false false ProxyConfig.zero 0 (net.mkIPNet [] []) [] "" [] []
     [] "" 0.
#[global] Instance eq_dec : EqDecision t.
Proof. solve_decision. Defined.

Definition setAddrInfoList (p : t) (l : list AddrInfo.t) : t :=
  mk (IfName p) (Name p) (IsMgmt p) (Free p) (ProxyConfig p) (Dhcp p)
     (Subnet p) (Gateway p) (DomainName p) (NtpServer p) (DnsServers p)
     l (Error p) (ErrorTime p).
Definition setError (p : t) (e : string) (at_ : Time) : t :=
  mk (IfName p) (Name p) (IsMgmt p) (Free p) (ProxyConfig p) (Dhcp p)
     (Subnet p) (Gateway p) (DomainName p) (NtpServer p) (DnsServers p)
     (AddrInfoList p) e at_.
Definition setDns (p : t) (dn : string) (servers : list net.IP) : t :=
  mk (IfName p) (Name p) (IsMgmt p) (Free p) (ProxyConfig p) (Dhcp p)
     (Subnet p) (Gateway p) dn (NtpServer p) servers
     (AddrInfoList p) (Error p) (ErrorTime p).
Definition setPacfile (p : t) (pac : string) : t :=
  mk (IfName p) (Name p) (IsMgmt p) (Free p)
     (ProxyConfig.setPacfile (ProxyConfig p) pac) (Dhcp p)
     (Subnet p) (Gateway p) (DomainName p) (NtpServer p) (DnsServers p)
     (AddrInfoList p) (Error p) (ErrorTime p).
End NetworkPortStatus.

Module DevicePortConfig.
Record t := mk {
  Version : Z;
  Key : string;
  TimePriority : Time;
  Ports : list NetworkPortConfig.t;
  LastFailed : Time;
  LastSucceeded : Time;
  LastError : string }.
#[global] Instance eq_dec : EqDecision t.
Proof. solve_decision. Defined.
Definition setLastSucceeded (c : t) (at_ : Time) : t :=
  mk (Version c) (Key c) (TimePriority c) (Ports c) (LastFailed c) at_
     (LastError c).
End DevicePortConfig.

Module DevicePortConfigList.
Record t := mk {
  CurrentIndex : Z;
  PortConfigList : list DevicePortConfig.t }.
#[global] Instance eq_dec : EqDecision t.
Proof. solve_decision. Defined.
End DevicePortConfigList.

Module DeviceNetworkStatus.
Record t := mk {
  Version : Z;
  Testing : bool;
  Ports : list NetworkPortStatus.t }.
Definition zero : t := mk 0 false [].
#[global] Instance eq_dec : EqDecision t.
Proof. solve_decision. Defined.
Definition setPorts (s : t) (l : list NetworkPortStatus.t) : t :=
  mk (Version s) (Testing s) l.
(** [s.Ports[ix] = p]. *)
Definition setPort (s : t) (ix : nat) (p : NetworkPortStatus.t) : t :=
  setPorts s (<[ix := p]> (Ports s)).
End DeviceNetworkStatus.

End types.

(* ===================================================================== *)
(** ** Package devicenetwork: materializing a candidate *)
(* ===================================================================== *)

Module devicenetwork.
Import types.
Module NPC := NetworkPortConfig.
Module NPS := NetworkPortStatus.
Module DNS := DeviceNetworkStatus.
Module DPC := DevicePortConfig.

(** What [GetDhcpInfo] hands back through its pointer argument ("Updates
    DomainName and DnsServers") and its error. *)
Record DhcpInfo := mkDhcpInfo {
  dhcpDomainName : string;
  dhcpDnsServers : list net.IP;
  dhcpErr : option string }.

(** The machine the agent runs on: the interface directory, and the
    collaborators [MakeDeviceNetworkStatus] calls whose code lives outside
    the sources. [ifindexToNameRange] is the order in which [range]
    delivers the entries of [ifindexToName] during a run; Go leaves it
    open. [CheckAndGetNetworkProxy] reads the status built so far and the
    port, and hands back the port's Pacfile and an error. *)
Record Host := mkHost {
  ifindexToName : gmap Z zedrouter.linkNameType;
  ifindexToNameRange : list (Z * zedrouter.linkNameType);
  ifindexToAddrs : gmap Z (list net.IPNet);
  LinkByName : string -> option Z;
  ParseCIDR : string -> option net.IPNet;
  GetDhcpInfo : NPS.t -> DhcpInfo;
  CheckAndGetNetworkProxy : DNS.t -> NPS.t -> string * option string;
  MyIPWithOptions : Time -> net.IP -> option ipinfo.IPInfo;
  DPCIsMgmt : Z }.

Definition IfnameToIndex (h : Host) (ifname : string) : option Z :=
  zedrouter.IfnameToIndexIn (ifindexToNameRange h) (LinkByName h) ifname.

(** What [range] delivers is the entries of the map, in some order. *)
Definition rangeOk (h : Host) : Prop :=
  ifindexToNameRange h ≡ₚ map_to_list (ifindexToName h).

(** The same machine in a run in which [range] delivers [entries]. *)
Definition withRange (h : Host) (entries : list (Z * zedrouter.linkNameType))
    : Host :=
  mkHost (ifindexToName h) entries (ifindexToAddrs h) (LinkByName h)
         (ParseCIDR h) (GetDhcpInfo h) (CheckAndGetNetworkProxy h)
         (MyIPWithOptions h) (DPCIsMgmt h).

Definition IfindexToAddrs (h : Host) (index : Z) : option (list net.IPNet) :=
  zedrouter.IfindexToAddrs (ifindexToAddrs h) index.

(** The assignments at the head of the loop body: the fields copied from
    the configured port into the zero-valued [globalStatus.Ports[ix]]. *)
Definition portFromConfig (h : Host) (u : NPC.t) : NPS.t :=
  NPS.mk (NPC.IfName u) (NPC.Name u) (NPC.IsMgmt u) (NPC.Free u)
         (NPC.ProxyConfig u) (NPC.Dhcp u)
         (match ParseCIDR h (NPC.AddrSubnet u) with
          | Some subnet => subnet
          | None => NPS.Subnet NPS.zero
          end)
         (NPC.Gateway u) (NPC.DomainName u) (NPC.NtpServer u)
         (NPC.DnsServers u)
         (NPS.AddrInfoList NPS.zero) (NPS.Error NPS.zero)
         (NPS.ErrorTime NPS.zero).

(** [make([]types.AddrInfo, len(addrs))] filled with [addr.IP]. *)
Definition addrInfoOf (addrs : list net.IPNet) : list AddrInfo.t :=
  (fun addr => AddrInfo.mk (net.NetIP addr) ipinfo.zero 0) <$> addrs.

(** One iteration of the first loop of [MakeDeviceNetworkStatus], for the
    port [u] at index [ix]; [now] is what [time.Now()] answers during the
    call. The [continue] of the unknown-interface branch is the [None]
    case. *)
Definition makePort (h : Host) (now : Time) (globalStatus : DNS.t)
    (ix : nat) (u : NPC.t) : DNS.t :=
  let p := portFromConfig h u in
  let globalStatus := DNS.setPort globalStatus ix p in
  match IfnameToIndex h (NPC.IfName u) with
  | None => globalStatus
  | Some ifindex =>
      let addrs := match IfindexToAddrs h ifindex with
                   | Some addrs => addrs
                   | None => []
                   end in
      let p := NPS.setAddrInfoList p (addrInfoOf addrs) in
      let d := GetDhcpInfo h p in
      let p := NPS.setDns p (dhcpDomainName d) (dhcpDnsServers d) in
      let p := match dhcpErr d with
               | Some err =>
                   NPS.setError p ("GetDhcpInfo failed " ++ err)%string now
               | None => p
               end in
      let globalStatus := DNS.setPort globalStatus ix p in
      let '(pac, err) := CheckAndGetNetworkProxy h globalStatus p in
      let p := NPS.setPacfile p pac in
      let p := match err with
               | Some err =>
                   NPS.setError p ("GetNetworkProxy failed " ++ err)%string
                                now
               | None => p
               end in
      DNS.setPort globalStatus ix p
  end.

(** The first loop: [for ix, u := range globalConfig.Ports]. *)
Fixpoint makePorts (h : Host) (now : Time) (globalStatus : DNS.t)
    (ix : nat) (ports : list NPC.t) : DNS.t :=
  match ports with
  | [] => globalStatus
  | u :: rest => makePorts h now (makePort h now globalStatus ix u) (S ix) rest
  end.

(** [lookupPortStatusAddr]: the first address equal to [addr] on a port
    named [ifname]. *)
Fixpoint lookupAddr (l : list AddrInfo.t) (addr : net.IP)
    : option AddrInfo.t :=
  match l with
  | [] => None
  | ai :: rest =>
      if net.Equal (AddrInfo.Addr ai) addr then Some ai
      else lookupAddr rest addr
  end.

Fixpoint lookupPorts (ports : list NPS.t) (ifname : string) (addr : net.IP)
    : option AddrInfo.t :=
  match ports with
  | [] => None
  | u :: rest =>
      if negb (String.eqb (NPS.IfName u) ifname)
      then lookupPorts rest ifname addr
      else match lookupAddr (NPS.AddrInfoList u) addr with
           | Some ai => Some ai
           | None => lookupPorts rest ifname addr
           end
  end.

Definition lookupPortStatusAddr (status : DNS.t) (ifname : string)
    (addr : net.IP) : option AddrInfo.t :=
  lookupPorts (DNS.Ports status) ifname addr.

(** The second loop, "Preserve geo info for existing interface and IP
    address". *)
Definition preserveAddr (oldStatus : DNS.t) (ifname : string)
    (ai : AddrInfo.t) : AddrInfo.t :=
  match lookupPortStatusAddr oldStatus ifname (AddrInfo.Addr ai) with
  | None => ai
  | Some oai =>
      AddrInfo.mk (AddrInfo.Addr ai) (AddrInfo.Geo oai)
                  (AddrInfo.LastGeoTimestamp oai)
  end.

Definition preservePort (oldStatus : DNS.t) (u : NPS.t) : NPS.t :=
  NPS.setAddrInfoList u
    (preserveAddr oldStatus (NPS.IfName u) <$> NPS.AddrInfoList u).

Definition preserveGeo (oldStatus globalStatus : DNS.t) : DNS.t :=
  DNS.setPorts globalStatus
    (preservePort oldStatus <$> DNS.Ports globalStatus).

(** [UpdateDeviceNetworkGeo], one address: the new entry and whether it
    changed. *)
Definition updateAddrGeo (h : Host) (now : Time) (timelimit : Z)
    (ai : AddrInfo.t) : AddrInfo.t * bool :=
  if net.IsLinkLocalUnicast (AddrInfo.Addr ai) then (ai, false)
  else if now - AddrInfo.LastGeoTimestamp ai <? timelimit then (ai, false)
  else match MyIPWithOptions h now (AddrInfo.Addr ai) with
       | None => (ai, false)
       | Some info =>
           if String.eqb (ipinfo.IP info) (ipinfo.IP (AddrInfo.Geo ai))
           then (ai, false)
           else (AddrInfo.mk (AddrInfo.Addr ai) info now, true)
       end.

Definition updatePortGeo (h : Host) (now : Time) (timelimit : Z)
    (version : Z) (u : NPS.t) : NPS.t * bool :=
  if (version >=? DPCIsMgmt h) && negb (NPS.IsMgmt u) then (u, false)
  else
    let r := updateAddrGeo h now timelimit <$> NPS.AddrInfoList u in
    (NPS.setAddrInfoList u (fst <$> r), existsb snd r).

(** [func UpdateDeviceNetworkGeo(timelimit, globalStatus) bool]: the
    updated status and the [change] result. *)
Definition UpdateDeviceNetworkGeo (h : Host) (now : Time) (timelimit : Z)
    (globalStatus : DNS.t) : DNS.t * bool :=
  let r := updatePortGeo h now timelimit (DNS.Version globalStatus)
             <$> DNS.Ports globalStatus in
  (DNS.setPorts globalStatus (fst <$> r), existsb snd r).

(** The status after the first loop. *)
Definition synthesize (h : Host) (now : Time) (globalConfig : DPC.t) : DNS.t :=
  makePorts h now
    (DNS.mk (DPC.Version globalConfig) false
            (replicate (length (DPC.Ports globalConfig)) NPS.zero))
    0 (DPC.Ports globalConfig).

(** [func MakeDeviceNetworkStatus(globalConfig, oldStatus)
    (types.DeviceNetworkStatus, error)]. The [err] that is returned is the
    one declared at the top of the function; the loop body declares its
    own with [:=], so the returned one is still [nil] ([None]). *)
Definition MakeDeviceNetworkStatus (h : Host) (now : Time)
    (globalConfig : DPC.t) (oldStatus : DNS.t) : DNS.t * option string :=
  let err : option string := None in
  let globalStatus := synthesize h now globalConfig in
  let globalStatus := preserveGeo oldStatus globalStatus in
  let globalStatus := fst (UpdateDeviceNetworkGeo h now Second globalStatus) in
  (globalStatus, err).


(** An address entry as the first loop leaves it: no geolocation yet. *)
Definition fresh (ai : AddrInfo.t) : Prop :=
  AddrInfo.Geo ai = ipinfo.zero /\ AddrInfo.LastGeoTimestamp ai = 0.

(** What the status entry [p] of a configured port [u] owes to the
    configuration and to the interface directory. *)
Definition materializes (h : Host) (u : NPC.t) (p : NPS.t) : Prop :=
  NPS.IfName p = NPC.IfName u
  /\ Forall fresh (NPS.AddrInfoList p)
  /\ match IfnameToIndex h (NPC.IfName u) with
     | None => p = portFromConfig h u
     | Some ifindex =>
         AddrInfo.Addr <$> NPS.AddrInfoList p
         = net.NetIP <$> default [] (IfindexToAddrs h ifindex)
     end.


(** A status with the time stamps of its port errors blanked: what is left
    when two statuses are compared up to the time their errors were noted. *)
Definition clearErrorTime (p : NPS.t) : NPS.t :=
  NPS.setError p (NPS.Error p) 0.




(** [time.Unix(sec, nsec)]: the Unix epoch lies 62135596800 seconds after
    the zero time. *)
Definition Unix (sec nsec : Z) : Time := (62135596800 + sec) * Second + nsec.

(** [types.DeviceNetworkConfig], the older form of the configuration. *)
Record DeviceNetworkConfig := mkDeviceNetworkConfig {
  Uplink : list string;
  FreeUplinks : list string }.

(** The zero value of [types.NetworkPortConfig]. *)
Definition zeroPortConfig : NPC.t :=
  NPC.mk "" "" false false 0 "" [] "" [] [] ProxyConfig.zero.

(** [func makeDevicePortConfig(ports []string, free []string)]; the
    constants [types.DPCIsMgmt] and [types.DT_CLIENT] are arguments. *)
Definition makeDevicePortConfig (DPCIsMgmt DT_CLIENT : Z)
    (ports free : list string) : DPC.t :=
  DPC.mk DPCIsMgmt "" 0
    ((fun u =>
        NPC.mk u u true (existsb (fun f => String.eqb f u) free) DT_CLIENT
               (NPC.AddrSubnet zeroPortConfig) (NPC.Gateway zeroPortConfig)
               (NPC.DomainName zeroPortConfig) (NPC.NtpServer zeroPortConfig)
               (NPC.DnsServers zeroPortConfig) (NPC.ProxyConfig zeroPortConfig))
       <$> ports)
    0 0 "".

Definition setTimePriority (c : DPC.t) (t : Time) : DPC.t :=
  DPC.mk (DPC.Version c) (DPC.Key c) t (DPC.Ports c) (DPC.LastFailed c)
         (DPC.LastSucceeded c) (DPC.LastError c).

(** [func MakeDevicePortConfig(globalConfig types.DeviceNetworkConfig)]. *)
Definition MakeDevicePortConfig (DPCIsMgmt DT_CLIENT : Z)
    (globalConfig : DeviceNetworkConfig) : DPC.t :=
  let config := makeDevicePortConfig DPCIsMgmt DT_CLIENT
                  (Uplink globalConfig) (FreeUplinks globalConfig) in
  setTimePriority config (Unix 2 0).

(** [func LastResortDevicePortConfig(ports []string)]. *)
Definition LastResortDevicePortConfig (DPCIsMgmt DT_CLIENT : Z)
    (ports : list string) : DPC.t :=
  let config := makeDevicePortConfig DPCIsMgmt DT_CLIENT ports ports in
  setTimePriority config (Unix 0 0).

(** [func lookupOnIfname(config, ifname) *types.NetworkPortConfig]. *)
Fixpoint lookupOnIfnamePorts (ports : list NPC.t) (ifname : string)
    : option NPC.t :=
  match ports with
  | [] => None
  | c :: rest =>
      if String.eqb (NPC.IfName c) ifname then Some c
      else lookupOnIfnamePorts rest ifname
  end.

Definition lookupOnIfname (config : DPC.t) (ifname : string) : option NPC.t :=
  lookupOnIfnamePorts (DPC.Ports config) ifname.



(** A status with its geolocation annotations blanked. *)
Definition clearGeoAddr (ai : AddrInfo.t) : AddrInfo.t :=
  AddrInfo.mk (AddrInfo.Addr ai) ipinfo.zero 0.

Definition clearGeoPort (p : NPS.t) : NPS.t :=
  NPS.setAddrInfoList p (clearGeoAddr <$> NPS.AddrInfoList p).

Definition clearGeo (s : DNS.t) : DNS.t :=
  DNS.setPorts s (clearGeoPort <$> DNS.Ports s).

(** The fields of a configured port that [MakeDeviceNetworkStatus] copies
    and that no later step of it writes, and the same fields of a status
    entry. *)
Definition portConfigFields (u : NPC.t)
    : string * string * bool * bool * Z * net.IP * net.IP :=
  (NPC.IfName u, NPC.Name u, NPC.IsMgmt u, NPC.Free u, NPC.Dhcp u,
   NPC.Gateway u, NPC.NtpServer u).

Definition portStatusFields (p : NPS.t)
    : string * string * bool * bool * Z * net.IP * net.IP :=
  (NPS.IfName p, NPS.Name p, NPS.IsMgmt p, NPS.Free p, NPS.Dhcp p,
   NPS.Gateway p, NPS.NtpServer p).

End devicenetwork.

(* ===================================================================== *)
(** ** Package nim: the periodic connectivity test and its timers *)
(* ===================================================================== *)

Module nim.
Import types.

(** A [*time.Timer]: the instant it is due, and whether it is running
    ([Stop] clears it). It delivers on its channel once it is due and
    running. *)
Record Timer := mkTimer { due : Time; running : bool }.

Definition NewTimer (now : Time) (d : Z) : Timer := mkTimer (now + d) true.
Definition Stop (t : Timer) : Timer := mkTimer (due t) false.
Definition fires (t : Timer) (at_ : Time) : bool :=
  running t && (due t <=? at_).

(** [DPCPending] and [DeviceNetworkContext] with the fields the sources
    use (their declarations are in a file outside the sources). Pointer
    fields are held by value; the context is the single owner. *)
Record DPCPending := mkPending {
  Inprogress : bool;
  PendDNS : DeviceNetworkStatus.t;
  PendTimer : Timer }.

Record DeviceNetworkContext := mkCtx {
  DevicePortConfig : DevicePortConfig.t;
  DevicePortConfigList : DevicePortConfigList.t;
  DeviceNetworkStatus : DeviceNetworkStatus.t;
  Pending : DPCPending;
  NextDPCIndex : Z;
  CloudConnectivityWorks : bool;
  DPCTestDuration : Z;
  NetworkTestInterval : Z;
  NetworkTestBetterInterval : Z;
  NetworkTestTimer : Timer;
  NetworkTestBetterTimer : Timer }.

Definition setConnectivity (ctx : DeviceNetworkContext) (works : bool)
    (t : Timer) : DeviceNetworkContext :=
  mkCtx (DevicePortConfig ctx) (DevicePortConfigList ctx)
        (DeviceNetworkStatus ctx) (Pending ctx) (NextDPCIndex ctx)
        works (DPCTestDuration ctx) (NetworkTestInterval ctx)
        (NetworkTestBetterInterval ctx) t (NetworkTestBetterTimer ctx).

Definition setTestBetter (ctx : DeviceNetworkContext) (interval : Z)
    (t : Timer) : DeviceNetworkContext :=
  mkCtx (DevicePortConfig ctx) (DevicePortConfigList ctx)
        (DeviceNetworkStatus ctx) (Pending ctx) (NextDPCIndex ctx)
        (CloudConnectivityWorks ctx) (DPCTestDuration ctx)
        (NetworkTestInterval ctx) interval (NetworkTestTimer ctx) t.

(** Indexing a Go slice with an [int]: out of range is a run-time
    panic, [None]. *)
Definition index {A} (l : list A) (i : Z) : option A :=
  if i <? 0 then None else l !! Z.to_nat i.

(** The calls into the verification engine that a handler makes, in
    order. *)
Inductive Call := CallRestartVerify (caller : string).

Section Engine.
(** The probe and the engine entry point live in package devicenetwork,
    in a file outside the sources: the probe answers pass or fail, the
    entry point transforms the context. *)
Variable VerifyDeviceNetworkStatus : DeviceNetworkStatus.t -> Z -> bool.
Variable RestartVerify : DeviceNetworkContext -> string -> DeviceNetworkContext.

(** [func tryDeviceConnectivityToCloud(ctx) bool]: the context after the
    call, the result, and the engine calls made; [None] is a run-time
    panic.

    In the passing branch [cur] is the element of the slice copied into
    a local variable; the assignment to [cur.LastSucceeded] changes that
    local only, and the local is dropped when the branch ends. *)
Definition tryDeviceConnectivityToCloud (now : Time)
    (ctx : DeviceNetworkContext)
    : option (DeviceNetworkContext * bool * list Call) :=
  let pass := VerifyDeviceNetworkStatus (DeviceNetworkStatus ctx) 1 in
  if pass then
    let list := DevicePortConfigList.PortConfigList
                  (DevicePortConfigList ctx) in
    locals ←
      (if NextDPCIndex ctx <? Z.of_nat (length list) then
         cur ← index list (NextDPCIndex ctx);
         let cur := DevicePortConfig.setLastSucceeded cur now in
         Some [cur]
       else Some []);
    let ctx := setConnectivity ctx true
                 (NewTimer now (NetworkTestInterval ctx * Second)) in
    Some (ctx, true, [])
  else if negb (CloudConnectivityWorks ctx) then
    if Inprogress (Pending ctx) then Some (ctx, false, [])
    else Some (RestartVerify ctx "tryDeviceConnectivityToCloud", false,
               [CallRestartVerify "tryDeviceConnectivityToCloud"])
  else
    let ctx := setConnectivity ctx false
                 (NewTimer now (NetworkTestInterval ctx * Second)) in
    Some (ctx, false, []).

(** The [case _, ok := <-dnc.NetworkTestBetterTimer.C] arm of the select
    loops of [Run]. *)
Definition onNetworkTestBetterTimer (ok : bool)
    (dnc : DeviceNetworkContext) : DeviceNetworkContext * list Call :=
  if negb ok then (dnc, [])
  else if NextDPCIndex dnc =? 0 then (dnc, [])
  else (RestartVerify dnc "NetworkTestBetterTimer",
        [CallRestartVerify "NetworkTestBetterTimer"]).

End Engine.

(** The set-up of the test-better timer in [Run], from the configured
    [NetworkTestBetterInterval] (a [uint32] number of seconds). *)
Definition setupNetworkTestBetterTimer (now : Time) (configured : Z)
    (dnc : DeviceNetworkContext) : DeviceNetworkContext :=
  let dnc := setTestBetter dnc configured (NetworkTestBetterTimer dnc) in
  if NetworkTestBetterInterval dnc =? 0 then
    let networkTestBetterTimer := NewTimer now Hour in
    let networkTestBetterTimer := Stop networkTestBetterTimer in
    setTestBetter dnc configured networkTestBetterTimer
  else
    let networkTestBetterInterval := NetworkTestBetterInterval dnc * Second in
    let networkTestBetterTimer := NewTimer now networkTestBetterInterval in
    setTestBetter dnc configured networkTestBetterTimer.

End nim.

(* ===================================================================== *)
(** ** Package ledmanager: the consumer of the published status *)
(* ===================================================================== *)

Module ledmanager.
Import types.

(** [ledManagerContext]; [countChange] holds the values sent on the
    channel so far, oldest first. The subscriptions are left out. *)
Record ledManagerContext := mkCtx {
  countChange : list Z;
  ledCounter : Z;
  deviceNetworkStatus : DeviceNetworkStatus.t;
  usableAddressCount : Z;
  derivedLedCounter : Z }.

(** [func updateDerivedLedCounter(ctx *ledManagerContext)]. *)
Definition updateDerivedLedCounter (ctx : ledManagerContext)
    : ledManagerContext :=
  let derived :=
    if usableAddressCount ctx =? 0 then 1
    else if ledCounter ctx <? 2 then 2
    else ledCounter ctx in
  mkCtx (countChange ctx ++ [derived]) (ledCounter ctx)
        (deviceNetworkStatus ctx) (usableAddressCount ctx) derived.

Section Handlers.
(** [types.CountLocalAddrAnyNoLinkLocal], declared outside the sources. *)
Variable CountLocalAddrAnyNoLinkLocal : DeviceNetworkStatus.t -> Z.

(** [func handleDNSModify(ctxArg, key, statusArg)]; [cmp.Equal] is deep
    equality. *)
Definition handleDNSModify (ctx : ledManagerContext) (key : string)
    (status : DeviceNetworkStatus.t) : ledManagerContext :=
  if negb (String.eqb key "global") then ctx
  else if DeviceNetworkStatus.Testing status then ctx
  else if bool_decide (deviceNetworkStatus ctx = status) then ctx
  else
    let ctx := mkCtx (countChange ctx) (ledCounter ctx) status
                     (usableAddressCount ctx) (derivedLedCounter ctx) in
    let newAddrCount :=
      CountLocalAddrAnyNoLinkLocal (deviceNetworkStatus ctx) in
    if ((usableAddressCount ctx =? 0) && negb (newAddrCount =? 0))
       || (negb (usableAddressCount ctx =? 0) && (newAddrCount =? 0))
    then
      let ctx := mkCtx (countChange ctx) (ledCounter ctx)
                       (deviceNetworkStatus ctx) newAddrCount
                       (derivedLedCounter ctx) in
      updateDerivedLedCounter ctx
    else ctx.

(** [func handleLedBlinkModify(ctxArg, key, configArg)], with the
    [BlinkCounter] of the configuration. *)
Definition handleLedBlinkModify (ctx : ledManagerContext) (key : string)
    (blinkCounter : Z) : ledManagerContext :=
  if negb (String.eqb key "ledconfig") then ctx
  else if blinkCounter =? ledCounter ctx then ctx
  else
    let ctx := mkCtx (countChange ctx) blinkCounter
                     (deviceNetworkStatus ctx) (usableAddressCount ctx)
                     (derivedLedCounter ctx) in
    updateDerivedLedCounter ctx.

End Handlers.


Section MoreHandlers.
(** [types.CountLocalAddrAnyNoLinkLocal], declared outside the sources. *)
Variable CountLocalAddrAnyNoLinkLocal : DeviceNetworkStatus.t -> Z.

(** [func handleDNSDelete(ctxArg, key, statusArg)]. *)
Definition handleDNSDelete (ctx : ledManagerContext) (key : string)
    : ledManagerContext :=
  if negb (String.eqb key "global") then ctx
  else
    let ctx := mkCtx (countChange ctx) (ledCounter ctx)
                     DeviceNetworkStatus.zero
                     (usableAddressCount ctx) (derivedLedCounter ctx) in
    let newAddrCount :=
      CountLocalAddrAnyNoLinkLocal (deviceNetworkStatus ctx) in
    if ((usableAddressCount ctx =? 0) && negb (newAddrCount =? 0))
       || (negb (usableAddressCount ctx =? 0) && (newAddrCount =? 0))
    then
      let ctx := mkCtx (countChange ctx) (ledCounter ctx)
                       (deviceNetworkStatus ctx) newAddrCount
                       (derivedLedCounter ctx) in
      updateDerivedLedCounter ctx
    else ctx.

(** [func handleLedBlinkDelete(ctxArg, key, configArg)]. *)
Definition handleLedBlinkDelete (ctx : ledManagerContext) (key : string)
    : ledManagerContext :=
  if negb (String.eqb key "ledconfig") then ctx
  else
    let ctx := mkCtx (countChange ctx) 0 (deviceNetworkStatus ctx)
                     (usableAddressCount ctx) (derivedLedCounter ctx) in
    updateDerivedLedCounter ctx.

(** What the subscriptions of [Run] deliver, and the handler [Run]
    registers for each. *)
Inductive Event :=
| DNSModify (key : string) (status : DeviceNetworkStatus.t)
| DNSDelete (key : string)
| LedBlinkModify (key : string) (blinkCounter : Z)
| LedBlinkDelete (key : string).

Definition dispatch (ctx : ledManagerContext) (ev : Event)
    : ledManagerContext :=
  match ev with
  | DNSModify key status =>
      handleDNSModify CountLocalAddrAnyNoLinkLocal ctx key status
  | DNSDelete key => handleDNSDelete ctx key
  | LedBlinkModify key n => handleLedBlinkModify ctx key n
  | LedBlinkDelete key => handleLedBlinkDelete ctx key
  end.

(** The context [Run] starts from, [ledManagerContext{}], and the
    context after a sequence of events. *)
Definition initial : ledManagerContext :=
  mkCtx [] 0 DeviceNetworkStatus.zero 0 0.

Definition run (events : list Event) : ledManagerContext :=
  foldl dispatch initial events.

(** The usable address count is zero exactly when the stored status has
    no usable address. *)
Definition countAgrees (c : ledManagerContext) : Prop :=
  usableAddressCount c = 0
  <-> CountLocalAddrAnyNoLinkLocal (deviceNetworkStatus c) = 0.

End MoreHandlers.

(** The events a handler looks at: those under the key it serves, and of
    the status updates only those not marked [Testing]. *)
Definition accepted (ev : Event) : bool :=
  match ev with
  | DNSModify key status =>
      String.eqb key "global" && negb (DeviceNetworkStatus.Testing status)
  | DNSDelete key => String.eqb key "global"
  | LedBlinkModify key _ => String.eqb key "ledconfig"
  | LedBlinkDelete key => String.eqb key "ledconfig"
  end.

(** The value [updateDerivedLedCounter] derives from the two counters. *)
Definition derived (usable led : Z) : Z :=
  if usable =? 0 then 1 else if led <? 2 then 2 else led.

(** What has been sent agrees with the context: nothing sent and the
    derived counter still zero, or the last value sent is the derived
    counter, which is the value the two counters give. *)
Definition sentAgrees (c : ledManagerContext) : Prop :=
  Forall (fun v => 1 <= v) (countChange c)
  /\ ((countChange c = [] /\ derivedLedCounter c = 0)
      \/ (last (countChange c) = Some (derivedLedCounter c)
          /\ derivedLedCounter c
             = derived (usableAddressCount c) (ledCounter c))).
End ledmanager.

(* ===================================================================== *)
(** ** Concrete data used in the examples *)
(* ===================================================================== *)

Module samples.
Import types.

(** 10.0.0.1/24, 10.0.0.2/24 and 10.0.0.1/16. *)
Definition net_10_0_0_1_24 : net.IPNet :=
  net.mkIPNet [10; 0; 0; 1]%N [255; 255; 255; 0]%N.
Definition net_10_0_0_2_24 : net.IPNet :=
  net.mkIPNet [10; 0; 0; 2]%N [255; 255; 255; 0]%N.
Definition net_10_0_0_1_16 : net.IPNet :=
  net.mkIPNet [10; 0; 0; 1]%N [255; 255; 0; 0]%N.

Definition eth0 : zedrouter.linkNameType := zedrouter.mkLink "eth0" "device".

(** Interface 2 is eth0 and holds 10.0.0.1/24. *)
Definition addrs2 : gmap Z (list net.IPNet) := {[ 2 := [net_10_0_0_1_24] ]}.
Definition names2 : gmap Z zedrouter.linkNameType := {[ 2 := eth0 ]}.
Definition names2_uplink : gmap Z string := {[ 2 := "eth0"%string ]}.

(** One candidate from the cloud source with a single management port,
    never tested so far. *)
Definition port_eth0 : NetworkPortConfig.t :=
  NetworkPortConfig.mk "eth0" "eth0" true true 4 "" [] "" [] []
                       ProxyConfig.zero.
Definition candidate : DevicePortConfig.t :=
  DevicePortConfig.mk 1 "zedagent" 2000000000 [port_eth0] 0 0 "".

(** An accepted status for that candidate, and the same marked Testing. *)
Definition status_eth0 (testing : bool) : DeviceNetworkStatus.t :=
  DeviceNetworkStatus.mk 1 testing
    [NetworkPortStatus.mk "eth0" "eth0" true true ProxyConfig.zero 4
       (net.mkIPNet [] []) [] "" [] []
       [AddrInfo.mk [10; 0; 0; 1]%N ipinfo.zero 0] "" 0].

(** The engine idle on candidate 0, or on a lower-priority index. *)
Definition engine (index : Z) (works inprogress : bool)
    : nim.DeviceNetworkContext :=
  nim.mkCtx candidate (DevicePortConfigList.mk 0 [candidate])
            (status_eth0 false)
            (nim.mkPending inprogress DeviceNetworkStatus.zero
                           (nim.mkTimer 0 false))
            index works 30 300 600
            (nim.mkTimer 300000000000 true) (nim.mkTimer 600000000000 true).

(** The engine entry point, seen from outside: it resets the index to
    the head of the list. *)
Definition restart (ctx : nim.DeviceNetworkContext) (caller : string)
    : nim.DeviceNetworkContext :=
  nim.mkCtx (nim.DevicePortConfig ctx) (nim.DevicePortConfigList ctx)
            (nim.DeviceNetworkStatus ctx) (nim.Pending ctx) 0
            (nim.CloudConnectivityWorks ctx) (nim.DPCTestDuration ctx)
            (nim.NetworkTestInterval ctx) (nim.NetworkTestBetterInterval ctx)
            (nim.NetworkTestTimer ctx) (nim.NetworkTestBetterTimer ctx).

(** A host on which interface 2 is eth0 with 10.0.0.1/24 and no other
    interface exists; DHCP has nothing to add; the proxy look-up answers
    [proxyErr]; the geolocation service answers [geo]. *)
Definition host (proxyErr : option string)
    (geo : option ipinfo.IPInfo) : devicenetwork.Host :=
  devicenetwork.mkHost names2 (map_to_list names2) addrs2
    (fun _ => None) (fun _ => None)
    (fun p => devicenetwork.mkDhcpInfo (NetworkPortStatus.DomainName p)
                (NetworkPortStatus.DnsServers p) None)
    (fun _ p => (ProxyConfig.Pacfile (NetworkPortStatus.ProxyConfig p),
                 proxyErr))
    (fun _ _ => geo) 1.

(** A candidate naming an interface that does not exist, then eth0. *)
Definition port_eth9 : NetworkPortConfig.t :=
  NetworkPortConfig.mk "eth9" "eth9" true true 4 "" [] "" [] []
                       ProxyConfig.zero.
Definition candidate2 : DevicePortConfig.t :=
  DevicePortConfig.mk 1 "override" 3000000000 [port_eth9; port_eth0] 0 0 "".

(** A geolocation answer, and an old status whose eth0 address carries
    it since time 500. *)
Definition geo_here : ipinfo.IPInfo :=
  ipinfo.mk "192.0.2.7" "" "Oslo" "" "NO" "" "" "".
Definition geo_moved : ipinfo.IPInfo :=
  ipinfo.mk "198.51.100.9" "" "Bergen" "" "NO" "" "" "".
Definition old_status (stamp : Time) : DeviceNetworkStatus.t :=
  DeviceNetworkStatus.mk 1 false
    [NetworkPortStatus.mk "eth0" "eth0" true true ProxyConfig.zero 4
       (net.mkIPNet [] []) [] "" [] []
       [AddrInfo.mk [10; 0; 0; 1]%N geo_here stamp] "" 0].

(** A ledmanager that has seen no usable address yet. *)
Definition leds : ledmanager.ledManagerContext :=
  ledmanager.mkCtx [] 0 DeviceNetworkStatus.zero 0 0.

Definition countAddrs (s : DeviceNetworkStatus.t) : Z :=
  Z.of_nat (length (concat (map NetworkPortStatus.AddrInfoList
                                (DeviceNetworkStatus.Ports s)))).


(** The host of [host] with a second interface, 3, called eth1. *)
Definition eth1 : zedrouter.linkNameType := zedrouter.mkLink "eth1" "device".
Definition names23 : gmap Z zedrouter.linkNameType := <[ 3 := eth1 ]> names2.
Definition host23 (proxyErr : option string)
    (geo : option ipinfo.IPInfo) : devicenetwork.Host :=
  devicenetwork.mkHost names23 (map_to_list names23) addrs2
    (fun _ => None) (fun _ => None)
    (fun p => devicenetwork.mkDhcpInfo (NetworkPortStatus.DomainName p)
                (NetworkPortStatus.DnsServers p) None)
    (fun _ p => (ProxyConfig.Pacfile (NetworkPortStatus.ProxyConfig p),
                 proxyErr))
    (fun _ _ => geo) 1.

(** A cache in which interfaces 2 and 3 are both called eth0, 2 holding
    10.0.0.1/24 and 3 holding 10.0.0.2/24, and a host that sees its
    entries in the given order. *)
Definition names_twice : gmap Z zedrouter.linkNameType :=
  <[ 3 := eth0 ]> names2.
Definition addrs23 : gmap Z (list net.IPNet) :=
  <[ 3 := [net_10_0_0_2_24] ]> addrs2.
Definition host_twice (entries : list (Z * zedrouter.linkNameType))
    : devicenetwork.Host :=
  devicenetwork.mkHost names_twice entries addrs23
    (fun _ => None) (fun _ => None)
    (fun p => devicenetwork.mkDhcpInfo (NetworkPortStatus.DomainName p)
                (NetworkPortStatus.DnsServers p) None)
    (fun _ p => (ProxyConfig.Pacfile (NetworkPortStatus.ProxyConfig p), None))
    (fun _ _ => None) 1.

(** fe80::1/64, a link-local address, and 10.0.0.1 in its 16-byte form. *)
Definition net_fe80_1_64 : net.IPNet :=
  net.mkIPNet [254; 128; 0; 0; 0; 0; 0; 0; 0; 0; 0; 0; 0; 0; 0; 1]%N
              [255; 255; 255; 255; 255; 255; 255; 255; 0; 0; 0; 0; 0; 0; 0; 0]%N.
Definition ip_10_0_0_1_mapped : net.IP :=
  [0; 0; 0; 0; 0; 0; 0; 0; 0; 0; 255; 255; 10; 0; 0; 1]%N.

End samples.

(* ===================================================================== *)
(** * Properties *)
(* ===================================================================== *)

(** ** Addresses: [Equal] is equality of the 16-byte form *)

Module net_facts.
Import net.

Lemma bytesEqual_true a b : bytesEqual a b = true <-> a = b.
Proof. unfold bytesEqual. apply bool_decide_eq_true. Qed.

Lemma mapped_split (x : IP) :
  take 12 x = v4InV6Prefix -> x = v4InV6Prefix ++ drop 12 x.
Proof. intros H. rewrite <- H. symmetry. apply take_drop. Qed.

Lemma Equal_4_16 (a b : IP) :
  length a = 4%nat -> length b = 16%nat ->
  Equal a b = true <-> b = v4InV6Prefix ++ a.
Proof.
  intros Ha Hb. unfold Equal, IPv4len, IPv6len. rewrite Ha, Hb. simpl.
  rewrite andb_true_iff, !bytesEqual_true. split.
  - intros [H1 H2]. rewrite H2. by apply mapped_split.
  - intros ->. split; reflexivity.
Qed.

Lemma Equal_16_4 (a b : IP) :
  length a = 16%nat -> length b = 4%nat ->
  Equal a b = true <-> a = v4InV6Prefix ++ b.
Proof.
  intros Ha Hb. unfold Equal, IPv4len, IPv6len. rewrite Ha, Hb. simpl.
  rewrite andb_true_iff, !bytesEqual_true. split.
  - intros [H1 H2]. rewrite <- H2. by apply mapped_split.
  - intros ->. split; reflexivity.
Qed.

Lemma length_canon (x : IP) :
  length (canon x) = if (length x =? 4)%nat then 16%nat else length x.
Proof.
  unfold canon, IPv4len. destruct (Nat.eqb_spec (length x) 4) as [H | H].
  - rewrite length_app, H. reflexivity.
  - reflexivity.
Qed.

Lemma Equal_other_lengths (a b : IP) :
  length a <> length b ->
  ~ (length a = 4%nat /\ length b = 16%nat) ->
  ~ (length a = 16%nat /\ length b = 4%nat) ->
  Equal a b = false.
Proof.
  intros H1 H2 H3. unfold Equal, IPv4len, IPv6len.
  destruct (Nat.eqb_spec (length a) (length b)); [done |].
  destruct (Nat.eqb_spec (length a) 4); destruct (Nat.eqb_spec (length b) 16);
    destruct (Nat.eqb_spec (length a) 16); destruct (Nat.eqb_spec (length b) 4);
    simpl; try reflexivity; exfalso; tauto.
Qed.

Lemma Equal_canon (a b : IP) : Equal a b = true <-> canon a = canon b.
Proof.
  destruct (decide (length a = length b)) as [Hl | Hl].
  { unfold Equal, canon. rewrite Hl, Nat.eqb_refl, bytesEqual_true.
    destruct (length b =? IPv4len)%nat; [| done].
    split; [by intros -> | apply app_inv_head]. }
  destruct (decide (length a = 4%nat /\ length b = 16%nat)) as [[Ha Hb] | HA].
  { rewrite (Equal_4_16 _ _ Ha Hb). unfold canon, IPv4len.
    rewrite Ha, Hb. simpl. split; congruence. }
  destruct (decide (length a = 16%nat /\ length b = 4%nat)) as [[Ha Hb] | HB].
  { rewrite (Equal_16_4 _ _ Ha Hb). unfold canon, IPv4len.
    rewrite Ha, Hb. simpl. split; congruence. }
  rewrite (Equal_other_lengths _ _ Hl HA HB). split; [done |].
  intros H. apply (f_equal length) in H. rewrite !length_canon in H.
  destruct (Nat.eqb_spec (length a) 4); destruct (Nat.eqb_spec (length b) 4);
    exfalso; lia.
Qed.

Lemma Equal_refl (a : IP) : Equal a a = true.
Proof. by apply Equal_canon. Qed.

Lemma Equal_sym (a b : IP) : Equal a b = Equal b a.
Proof.
  apply eq_true_iff_eq. rewrite !Equal_canon. split; congruence.
Qed.

Lemma Equal_trans (a b c : IP) :
  Equal a b = true -> Equal b c = true -> Equal a c = true.
Proof. rewrite !Equal_canon. congruence. Qed.

(** Equal addresses are interchangeable as the second argument. *)
Lemma Equal_congr_r (x a b : IP) :
  Equal a b = true -> Equal x a = Equal x b.
Proof.
  intros H. apply eq_true_iff_eq. rewrite !Equal_canon.
  apply Equal_canon in H. split; congruence.
Qed.

Lemma To4_mapped (a : IP) :
  length a = 4%nat -> To4 (v4InV6Prefix ++ a) = Some a.
Proof.
  intros Ha. unfold To4, IPv4len, IPv6len.
  rewrite length_app, Ha. reflexivity.
Qed.

Lemma To4_short (a : IP) : length a = 4%nat -> To4 a = Some a.
Proof. intros Ha. unfold To4, IPv4len. by rewrite Ha. Qed.

(** Equal addresses have the same short form. *)
Lemma Equal_norm (a b : IP) : Equal a b = true -> norm a = norm b.
Proof.
  intros H. destruct (decide (length a = length b)) as [Hl | Hl].
  { unfold Equal in H. rewrite Hl, Nat.eqb_refl in H.
    apply bytesEqual_true in H. by subst. }
  destruct (decide (length a = 4%nat /\ length b = 16%nat)) as [[Ha Hb] | HA].
  { apply (Equal_4_16 _ _ Ha Hb) in H. subst b. unfold norm.
    by rewrite To4_mapped, To4_short. }
  destruct (decide (length a = 16%nat /\ length b = 4%nat)) as [[Ha Hb] | HB].
  { apply (Equal_16_4 _ _ Ha Hb) in H. subst a. unfold norm.
    by rewrite To4_mapped, To4_short. }
  by rewrite (Equal_other_lengths _ _ Hl HA HB) in H.
Qed.

Lemma maskedEqual_refl (nn m : list N) : maskedEqual nn m nn = true.
Proof.
  revert m. induction nn as [| a nn IH]; intros [| k m]; simpl; try done.
  by rewrite N.eqb_refl, IH.
Qed.

(** The network number of a valid network is the short form of its
    address. *)
Lemma validNet_number (n : IPNet) :
  validNet n = true -> fst (networkNumberAndMask n) = norm (NetIP n).
Proof.
  unfold validNet, networkNumberAndMask, norm.
  destruct (To4 (NetIP n)) as [ip4 |] eqn:E4.
  - repeat match goal with
           | |- context [if ?c then _ else _] => destruct c
           end; simpl; done.
  - destruct (length (NetIP n) =? IPv6len)%nat; [| done].
    repeat match goal with
           | |- context [if ?c then _ else _] => destruct c
           end; simpl; done.
Qed.

(** A valid network contains every address equal to its own. *)
Lemma Contains_Equal (n : IPNet) (ip : IP) :
  validNet n = true -> Equal (NetIP n) ip = true -> Contains n ip = true.
Proof.
  intros Hv He. apply Equal_norm in He.
  pose proof (validNet_number n Hv) as Hn.
  unfold Contains. destruct (networkNumberAndMask n) as [nn m].
  simpl in Hn. fold (norm ip). rewrite <- He, <- Hn, Nat.eqb_refl.
  apply maskedEqual_refl.
Qed.

End net_facts.

(** ** The interface directory *)

Module zedrouter_facts.
Import net net_facts zedrouter.

Lemma sameEntry_mutual (a addr : IPNet) :
  sameEntry a addr =
  Equal (NetIP a) (NetIP addr) && mutualContainment a addr.
Proof. unfold sameEntry, mutualContainment. by rewrite andb_assoc. Qed.

Lemma existsb_sameEntry_true (addrs : list IPNet) (addr : IPNet) :
  existsb (fun a => sameEntry a addr) addrs = true <->
  exists a, a ∈ addrs /\ Equal (NetIP a) (NetIP addr) = true
            /\ mutualContainment a addr = true.
Proof.
  rewrite existsb_exists. split.
  - intros (a & Hin & Hs). exists a. rewrite sameEntry_mutual in Hs.
    apply andb_true_iff in Hs. by rewrite list_elem_of_In.
  - intros (a & Hin & H1 & H2). exists a.
    rewrite sameEntry_mutual, H1, H2. by rewrite <- list_elem_of_In.
Qed.

Lemma IfindexToAddrsAdd_found m index addrs addr :
  m !! index = Some addrs ->
  existsb (fun a => sameEntry a addr) addrs = true ->
  IfindexToAddrsAdd m index addr = (m, false).
Proof. intros Hm Hf. unfold IfindexToAddrsAdd. by rewrite Hm, Hf. Qed.

Lemma IfindexToAddrsAdd_fresh m index addrs addr :
  m !! index = Some addrs ->
  existsb (fun a => sameEntry a addr) addrs = false ->
  IfindexToAddrsAdd m index addr = (<[index := addrs ++ [addr]]> m, true).
Proof. intros Hm Hf. unfold IfindexToAddrsAdd. by rewrite Hm, Hf. Qed.

(** C7, as the claim words it, fails: with 10.0.0.1/24 stored, 10.0.0.2/24
    is in mutual containment with the stored entry (each /24 contains the
    other's address), yet the call returns true and appends it. *)
Lemma IfindexToAddrsAdd_mutual_containment_appended :
  let m := samples.addrs2 in
  m !! 2 = Some [samples.net_10_0_0_1_24]
  /\ mutualContainment samples.net_10_0_0_1_24 samples.net_10_0_0_2_24 = true
  /\ snd (IfindexToAddrsAdd m 2 samples.net_10_0_0_2_24) = true
  /\ fst (IfindexToAddrsAdd m 2 samples.net_10_0_0_2_24) !! 2
     = Some [samples.net_10_0_0_1_24; samples.net_10_0_0_2_24]
  /\ ~ ((exists a, a ∈ [samples.net_10_0_0_1_24]
                   /\ mutualContainment a samples.net_10_0_0_2_24 = true) ->
        IfindexToAddrsAdd m 2 samples.net_10_0_0_2_24 = (m, false)).
Proof.
  assert (snd (IfindexToAddrsAdd samples.addrs2 2
                 samples.net_10_0_0_2_24) = true) as Hsnd
    by (vm_compute; reflexivity).
  cbv zeta. split; [| split; [| split; [| split]]].
  - vm_compute; reflexivity.
  - vm_compute; reflexivity.
  - exact Hsnd.
  - vm_compute; reflexivity.
  - intros H.
    assert (exists a, a ∈ [samples.net_10_0_0_1_24]
              /\ mutualContainment a samples.net_10_0_0_2_24 = true) as Hex.
    { exists samples.net_10_0_0_1_24.
      split; [apply list_elem_of_here | reflexivity]. }
    specialize (H Hex). rewrite H in Hsnd. discriminate.
Qed.

(** C7 (amended): for an ifindex with a stored address list, an address
    whose IP equals that of a stored entry and which is in mutual CIDR
    containment with it is not added: the call returns false and the map
    is unchanged. In particular the same IP reported with another prefix
    length is not added (for networks whose address and mask fit
    together). Any other address is appended to the list of that ifindex
    and the call returns true. *)
Theorem IfindexToAddrsAdd_dedup
    (m : gmap Z (list IPNet)) (index : Z) (addrs : list IPNet) (addr : IPNet) :
  m !! index = Some addrs ->
  ((exists a, a ∈ addrs /\ Equal (NetIP a) (NetIP addr) = true
              /\ mutualContainment a addr = true) ->
   IfindexToAddrsAdd m index addr = (m, false))
  /\ ((exists a, a ∈ addrs /\ Equal (NetIP a) (NetIP addr) = true
                 /\ validNet a = true /\ validNet addr = true) ->
      IfindexToAddrsAdd m index addr = (m, false))
  /\ (~ (exists a, a ∈ addrs /\ Equal (NetIP a) (NetIP addr) = true
                   /\ mutualContainment a addr = true) ->
      IfindexToAddrsAdd m index addr
      = (<[index := addrs ++ [addr]]> m, true)).
Proof.
  intros Hm. split; [| split].
  - intros H. apply (IfindexToAddrsAdd_found _ _ _ _ Hm).
    by apply existsb_sameEntry_true.
  - intros (a & Hin & He & Hva & Hvaddr).
    apply (IfindexToAddrsAdd_found _ _ _ _ Hm).
    apply existsb_sameEntry_true. exists a. split; [done |].
    split; [done |]. unfold mutualContainment.
    rewrite (Contains_Equal a (NetIP addr) Hva He).
    rewrite Equal_sym in He.
    by rewrite (Contains_Equal addr (NetIP a) Hvaddr He).
  - intros H. apply (IfindexToAddrsAdd_fresh _ _ _ _ Hm).
    apply not_true_is_false. intros Hf. apply H.
    by apply existsb_sameEntry_true.
Qed.

(** The same address with prefix length 16 instead of 24 is not added. *)
Lemma IfindexToAddrsAdd_dedup_witness :
  IfindexToAddrsAdd samples.addrs2 2 samples.net_10_0_0_1_16
  = (samples.addrs2, false).
Proof.
  apply (proj1 (proj2 (IfindexToAddrsAdd_dedup
                  samples.addrs2 2
                  [samples.net_10_0_0_1_24] samples.net_10_0_0_1_16
                  ltac:(vm_compute; reflexivity)))).
  exists samples.net_10_0_0_1_24.
  split; [apply list_elem_of_here |].
  split; [| split]; vm_compute; reflexivity.
Defined.

(** C8: for an ifindex present in the name map, [IfindexToNameDel]
    removes the entry and returns true whether or not the supplied name
    matches the stored one; for an ifindex not in the map it returns
    false and leaves the map as it was. Both variants of the function
    behave so. *)
Theorem IfindexToNameDel_authoritative
    (m : gmap Z linkNameType) (mu : gmap Z string) (index : Z) (name : string) :
  (is_Some (m !! index) ->
   IfindexToNameDel m index name = (delete index m, true)
   /\ fst (IfindexToNameDel m index name) !! index = None)
  /\ (m !! index = None -> IfindexToNameDel m index name = (m, false))
  /\ (is_Some (mu !! index) ->
      IfindexToNameDel_uplink mu index name = (delete index mu, true)
      /\ fst (IfindexToNameDel_uplink mu index name) !! index = None)
  /\ (mu !! index = None ->
      IfindexToNameDel_uplink mu index name = (mu, false)).
Proof.
  unfold IfindexToNameDel, IfindexToNameDel_uplink.
  split; [| split; [| split]].
  - intros [s Hs]. rewrite Hs.
    destruct (negb _); simpl; (split; [done | apply lookup_delete_eq]).
  - intros ->. reflexivity.
  - intros [s Hs]. rewrite Hs.
    destruct (negb _); simpl; (split; [done | apply lookup_delete_eq]).
  - intros ->. reflexivity.
Qed.

(** Index 2 is stored as "eth0"; deleting it under the name "vif1"
    removes it all the same. Index 3 is unknown. *)
Lemma IfindexToNameDel_authoritative_witness :
  (IfindexToNameDel samples.names2 2 "vif1"
   = (delete 2 samples.names2, true)
   /\ fst (IfindexToNameDel samples.names2 2 "vif1") !! 2 = None)
  /\ IfindexToNameDel samples.names2 3 "vif1"
     = (samples.names2, false)
  /\ (IfindexToNameDel_uplink samples.names2_uplink 2 "vif1"
      = (delete 2 samples.names2_uplink, true)
      /\ fst (IfindexToNameDel_uplink samples.names2_uplink 2 "vif1") !! 2
         = None)
  /\ IfindexToNameDel_uplink samples.names2_uplink 3 "vif1"
     = (samples.names2_uplink, false).
Proof.
  pose proof (IfindexToNameDel_authoritative
                samples.names2 samples.names2_uplink 2 "vif1")
    as (H1 & _ & H3 & _).
  pose proof (IfindexToNameDel_authoritative
                samples.names2 samples.names2_uplink 3 "vif1")
    as (_ & H2 & _ & H4).
  split; [apply H1; eexists; vm_compute; reflexivity |].
  split; [apply H2; vm_compute; reflexivity |].
  split; [apply H3; eexists; vm_compute; reflexivity |].
  apply H4; vm_compute; reflexivity.
Defined.

End zedrouter_facts.

(** ** The periodic connectivity test and the test-better timer *)

Module nim_facts.
Import types nim.

Section Engine.
Variable VerifyDeviceNetworkStatus : DeviceNetworkStatus.t -> Z -> bool.
Variable RestartVerify : DeviceNetworkContext -> string -> DeviceNetworkContext.

Local Abbreviation try_ := (tryDeviceConnectivityToCloud VerifyDeviceNetworkStatus
                                                RestartVerify).

(** A failing probe never panics, and what it does is decided by the
    two flags. *)
Lemma try_failing (now : Time) (ctx : DeviceNetworkContext) :
  VerifyDeviceNetworkStatus (DeviceNetworkStatus ctx) 1 = false ->
  try_ now ctx =
  Some (if CloudConnectivityWorks ctx
        then (setConnectivity ctx false
                (NewTimer now (NetworkTestInterval ctx * Second)),
              false, [])
        else if Inprogress (Pending ctx) then (ctx, false, [])
        else (RestartVerify ctx "tryDeviceConnectivityToCloud", false,
              [CallRestartVerify "tryDeviceConnectivityToCloud"])).
Proof.
  intros Hp. unfold tryDeviceConnectivityToCloud. rewrite Hp.
  destruct (CloudConnectivityWorks ctx); simpl; [reflexivity |].
  by destruct (Inprogress (Pending ctx)).
Qed.

(** A passing probe makes no engine call. *)
Lemma try_passing (now : Time) (ctx ctx' : DeviceNetworkContext)
    (r : bool) (calls : list Call) :
  VerifyDeviceNetworkStatus (DeviceNetworkStatus ctx) 1 = true ->
  try_ now ctx = Some (ctx', r, calls) ->
  ctx' = setConnectivity ctx true
           (NewTimer now (NetworkTestInterval ctx * Second))
  /\ r = true /\ calls = [].
Proof.
  intros Hp. unfold tryDeviceConnectivityToCloud. rewrite Hp.
  destruct (NextDPCIndex ctx <? _);
    [destruct (index _ _) |]; simpl; intros H; by simplify_eq.
Qed.

(** C1: when the previous periodic test succeeded
    ([CloudConnectivityWorks] is true), one failing probe in
    [tryDeviceConnectivityToCloud] does not call [RestartVerify] and
    returns false. In the context it leaves, [CloudConnectivityWorks] is
    false and the network-test timer is a running timer due
    [NetworkTestInterval] seconds after the call (it fires at exactly the
    instants from then on); every other field is as it was. Whatever the
    state, this function calls [RestartVerify] only when the probe fails,
    [CloudConnectivityWorks] is already false and no verification is in
    progress; and in that case it does call it. *)
Theorem tryDeviceConnectivityToCloud_debounce
    (now : Time) (ctx : DeviceNetworkContext) :
  (CloudConnectivityWorks ctx = true ->
   VerifyDeviceNetworkStatus (DeviceNetworkStatus ctx) 1 = false ->
   exists ctx',
     try_ now ctx = Some (ctx', false, [])
     /\ CloudConnectivityWorks ctx' = false
     /\ running (NetworkTestTimer ctx') = true
     /\ due (NetworkTestTimer ctx')
        = now + NetworkTestInterval ctx * 1000000000
     /\ (forall at_,
           fires (NetworkTestTimer ctx') at_ = true
           <-> now + NetworkTestInterval ctx * 1000000000 <= at_)
     /\ DevicePortConfig ctx' = DevicePortConfig ctx
     /\ DevicePortConfigList ctx' = DevicePortConfigList ctx
     /\ DeviceNetworkStatus ctx' = DeviceNetworkStatus ctx
     /\ Pending ctx' = Pending ctx
     /\ NextDPCIndex ctx' = NextDPCIndex ctx
     /\ DPCTestDuration ctx' = DPCTestDuration ctx
     /\ NetworkTestInterval ctx' = NetworkTestInterval ctx
     /\ NetworkTestBetterInterval ctx' = NetworkTestBetterInterval ctx
     /\ NetworkTestBetterTimer ctx' = NetworkTestBetterTimer ctx)
  /\ (forall ctx' r calls,
        try_ now ctx = Some (ctx', r, calls) ->
        (calls <> [] <->
         VerifyDeviceNetworkStatus (DeviceNetworkStatus ctx) 1 = false
         /\ CloudConnectivityWorks ctx = false
         /\ Inprogress (Pending ctx) = false)
        /\ (calls <> [] ->
            calls = [CallRestartVerify "tryDeviceConnectivityToCloud"]
            /\ ctx' = RestartVerify ctx "tryDeviceConnectivityToCloud")).
Proof.
  split.
  - intros Hw Hp. rewrite (try_failing now ctx Hp), Hw.
    eexists. split; [reflexivity |].
    cbn [setConnectivity CloudConnectivityWorks NetworkTestTimer NewTimer
         running due DevicePortConfig DevicePortConfigList
         DeviceNetworkStatus Pending NextDPCIndex DPCTestDuration
         NetworkTestInterval NetworkTestBetterInterval
         NetworkTestBetterTimer].
    split; [reflexivity |]. split; [reflexivity |].
    split; [reflexivity |]. split; [| by repeat split].
    intros at_. unfold fires, NewTimer. cbn [running due andb].
    rewrite Z.leb_le. reflexivity.
  - intros ctx' r calls H.
    destruct (VerifyDeviceNetworkStatus (DeviceNetworkStatus ctx) 1) eqn:Hp.
    + destruct (try_passing now ctx ctx' r calls Hp H) as (_ & _ & ->).
      split; [split |]; [done | by intros (? & _) | done].
    + rewrite (try_failing now ctx Hp) in H.
      destruct (CloudConnectivityWorks ctx);
        [| destruct (Inprogress (Pending ctx))]; simplify_eq;
        (split; [split |]); try done; try (by intros (_ & ? & ?)).
Qed.

(** C2: at a firing of the test-better timer [RestartVerify] is called
    exactly when [NextDPCIndex] is not 0, which for an index (a number
    that is not negative) is exactly when the engine holds a
    lower-priority candidate, [NextDPCIndex > 0]; a firing at index 0
    does nothing. When the configured [NetworkTestBetterInterval] is
    zero the timer is created stopped, so it never fires. *)
Theorem testBetterTimer_restarts_iff_lower_priority
    (dnc : DeviceNetworkContext) :
  (snd (onNetworkTestBetterTimer RestartVerify true dnc) <> []
   <-> NextDPCIndex dnc <> 0)
  /\ (0 <= NextDPCIndex dnc ->
      (snd (onNetworkTestBetterTimer RestartVerify true dnc) <> []
       <-> NextDPCIndex dnc > 0))
  /\ (NextDPCIndex dnc <> 0 ->
      onNetworkTestBetterTimer RestartVerify true dnc
      = (RestartVerify dnc "NetworkTestBetterTimer",
         [CallRestartVerify "NetworkTestBetterTimer"]))
  /\ (NextDPCIndex dnc = 0 ->
      onNetworkTestBetterTimer RestartVerify true dnc = (dnc, []))
  /\ (forall now at_,
        running (NetworkTestBetterTimer
                   (setupNetworkTestBetterTimer now 0 dnc)) = false
        /\ fires (NetworkTestBetterTimer
                    (setupNetworkTestBetterTimer now 0 dnc)) at_ = false).
Proof.
  unfold onNetworkTestBetterTimer. simpl.
  destruct (Z.eqb_spec (NextDPCIndex dnc) 0) as [H0 | H0]; simpl.
  - split; [split; [done | lia] |].
    split; [intros _; split; [done | lia] |].
    split; [lia |]. split; [done |]. done.
  - split; [split; [done | done] |].
    split; [intros Hnn; split; [lia | done] |].
    split; [done |]. split; [done |]. done.
Qed.

End Engine.

(** The engine holds candidate 0 whose last test passed; the probe now
    fails once. At index 1 the test-better timer restarts verification. *)
Lemma tryDeviceConnectivityToCloud_debounce_witness :
  exists ctx',
    tryDeviceConnectivityToCloud (fun _ _ => false) samples.restart 1000
                                 (samples.engine 0 true false)
    = Some (ctx', false, [])
    /\ CloudConnectivityWorks ctx' = false
    /\ running (NetworkTestTimer ctx') = true
    /\ due (NetworkTestTimer ctx') = 300000001000.
Proof.
  destruct (proj1 (tryDeviceConnectivityToCloud_debounce
                     (fun _ _ => false) samples.restart 1000
                     (samples.engine 0 true false)) eq_refl eq_refl)
    as (ctx' & Hcall & Hworks & Hrun & Hdue & _).
  exists ctx'. split; [exact Hcall |]. split; [exact Hworks |].
  split; [exact Hrun | exact Hdue].
Defined.

Lemma testBetterTimer_restarts_witness :
  onNetworkTestBetterTimer samples.restart true (samples.engine 1 true false)
  = (samples.restart (samples.engine 1 true false) "NetworkTestBetterTimer",
     [CallRestartVerify "NetworkTestBetterTimer"]).
Proof.
  apply (proj1 (proj2 (proj2 (testBetterTimer_restarts_iff_lower_priority
                                samples.restart
                                (samples.engine 1 true false))))).
  vm_compute. discriminate.
Defined.

(** The list is left as it was by a passing test, whatever the index. *)
Lemma try_passing_keeps_list
    (V : DeviceNetworkStatus.t -> Z -> bool)
    (R : DeviceNetworkContext -> string -> DeviceNetworkContext)
    (now : Time) (ctx ctx' : DeviceNetworkContext) (r : bool)
    (calls : list Call) :
  V (DeviceNetworkStatus ctx) 1 = true ->
  tryDeviceConnectivityToCloud V R now ctx = Some (ctx', r, calls) ->
  DevicePortConfigList ctx' = DevicePortConfigList ctx
  /\ NetworkTestTimer ctx' = NewTimer now (NetworkTestInterval ctx * Second).
Proof.
  intros Hp H. by destruct (try_passing V R now ctx ctx' r calls Hp H) as (-> & _).
Qed.

(** C3 (the code does not do this): the engine holds candidate 0, never
    tested ([LastSucceeded] is the zero time); the probe passes at time
    1000. The call re-arms the network-test timer, but the candidate in
    the list still has [LastSucceeded] zero, not 1000. *)
Theorem tryDeviceConnectivityToCloud_LastSucceeded_not_recorded :
  exists ctx',
    tryDeviceConnectivityToCloud (fun _ _ => true) samples.restart 1000
                                 (samples.engine 0 true false)
    = Some (ctx', true, [])
    /\ NetworkTestTimer ctx' = NewTimer 1000 (300 * Second)
    /\ (DevicePortConfig.LastSucceeded <$>
        index (DevicePortConfigList.PortConfigList (DevicePortConfigList ctx'))
              0) = Some 0
    /\ DevicePortConfigList ctx'
       = DevicePortConfigList (samples.engine 0 true false).
Proof. eexists. split; [reflexivity |]. by vm_compute. Qed.

End nim_facts.

(** ** The LED manager *)

Module ledmanager_facts.
Import types ledmanager.

(** C9: for a status update whose [Testing] flag is set,
    [handleDNSModify] changes nothing: the stored status, the usable
    address count and the derived counter are as before, and nothing is
    sent on the blink-count channel. *)
Theorem handleDNSModify_ignores_Testing
    (count : DeviceNetworkStatus.t -> Z) (ctx : ledManagerContext)
    (key : string) (status : DeviceNetworkStatus.t) :
  DeviceNetworkStatus.Testing status = true ->
  handleDNSModify count ctx key status = ctx
  /\ deviceNetworkStatus (handleDNSModify count ctx key status)
     = deviceNetworkStatus ctx
  /\ usableAddressCount (handleDNSModify count ctx key status)
     = usableAddressCount ctx
  /\ derivedLedCounter (handleDNSModify count ctx key status)
     = derivedLedCounter ctx
  /\ countChange (handleDNSModify count ctx key status) = countChange ctx.
Proof.
  intros Ht.
  assert (handleDNSModify count ctx key status = ctx) as ->; [| done].
  unfold handleDNSModify. rewrite Ht. by destruct (negb _).
Qed.

Lemma handleDNSModify_ignores_Testing_witness :
  handleDNSModify samples.countAddrs samples.leds "global"
                  (samples.status_eth0 true) = samples.leds.
Proof.
  apply (proj1 (handleDNSModify_ignores_Testing samples.countAddrs
                  samples.leds "global" (samples.status_eth0 true)
                  eq_refl)).
Defined.

(** The same update without the flag is taken: one usable address, and
    the counter 2 is sent. *)
Example handleDNSModify_accepts_final :
  countChange (handleDNSModify samples.countAddrs samples.leds "global"
                               (samples.status_eth0 false)) = [2].
Proof. by vm_compute. Qed.

(** C10: after [updateDerivedLedCounter] the derived counter is at least
    1; it is 1 exactly when the usable address count is zero, at least 2
    otherwise; and it is the value sent on the channel. *)
Theorem updateDerivedLedCounter_at_least_one (ctx : ledManagerContext) :
  1 <= derivedLedCounter (updateDerivedLedCounter ctx)
  /\ (derivedLedCounter (updateDerivedLedCounter ctx) = 1
      <-> usableAddressCount ctx = 0)
  /\ (usableAddressCount ctx <> 0 ->
      2 <= derivedLedCounter (updateDerivedLedCounter ctx))
  /\ derivedLedCounter (updateDerivedLedCounter ctx) <> 0
  /\ countChange (updateDerivedLedCounter ctx)
     = countChange ctx ++ [derivedLedCounter (updateDerivedLedCounter ctx)]
  /\ usableAddressCount (updateDerivedLedCounter ctx) = usableAddressCount ctx.
Proof.
  unfold updateDerivedLedCounter. simpl.
  destruct (Z.eqb_spec (usableAddressCount ctx) 0) as [H0 | H0];
    [| destruct (Z.ltb_spec (ledCounter ctx) 2)];
    repeat match goal with |- _ /\ _ => split end;
    try done; try lia; try (split; intros; lia).
Qed.

(** Three usable addresses and no counter from the cloud yet: 2 blinks. *)
Lemma updateDerivedLedCounter_at_least_one_witness :
  2 <= derivedLedCounter
         (updateDerivedLedCounter
            (mkCtx [] 0 (samples.status_eth0 false) 3 0)).
Proof.
  apply (proj1 (proj2 (proj2 (updateDerivedLedCounter_at_least_one
                                (mkCtx [] 0 (samples.status_eth0 false) 3 0))))).
  vm_compute. discriminate.
Defined.

End ledmanager_facts.

(** ** Materializing a candidate *)

Module devicenetwork_facts.
Import types net net_facts devicenetwork.

(** *** Record housekeeping *)

Lemma setAddrInfoList_id (p : NPS.t) :
  NPS.setAddrInfoList p (NPS.AddrInfoList p) = p.
Proof. by destruct p. Qed.

Lemma setPorts_id (s : DNS.t) : DNS.setPorts s (DNS.Ports s) = s.
Proof. by destruct s. Qed.

Lemma setPort_setPort (s : DNS.t) (ix : nat) (p q : NPS.t) :
  DNS.setPort (DNS.setPort s ix p) ix q = DNS.setPort s ix q.
Proof.
  unfold DNS.setPort, DNS.setPorts. simpl.
  by rewrite list_insert_insert_eq.
Qed.

(** *** The first loop *)

Lemma Forall_fresh_addrInfoOf (addrs : list IPNet) :
  Forall fresh (addrInfoOf addrs).
Proof.
  unfold addrInfoOf. apply Forall_fmap, Forall_forall. by intros.
Qed.

Lemma Addr_addrInfoOf (addrs : list IPNet) :
  AddrInfo.Addr <$> addrInfoOf addrs = NetIP <$> addrs.
Proof. unfold addrInfoOf. rewrite <- list_fmap_compose. reflexivity. Qed.

(** One iteration writes one entry, and the entry is the materialized
    port. *)
Lemma makePort_spec (h : Host) (now : Time) (gs : DNS.t) (ix : nat)
    (u : NPC.t) :
  exists p, makePort h now gs ix u = DNS.setPort gs ix p
            /\ materializes h u p.
Proof.
  unfold makePort, materializes.
  destruct (IfnameToIndex h (NPC.IfName u)) as [ifindex |] eqn:Hidx.
  - match goal with
    | |- context [CheckAndGetNetworkProxy h ?g ?q] =>
        destruct (CheckAndGetNetworkProxy h g q) as [pac err]
    end.
    eexists. split; [rewrite !setPort_setPort; reflexivity |].
    destruct (dhcpErr _), err; simpl;
      (split; [reflexivity |]);
      (split; [apply Forall_fresh_addrInfoOf | apply Addr_addrInfoOf]).
  - exists (portFromConfig h u). split; [reflexivity |].
    split; [reflexivity |]. split; [constructor | reflexivity].
Qed.

Lemma makePorts_spec (h : Host) (now : Time) (ports : list NPC.t) :
  forall (gs : DNS.t) (ix : nat),
    (ix + length ports <= length (DNS.Ports gs))%nat ->
    DNS.Version (makePorts h now gs ix ports) = DNS.Version gs
    /\ DNS.Testing (makePorts h now gs ix ports) = DNS.Testing gs
    /\ length (DNS.Ports (makePorts h now gs ix ports))
       = length (DNS.Ports gs)
    /\ (forall j, (j < ix)%nat ->
          DNS.Ports (makePorts h now gs ix ports) !! j = DNS.Ports gs !! j)
    /\ (forall k u, ports !! k = Some u ->
          exists p, DNS.Ports (makePorts h now gs ix ports) !! (ix + k)%nat
                    = Some p
                    /\ materializes h u p).
Proof.
  induction ports as [| u rest IH]; intros gs ix Hlen; simpl in *.
  - repeat split; done.
  - destruct (makePort_spec h now gs ix u) as (p & Hp & Hm).
    rewrite Hp.
    assert (length (DNS.Ports (DNS.setPort gs ix p)) = length (DNS.Ports gs))
      as Hl by (simpl; apply length_insert).
    destruct (IH (DNS.setPort gs ix p) (S ix)) as (Hv & Ht & Hn & Hlow & Hk);
      [rewrite Hl; lia |].
    split; [by rewrite Hv |]. split; [by rewrite Ht |].
    split; [by rewrite Hn |]. split.
    + intros j Hj. rewrite Hlow by lia. simpl.
      apply list_lookup_insert_ne. lia.
    + intros [| k] u' Hu'; simpl in Hu'.
      * inversion Hu'; subst u'. exists p. split; [| done].
        rewrite Nat.add_0_r, Hlow by lia. simpl.
        apply list_lookup_insert_eq. lia.
      * destruct (Hk k u' Hu') as (p' & Hp' & Hm').
        exists p'. split; [| done].
        by replace (ix + S k)%nat with (S ix + k)%nat by lia.
Qed.

(** The status after the first loop has one entry per configured port,
    each materialized from its port. *)
Lemma synthesize_spec (h : Host) (now : Time) (cfg : DPC.t) :
  DNS.Version (synthesize h now cfg) = DPC.Version cfg
  /\ length (DNS.Ports (synthesize h now cfg)) = length (DPC.Ports cfg)
  /\ (forall k u, DPC.Ports cfg !! k = Some u ->
        exists p, DNS.Ports (synthesize h now cfg) !! k = Some p
                  /\ materializes h u p).
Proof.
  unfold synthesize.
  destruct (makePorts_spec h now (DPC.Ports cfg)
              (DNS.mk (DPC.Version cfg) false
                      (replicate (length (DPC.Ports cfg)) NPS.zero)) 0)
    as (Hv & _ & Hn & _ & Hk).
  { simpl. by rewrite length_replicate. }
  split; [done |]. split.
  - rewrite Hn. simpl. apply length_replicate.
  - intros k u Hu. apply (Hk k u Hu).
Qed.

Lemma synthesize_fresh (h : Host) (now : Time) (cfg : DPC.t) (p : NPS.t) :
  p ∈ DNS.Ports (synthesize h now cfg) -> Forall fresh (NPS.AddrInfoList p).
Proof.
  intros Hin. apply list_elem_of_lookup in Hin as [k Hk].
  destruct (synthesize_spec h now cfg) as (_ & Hn & Hspec).
  assert (k < length (DPC.Ports cfg))%nat as Hlt
    by (rewrite <- Hn; by eapply lookup_lt_Some).
  apply lookup_lt_is_Some in Hlt as [u Hu].
  destruct (Hspec k u Hu) as (p' & Hp' & _ & Hf & _).
  rewrite Hk in Hp'. by inversion Hp'; subst.
Qed.

(** *** The preserve loop *)

Lemma preserveAddr_Addr (old : DNS.t) (n : string) (ai : AddrInfo.t) :
  AddrInfo.Addr (preserveAddr old n ai) = AddrInfo.Addr ai.
Proof. unfold preserveAddr. by destruct (lookupPortStatusAddr _ _ _). Qed.

Lemma preservePort_addrs (old : DNS.t) (u : NPS.t) :
  AddrInfo.Addr <$> NPS.AddrInfoList (preservePort old u)
  = AddrInfo.Addr <$> NPS.AddrInfoList u.
Proof.
  unfold preservePort. simpl. rewrite <- list_fmap_compose.
  apply list_fmap_ext. intros i x _. apply preserveAddr_Addr.
Qed.

Lemma lookupAddr_Some (l : list AddrInfo.t) (a : IP) (x : AddrInfo.t) :
  lookupAddr l a = Some x -> x ∈ l /\ Equal (AddrInfo.Addr x) a = true.
Proof.
  induction l as [| y l IH]; simpl; [done |].
  destruct (Equal (AddrInfo.Addr y) a) eqn:E.
  - intros [= ->]. split; [apply list_elem_of_here | done].
  - intros H. destruct (IH H) as [Hin He].
    split; [by apply list_elem_of_further | done].
Qed.

Lemma lookupAddr_is_Some (l : list AddrInfo.t) (a : IP) (x : AddrInfo.t) :
  x ∈ l -> Equal (AddrInfo.Addr x) a = true -> is_Some (lookupAddr l a).
Proof.
  induction l as [| y l IH]; simpl; intros Hin He.
  - by apply elem_of_nil in Hin.
  - destruct (Equal (AddrInfo.Addr y) a) eqn:E; [by eexists |].
    apply elem_of_cons in Hin as [-> | Hin]; [congruence | by apply IH].
Qed.

Lemma lookupAddr_congr (l : list AddrInfo.t) (a b : IP) :
  Equal a b = true -> lookupAddr l a = lookupAddr l b.
Proof.
  intros He. induction l as [| y l IH]; simpl; [done |].
  by rewrite (Equal_congr_r _ a b He), IH.
Qed.

Lemma lookupPorts_Some (ports : list NPS.t) (n : string) (a : IP)
    (x : AddrInfo.t) :
  lookupPorts ports n a = Some x ->
  exists u, u ∈ ports /\ NPS.IfName u = n /\ x ∈ NPS.AddrInfoList u
            /\ Equal (AddrInfo.Addr x) a = true.
Proof.
  induction ports as [| u ports IH]; simpl; [done |].
  destruct (String.eqb_spec (NPS.IfName u) n) as [Hn | Hn]; simpl.
  - destruct (lookupAddr (NPS.AddrInfoList u) a) as [y |] eqn:E.
    + intros [= ->]. apply lookupAddr_Some in E as [Hin He].
      exists u. split; [apply list_elem_of_here | done].
    + intros H. destruct (IH H) as (u' & Hin & Hrest).
      exists u'. split; [by apply list_elem_of_further | done].
  - intros H. destruct (IH H) as (u' & Hin & Hrest).
    exists u'. split; [by apply list_elem_of_further | done].
Qed.

Lemma lookupPorts_is_Some (ports : list NPS.t) (n : string) (a : IP)
    (u : NPS.t) (x : AddrInfo.t) :
  u ∈ ports -> NPS.IfName u = n -> x ∈ NPS.AddrInfoList u ->
  Equal (AddrInfo.Addr x) a = true -> is_Some (lookupPorts ports n a).
Proof.
  intros Hu Hn Hx He. induction ports as [| v ports IH]; simpl.
  - by apply elem_of_nil in Hu.
  - destruct (String.eqb_spec (NPS.IfName v) n) as [Hv | Hv]; simpl.
    + destruct (lookupAddr (NPS.AddrInfoList v) a) as [y |] eqn:E;
        [by eexists |].
      apply elem_of_cons in Hu as [-> | Hu]; [| by apply IH].
      destruct (lookupAddr_is_Some _ _ _ Hx He) as [y Hy]. congruence.
    + apply elem_of_cons in Hu as [-> | Hu]; [done | by apply IH].
Qed.

Lemma lookupPorts_congr (ports : list NPS.t) (n : string) (a b : IP) :
  Equal a b = true -> lookupPorts ports n a = lookupPorts ports n b.
Proof.
  intros He. induction ports as [| u ports IH]; simpl; [done |].
  by rewrite (lookupAddr_congr _ a b He), IH.
Qed.

(** After the preserve loop an address found in the old status carries
    the old annotation. *)
Lemma preserveAddr_found (old : DNS.t) (n : string) (ai oai : AddrInfo.t) :
  lookupPortStatusAddr old n (AddrInfo.Addr ai) = Some oai ->
  AddrInfo.Geo (preserveAddr old n ai) = AddrInfo.Geo oai
  /\ AddrInfo.LastGeoTimestamp (preserveAddr old n ai)
     = AddrInfo.LastGeoTimestamp oai.
Proof. unfold preserveAddr. by intros ->. Qed.

(** *** The immediate geolocation check *)

Lemma updateAddrGeo_cases (h : Host) (now : Time) (tl : Z) (ai : AddrInfo.t) :
  updateAddrGeo h now tl ai = (ai, false)
  \/ (tl <= now - AddrInfo.LastGeoTimestamp ai
      /\ exists info,
           MyIPWithOptions h now (AddrInfo.Addr ai) = Some info
           /\ ipinfo.IP info <> ipinfo.IP (AddrInfo.Geo ai)
           /\ updateAddrGeo h now tl ai
              = (AddrInfo.mk (AddrInfo.Addr ai) info now, true)).
Proof.
  unfold updateAddrGeo.
  destruct (IsLinkLocalUnicast _); [by left |].
  destruct (Z.ltb_spec (now - AddrInfo.LastGeoTimestamp ai) tl);
    [by left |].
  destruct (MyIPWithOptions h now (AddrInfo.Addr ai)) as [info |];
    [| by left].
  destruct (String.eqb_spec (ipinfo.IP info) (ipinfo.IP (AddrInfo.Geo ai)));
    [by left |].
  right. split; [done |]. by exists info.
Qed.

Lemma updateAddrGeo_Addr (h : Host) (now : Time) (tl : Z) (ai : AddrInfo.t) :
  AddrInfo.Addr (fst (updateAddrGeo h now tl ai)) = AddrInfo.Addr ai.
Proof.
  destruct (updateAddrGeo_cases h now tl ai) as [-> | (_ & info & _ & _ & ->)];
    reflexivity.
Qed.

Lemma updateAddrGeo_unchanged (h : Host) (now : Time) (tl : Z)
    (ai : AddrInfo.t) :
  snd (updateAddrGeo h now tl ai) = false ->
  fst (updateAddrGeo h now tl ai) = ai.
Proof.
  destruct (updateAddrGeo_cases h now tl ai) as [-> | (_ & info & _ & _ & ->)];
    [reflexivity | discriminate].
Qed.

Lemma existsb_false_fst {A} (f : A -> A * bool) (l : list A) :
  (forall x, snd (f x) = false -> fst (f x) = x) ->
  existsb snd (f <$> l) = false -> fst <$> (f <$> l) = l.
Proof.
  intros Hf. induction l as [| x l IH]; [done |].
  rewrite !fmap_cons. cbn [existsb].
  intros H. apply orb_false_iff in H as [Hx Hl].
  rewrite (Hf x Hx). f_equal. by apply IH.
Qed.

Lemma updatePortGeo_unchanged (h : Host) (now : Time) (tl v : Z) (u : NPS.t) :
  snd (updatePortGeo h now tl v u) = false ->
  fst (updatePortGeo h now tl v u) = u.
Proof.
  unfold updatePortGeo. destruct (_ && _); [done |]. cbn [fst snd].
  intros H. rewrite (existsb_false_fst _ _ (updateAddrGeo_unchanged h now tl) H).
  apply setAddrInfoList_id.
Qed.

Lemma UpdateDeviceNetworkGeo_unchanged (h : Host) (now : Time) (tl : Z)
    (gs : DNS.t) :
  snd (UpdateDeviceNetworkGeo h now tl gs) = false ->
  fst (UpdateDeviceNetworkGeo h now tl gs) = gs.
Proof.
  unfold UpdateDeviceNetworkGeo. cbn [fst snd]. intros H.
  rewrite (existsb_false_fst _ _
             (updatePortGeo_unchanged h now tl (DNS.Version gs)) H).
  apply setPorts_id.
Qed.

(** An entry of a checked port is the entry before the check, or that
    entry refreshed. *)
Lemma updatePortGeo_lookup (h : Host) (now : Time) (tl v : Z) (u : NPS.t)
    (i : nat) (ai : AddrInfo.t) :
  NPS.AddrInfoList (fst (updatePortGeo h now tl v u)) !! i = Some ai ->
  exists ai0, NPS.AddrInfoList u !! i = Some ai0
              /\ (ai = ai0 \/ ai = fst (updateAddrGeo h now tl ai0)).
Proof.
  unfold updatePortGeo. destruct (_ && _); simpl.
  - intros H. exists ai. by split; [| left].
  - rewrite <- list_fmap_compose, list_lookup_fmap.
    destruct (NPS.AddrInfoList u !! i) as [ai0 |]; simpl; [| done].
    intros [= <-]. exists ai0. by split; [| right].
Qed.

Lemma updatePortGeo_addrs (h : Host) (now : Time) (tl v : Z) (u : NPS.t) :
  AddrInfo.Addr <$> NPS.AddrInfoList (fst (updatePortGeo h now tl v u))
  = AddrInfo.Addr <$> NPS.AddrInfoList u.
Proof.
  unfold updatePortGeo. destruct (_ && _); simpl; [done |].
  rewrite <- !list_fmap_compose.
  apply list_fmap_ext. intros i x _. apply updateAddrGeo_Addr.
Qed.

Lemma updatePortGeo_frame (h : Host) (now : Time) (tl v : Z) (u : NPS.t) :
  NPS.IfName (fst (updatePortGeo h now tl v u)) = NPS.IfName u
  /\ NPS.Error (fst (updatePortGeo h now tl v u)) = NPS.Error u
  /\ NPS.ErrorTime (fst (updatePortGeo h now tl v u)) = NPS.ErrorTime u.
Proof. unfold updatePortGeo. by destruct (_ && _). Qed.

(** An entry without addresses passes both geolocation steps as it is. *)
Lemma geo_steps_no_addrs (h : Host) (now : Time) (tl v : Z) (old : DNS.t)
    (p : NPS.t) :
  NPS.AddrInfoList p = [] ->
  fst (updatePortGeo h now tl v (preservePort old p)) = p.
Proof.
  intros Hnil.
  assert (preservePort old p = p) as ->.
  { unfold preservePort. rewrite Hnil. simpl. rewrite <- Hnil.
    apply setAddrInfoList_id. }
  apply updatePortGeo_unchanged. unfold updatePortGeo.
  destruct (_ && _); simpl; [done |]. by rewrite Hnil.
Qed.

(** The ports of the returned status, entry by entry. *)
Lemma MakeDeviceNetworkStatus_port (h : Host) (now : Time) (cfg : DPC.t)
    (old : DNS.t) (j : nat) :
  DNS.Ports (fst (MakeDeviceNetworkStatus h now cfg old)) !! j
  = (fun p => fst (updatePortGeo h now Second
                     (DNS.Version (synthesize h now cfg))
                     (preservePort old p)))
    <$> DNS.Ports (synthesize h now cfg) !! j.
Proof.
  unfold MakeDeviceNetworkStatus, UpdateDeviceNetworkGeo, preserveGeo.
  simpl. rewrite <- !list_fmap_compose, list_lookup_fmap. reflexivity.
Qed.

(** *** Ports whose interface does not exist *)

(** C4, as the claim words it, fails: the candidate names eth9, which
    does not resolve, and eth0. In the status made at time 1000 the eth9
    entry has an empty [Error] and the zero [ErrorTime]: it is not marked.
    It has no addresses, and the eth0 entry after it has its address. *)
Lemma MakeDeviceNetworkStatus_unknown_port_not_marked :
  let s := fst (MakeDeviceNetworkStatus (samples.host None None) 1000
                  samples.candidate2 DNS.zero) in
  IfnameToIndex (samples.host None None) "eth9" = None
  /\ NPS.IfName <$> DNS.Ports s !! 0%nat = Some "eth9"%string
  /\ NPS.Error <$> DNS.Ports s !! 0%nat = Some ""%string
  /\ NPS.ErrorTime <$> DNS.Ports s !! 0%nat = Some 0
  /\ NPS.AddrInfoList <$> DNS.Ports s !! 0%nat = Some []
  /\ (fmap AddrInfo.Addr ∘ NPS.AddrInfoList) <$> DNS.Ports s !! 1%nat
     = Some [[10; 0; 0; 1]%N].
Proof. cbv zeta. by vm_compute. Qed.

(** C4 (amended): for a candidate with a port whose interface name does
    not resolve to an ifindex, [MakeDeviceNetworkStatus] gives that port
    the entry copied from its configuration and nothing else: its [Error]
    stays empty and its [ErrorTime] zero, and it has no synthesized
    addresses. All ports of the candidate are still evaluated: the status
    has one entry per configured port, each under its interface name, and
    each port that does resolve carries the addresses of its interface. *)
Theorem MakeDeviceNetworkStatus_unknown_port
    (h : Host) (now : Time) (cfg : DPC.t) (old : DNS.t) (i : nat)
    (u : NPC.t) :
  DPC.Ports cfg !! i = Some u ->
  IfnameToIndex h (NPC.IfName u) = None ->
  DNS.Ports (fst (MakeDeviceNetworkStatus h now cfg old)) !! i
  = Some (portFromConfig h u)
  /\ NPS.Error (portFromConfig h u) = ""%string
  /\ NPS.ErrorTime (portFromConfig h u) = 0
  /\ NPS.AddrInfoList (portFromConfig h u) = []
  /\ length (DNS.Ports (fst (MakeDeviceNetworkStatus h now cfg old)))
     = length (DPC.Ports cfg)
  /\ (forall j u',
        DPC.Ports cfg !! j = Some u' ->
        exists p',
          DNS.Ports (fst (MakeDeviceNetworkStatus h now cfg old)) !! j
          = Some p'
          /\ NPS.IfName p' = NPC.IfName u'
          /\ (forall ifindex,
                IfnameToIndex h (NPC.IfName u') = Some ifindex ->
                AddrInfo.Addr <$> NPS.AddrInfoList p'
                = NetIP <$> default [] (IfindexToAddrs h ifindex))).
Proof.
  intros Hu Hidx.
  destruct (synthesize_spec h now cfg) as (Hv & Hn & Hspec).
  split; [| split; [done | split; [done | split; [done | split]]]].
  - rewrite MakeDeviceNetworkStatus_port.
    destruct (Hspec i u Hu) as (p & -> & _ & _ & Hp).
    rewrite Hidx in Hp. subst p. simpl. f_equal.
    by apply geo_steps_no_addrs.
  - unfold MakeDeviceNetworkStatus, UpdateDeviceNetworkGeo, preserveGeo.
    cbn [fst DNS.Ports DNS.setPorts]. by rewrite !length_fmap.
  - intros j u' Hu'. rewrite MakeDeviceNetworkStatus_port.
    destruct (Hspec j u' Hu') as (p & -> & Hname & _ & Hp).
    eexists. split; [reflexivity |]. split.
    + destruct (updatePortGeo_frame h now Second
                  (DNS.Version (synthesize h now cfg)) (preservePort old p))
        as (-> & _). done.
    + intros ifindex Hi. rewrite Hi in Hp.
      by rewrite updatePortGeo_addrs, preservePort_addrs.
Qed.

Lemma MakeDeviceNetworkStatus_unknown_port_witness :
  DNS.Ports (fst (MakeDeviceNetworkStatus (samples.host None None) 1000
                    samples.candidate2 DNS.zero)) !! 0%nat
  = Some (portFromConfig (samples.host None None) samples.port_eth9).
Proof.
  apply (proj1 (MakeDeviceNetworkStatus_unknown_port
                  (samples.host None None) 1000 samples.candidate2 DNS.zero
                  0%nat samples.port_eth9 eq_refl
                  ltac:(vm_compute; reflexivity))).
Defined.

(** *** Geolocation carried forward *)

(** C6: take an address of the new status that is IP-equal to an address
    held by a port of the same interface name in the old status. Then
    [lookupPortStatusAddr] finds such an old entry (the first one, which
    is the only one when there is no other), and the preserve loop of
    [MakeDeviceNetworkStatus] gives the new entry the old entry's [Geo]
    and [LastGeoTimestamp]. The returned status still has them, unless
    the immediate geolocation check at the end of the call has just
    fetched a different answer for this address, which then replaces
    them with the time of the call. *)
Theorem MakeDeviceNetworkStatus_preserves_geo
    (h : Host) (now : Time) (cfg : DPC.t) (old : DNS.t)
    (ui i : nat) (u : NPS.t) (ai : AddrInfo.t)
    (ou : NPS.t) (oa : AddrInfo.t) :
  DNS.Ports (fst (MakeDeviceNetworkStatus h now cfg old)) !! ui = Some u ->
  NPS.AddrInfoList u !! i = Some ai ->
  ou ∈ DNS.Ports old ->
  NPS.IfName ou = NPS.IfName u ->
  oa ∈ NPS.AddrInfoList ou ->
  Equal (AddrInfo.Addr oa) (AddrInfo.Addr ai) = true ->
  exists oai,
    lookupPortStatusAddr old (NPS.IfName u) (AddrInfo.Addr ai) = Some oai
    /\ Equal (AddrInfo.Addr oai) (AddrInfo.Addr ai) = true
    /\ ((forall ou' oa',
           ou' ∈ DNS.Ports old -> NPS.IfName ou' = NPS.IfName u ->
           oa' ∈ NPS.AddrInfoList ou' ->
           Equal (AddrInfo.Addr oa') (AddrInfo.Addr ai) = true ->
           oa' = oa) ->
        oai = oa)
    /\ (exists u0 ai0,
          DNS.Ports (preserveGeo old (synthesize h now cfg)) !! ui = Some u0
          /\ NPS.AddrInfoList u0 !! i = Some ai0
          /\ NPS.IfName u0 = NPS.IfName u
          /\ AddrInfo.Addr ai0 = AddrInfo.Addr ai
          /\ AddrInfo.Geo ai0 = AddrInfo.Geo oai
          /\ AddrInfo.LastGeoTimestamp ai0 = AddrInfo.LastGeoTimestamp oai)
    /\ ((AddrInfo.Geo ai = AddrInfo.Geo oai
         /\ AddrInfo.LastGeoTimestamp ai = AddrInfo.LastGeoTimestamp oai)
        \/ (Second <= now - AddrInfo.LastGeoTimestamp oai
            /\ exists info,
                 MyIPWithOptions h now (AddrInfo.Addr ai) = Some info
                 /\ ipinfo.IP info <> ipinfo.IP (AddrInfo.Geo oai)
                 /\ AddrInfo.Geo ai = info
                 /\ AddrInfo.LastGeoTimestamp ai = now)).
Proof.
  intros Hu Hai Hou Hname Hoa Heq.
  destruct (lookupPorts_is_Some _ _ _ _ _ Hou Hname Hoa Heq) as [oai Hoai].
  destruct (lookupPorts_Some _ _ _ _ Hoai) as (ou1 & Hou1 & Hn1 & Hin1 & He1).
  rewrite MakeDeviceNetworkStatus_port in Hu.
  destruct (DNS.Ports (synthesize h now cfg) !! ui) as [p |] eqn:Hp;
    [| done].
  simpl in Hu. injection Hu as Hu.
  set (v := DNS.Version (synthesize h now cfg)) in *.
  assert (NPS.IfName u = NPS.IfName p) as Hnu.
  { rewrite <- Hu.
    by destruct (updatePortGeo_frame h now Second v (preservePort old p))
      as (-> & _). }
  rewrite <- Hu in Hai.
  destruct (updatePortGeo_lookup _ _ _ _ _ _ _ Hai) as (ai0 & Hai0 & Hcase).
  assert (AddrInfo.Addr ai0 = AddrInfo.Addr ai) as Haddr.
  { destruct Hcase as [-> | ->]; [done |]. by rewrite updateAddrGeo_Addr. }
  unfold preservePort in Hai0. cbn [NPS.AddrInfoList NPS.setAddrInfoList] in Hai0.
  rewrite list_lookup_fmap in Hai0.
  destruct (NPS.AddrInfoList p !! i) as [a0 |] eqn:Ha0; [| done].
  simpl in Hai0. injection Hai0 as Hai0.
  assert (AddrInfo.Addr a0 = AddrInfo.Addr ai) as Haddr0.
  { by rewrite <- Haddr, <- Hai0, preserveAddr_Addr. }
  assert (lookupPortStatusAddr old (NPS.IfName p) (AddrInfo.Addr a0)
          = Some oai) as Hfound.
  { unfold lookupPortStatusAddr. by rewrite Haddr0, <- Hnu. }
  destruct (preserveAddr_found old (NPS.IfName p) a0 oai Hfound)
    as (Hgeo & Hts).
  rewrite Hai0 in Hgeo, Hts.
  exists oai. split; [done |]. split; [done |]. split.
  { intros Huniq. by apply (Huniq ou1 oai). }
  split.
  { exists (preservePort old p), ai0. split.
    - unfold preserveGeo. cbn [DNS.Ports DNS.setPorts].
      by rewrite list_lookup_fmap, Hp.
    - split.
      + unfold preservePort. cbn [NPS.AddrInfoList NPS.setAddrInfoList].
        by rewrite list_lookup_fmap, Ha0, <- Hai0.
      + done. }
  destruct Hcase as [-> | ->]; [by left |].
  destruct (updateAddrGeo_cases h now Second ai0)
    as [-> | (Hdue & info & Hinfo & Hne & ->)]; [by left |].
  right. rewrite Hts in Hdue. split; [done |].
  exists info. simpl. by rewrite <- Hgeo.
Qed.

(** The address 10.0.0.1 of eth0 was located at time 500; the status made
    at time 1000 on a host whose geolocation service does not answer
    keeps that annotation. *)
Lemma MakeDeviceNetworkStatus_preserves_geo_witness :
  exists oai,
    lookupPortStatusAddr (samples.old_status 500) "eth0" [10; 0; 0; 1]%N
    = Some oai
    /\ AddrInfo.Geo oai = samples.geo_here
    /\ (AddrInfo.Geo <$>
        (DNS.Ports (fst (MakeDeviceNetworkStatus (samples.host None None)
                           1000 samples.candidate
                           (samples.old_status 500))) !! 0%nat
         ≫= fun u => NPS.AddrInfoList u !! 0%nat))
       = Some samples.geo_here.
Proof.
  destruct (MakeDeviceNetworkStatus_preserves_geo
              (samples.host None None) 1000 samples.candidate
              (samples.old_status 500) 0 0
              (NPS.mk "eth0" "eth0" true true ProxyConfig.zero 4
                 (mkIPNet [] []) [] "" [] []
                 [AddrInfo.mk [10; 0; 0; 1]%N samples.geo_here 500] "" 0)
              (AddrInfo.mk [10; 0; 0; 1]%N samples.geo_here 500)
              (NPS.mk "eth0" "eth0" true true ProxyConfig.zero 4
                 (mkIPNet [] []) [] "" [] []
                 [AddrInfo.mk [10; 0; 0; 1]%N samples.geo_here 500] "" 0)
              (AddrInfo.mk [10; 0; 0; 1]%N samples.geo_here 500)
              ltac:(vm_compute; reflexivity) eq_refl
              ltac:(apply list_elem_of_here) eq_refl
              ltac:(apply list_elem_of_here)
              ltac:(vm_compute; reflexivity))
    as (oai & Hfound & _).
  exists oai. split; [exact Hfound |].
  vm_compute in Hfound. injection Hfound as <-.
  split; vm_compute; reflexivity.
Defined.

(** When the annotation is older than a second and the service now
    answers differently, the immediate check replaces it. *)
Example MakeDeviceNetworkStatus_refreshes_stale_geo :
  (DNS.Ports (fst (MakeDeviceNetworkStatus
                     (samples.host None (Some samples.geo_moved))
                     (5 * Second) samples.candidate
                     (samples.old_status 500))) !! 0%nat
   ≫= fun u => NPS.AddrInfoList u !! 0%nat)
  = Some (AddrInfo.mk [10; 0; 0; 1]%N samples.geo_moved (5 * Second)).
Proof. by vm_compute. Qed.

(** *** Materializing twice *)









(** *** Statuses compared up to the time of their port errors *)

Lemma clearErrorTime_setError (p : NPS.t) (e : string) (t t' : Time) :
  clearErrorTime (NPS.setError p e t) = clearErrorTime (NPS.setError p e t').
Proof. reflexivity. Qed.













End devicenetwork_facts.

(** ** More on the interface directory *)

Module zedrouter_more.
Import net net_facts zedrouter zedrouter_facts.

Lemma Contains_norm (n : IPNet) (ip ip' : IP) :
  norm ip = norm ip' -> Contains n ip = Contains n ip'.
Proof.
  intros H. unfold Contains. destruct (networkNumberAndMask n) as [nn m].
  fold (norm ip) (norm ip'). by rewrite H.
Qed.

Lemma sameEntry_sym (a b : IPNet) : sameEntry a b = sameEntry b a.
Proof.
  unfold sameEntry. rewrite (Equal_sym (NetIP a) (NetIP b)).
  by rewrite <- !andb_assoc, (andb_comm (Contains a _)).
Qed.

Lemma sameEntry_refl (a : IPNet) : validNet a = true -> sameEntry a a = true.
Proof.
  intros Hv. unfold sameEntry.
  by rewrite Equal_refl, (Contains_Equal a (NetIP a) Hv (Equal_refl _)).
Qed.

(** Two entries that match the same address match each other. *)
Lemma sameEntry_common (x y addr : IPNet) :
  sameEntry x addr = true -> sameEntry y addr = true -> sameEntry x y = true.
Proof.
  unfold sameEntry. rewrite !andb_true_iff.
  intros [[Ex Cx] Cx'] [[Ey Cy] Cy'].
  assert (Equal (NetIP x) (NetIP y) = true) as Exy.
  { apply (Equal_trans _ (NetIP addr)); [done |]. by rewrite Equal_sym. }
  split; [split; [done |] |].
  - rewrite (Contains_norm x (NetIP y) (NetIP addr)); [done |].
    symmetry. apply Equal_norm. by rewrite Equal_sym in Ey |- *; rewrite Equal_sym.
  - rewrite (Contains_norm y (NetIP x) (NetIP addr)); [done |].
    by apply Equal_norm.
Qed.

Lemma existsb_sameEntry_false (addrs : list IPNet) (addr : IPNet) :
  existsb (fun a => sameEntry a addr) addrs = false <->
  forall a, a ∈ addrs -> sameEntry a addr = false.
Proof.
  split.
  - intros H a Ha. apply not_true_is_false. intros Hs.
    assert (existsb (fun a => sameEntry a addr) addrs = true) as Ht.
    { apply existsb_exists. exists a. by rewrite <- list_elem_of_In. }
    congruence.
  - intros H. apply not_true_is_false. intros Ht.
    apply existsb_exists in Ht as (a & Ha & Hs).
    rewrite <- list_elem_of_In in Ha. rewrite (H a Ha) in Hs. discriminate.
Qed.

Lemma find_fresh_appended (addrs : list IPNet) (addr : IPNet) :
  validNet addr = true ->
  (forall a, a ∈ addrs -> sameEntry a addr = false) ->
  list_find (fun a => sameEntry a addr = true) (addrs ++ [addr])
  = Some (length addrs, addr).
Proof.
  intros Hv Hfresh. apply list_find_Some. split; [| split].
  - rewrite lookup_app_r by lia. by rewrite Nat.sub_diag.
  - by apply sameEntry_refl.
  - intros j y Hy Hj. rewrite lookup_app_l in Hy by done.
    apply list_elem_of_lookup_2 in Hy. by rewrite (Hfresh y Hy).
Qed.

Lemma IfindexToAddrsDel_no_match (m : gmap Z (list IPNet)) (index : Z)
    (addr : IPNet) (addrs : list IPNet) :
  m !! index = Some addrs ->
  (forall a, a ∈ addrs -> sameEntry a addr = false) ->
  IfindexToAddrsDel m index addr = (m, false).
Proof.
  intros Hm Hno. unfold IfindexToAddrsDel. rewrite Hm.
  destruct (list_find _ addrs) as [[i a] |] eqn:Hf; [| done].
  apply list_find_Some in Hf as (Hi & Ha & _).
  apply list_elem_of_lookup_2 in Hi. by rewrite (Hno a Hi) in Ha.
Qed.

Lemma IfindexToNameDel_lookup (m : gmap Z linkNameType) (index : Z)
    (name : string) :
  fst (IfindexToNameDel m index name) = delete index m
  \/ (m !! index = None /\ fst (IfindexToNameDel m index name) = m).
Proof.
  unfold IfindexToNameDel. destruct (m !! index) as [e |]; [| by right].
  left. by destruct (negb _).
Qed.

(** X1: [IfindexToAddrsDel] returns false and changes nothing for an
    unknown ifindex and when no stored entry matches; otherwise it returns
    true and cuts the first matching entry out of the list of that
    ifindex: the list is one shorter, the entries before keep their place
    and those after move up by one. *)
Theorem IfindexToAddrsDel_first_match
    (m : gmap Z (list IPNet)) (index : Z) (addr : IPNet) :
  (m !! index = None -> IfindexToAddrsDel m index addr = (m, false))
  /\ (forall addrs,
        m !! index = Some addrs ->
        (forall a, a ∈ addrs -> sameEntry a addr = false) ->
        IfindexToAddrsDel m index addr = (m, false))
  /\ (forall addrs i a,
        m !! index = Some addrs ->
        addrs !! i = Some a -> sameEntry a addr = true ->
        (forall j b, (j < i)%nat -> addrs !! j = Some b ->
                     sameEntry b addr = false) ->
        IfindexToAddrsDel m index addr
        = (<[index := delete i addrs]> m, true)
        /\ S (length (delete i addrs)) = length addrs
        /\ (forall j, (j < i)%nat -> delete i addrs !! j = addrs !! j)
        /\ (forall j, (i <= j)%nat -> delete i addrs !! j = addrs !! S j)).
Proof.
  split; [| split]; [| | unfold IfindexToAddrsDel].
  - unfold IfindexToAddrsDel. by intros ->.
  - intros addrs Hm Hno. by apply (IfindexToAddrsDel_no_match m index addr addrs).
  - intros addrs i a -> Hi Ha Hbefore.
    assert (list_find (fun a => sameEntry a addr = true) addrs = Some (i, a))
      as ->.
    { apply list_find_Some. split; [done |]. split; [done |].
      intros j y Hy Hj Hs. by rewrite (Hbefore j y Hj Hy) in Hs. }
    rewrite <- delete_take_drop. split; [done |]. split.
    + rewrite length_delete by eauto.
      apply lookup_lt_Some in Hi. lia.
    + split; intros j Hj.
      * by apply list_lookup_delete_lt.
      * by apply list_lookup_delete_ge.
Qed.

Lemma IfindexToAddrsDel_first_match_witness :
  IfindexToAddrsDel samples.addrs2 2 samples.net_10_0_0_1_16
  = (<[2 := delete 0%nat [samples.net_10_0_0_1_24]]> samples.addrs2, true).
Proof.
  apply (proj2 (proj2 (IfindexToAddrsDel_first_match
                         samples.addrs2 2 samples.net_10_0_0_1_16))
           [samples.net_10_0_0_1_24] 0%nat samples.net_10_0_0_1_24).
  - vm_compute; reflexivity.
  - reflexivity.
  - vm_compute; reflexivity.
  - intros j b Hj. lia.
Defined.

(** X2: adding an address that is new for a known ifindex and deleting it
    again gives back the address map as it was; both calls return true.
    For an ifindex that was unknown the entry is not removed again: it
    stays with an empty list. *)
Theorem IfindexToAddrsAdd_then_Del
    (m : gmap Z (list IPNet)) (index : Z) (addr : IPNet) :
  validNet addr = true ->
  (forall addrs,
     m !! index = Some addrs ->
     (forall a, a ∈ addrs -> sameEntry a addr = false) ->
     snd (IfindexToAddrsAdd m index addr) = true
     /\ IfindexToAddrsDel (fst (IfindexToAddrsAdd m index addr)) index addr
        = (m, true))
  /\ (m !! index = None ->
      snd (IfindexToAddrsAdd m index addr) = true
      /\ IfindexToAddrsDel (fst (IfindexToAddrsAdd m index addr)) index addr
         = (<[index := []]> m, true)).
Proof.
  intros Hv. split.
  - intros addrs Hm Hfresh.
    rewrite (IfindexToAddrsAdd_fresh m index addrs addr Hm)
      by (by apply existsb_sameEntry_false).
    split; [done |]. unfold IfindexToAddrsDel. cbn [fst].
    rewrite lookup_insert_eq, (find_fresh_appended addrs addr Hv Hfresh).
    rewrite take_app_length.
    rewrite drop_ge by (rewrite length_app; simpl; lia).
    rewrite app_nil_r, insert_insert_eq. by rewrite insert_id.
  - intros Hm. unfold IfindexToAddrsAdd. rewrite Hm. split; [done |].
    unfold IfindexToAddrsDel. cbn [fst]. rewrite lookup_insert_eq.
    assert (forall a : IPNet, a ∈ [] -> sameEntry a addr = false) as Hnil
      by (intros a Ha; by apply elem_of_nil in Ha).
    pose proof (find_fresh_appended [] addr Hv Hnil) as Hf.
    cbn [app length] in Hf. rewrite Hf.
    by rewrite insert_insert_eq.
Qed.

Lemma IfindexToAddrsAdd_then_Del_witness :
  IfindexToAddrsDel
    (fst (IfindexToAddrsAdd samples.addrs2 2 samples.net_10_0_0_2_24))
    2 samples.net_10_0_0_2_24
  = (samples.addrs2, true).
Proof.
  apply (proj1 (IfindexToAddrsAdd_then_Del samples.addrs2 2
                  samples.net_10_0_0_2_24 ltac:(vm_compute; reflexivity))
           [samples.net_10_0_0_1_24] ltac:(vm_compute; reflexivity)).
  intros a Ha. apply list_elem_of_singleton in Ha as ->.
  vm_compute; reflexivity.
Defined.

Lemma IfindexToAddrsAdd_stored
    (m : gmap Z (list IPNet)) (index : Z) (addr : IPNet) :
  validNet addr = true ->
  exists addrs,
    fst (IfindexToAddrsAdd m index addr) !! index = Some addrs
    /\ existsb (fun a => sameEntry a addr) addrs = true.
Proof.
  intros Hv. unfold IfindexToAddrsAdd.
  destruct (m !! index) as [addrs |] eqn:Hm.
  - destruct (existsb (fun a => sameEntry a addr) addrs) eqn:Hf; cbn [negb fst].
    + by exists addrs.
    + exists (addrs ++ [addr]). split; [by rewrite lookup_insert_eq |].
      rewrite existsb_app. cbn [existsb].
      by rewrite (sameEntry_refl addr Hv), orb_true_r.
  - cbn [fst]. exists [addr]. split; [by rewrite lookup_insert_eq |].
    cbn [existsb]. by rewrite (sameEntry_refl addr Hv).
Qed.

(** X3: adding the same address twice: the second call returns false and
    leaves the map as the first call made it, whether or not the ifindex
    was known and whether or not the first call added anything. *)
Theorem IfindexToAddrsAdd_twice
    (m : gmap Z (list IPNet)) (index : Z) (addr : IPNet) :
  validNet addr = true ->
  IfindexToAddrsAdd (fst (IfindexToAddrsAdd m index addr)) index addr
  = (fst (IfindexToAddrsAdd m index addr), false).
Proof.
  intros Hv.
  destruct (IfindexToAddrsAdd_stored m index addr Hv) as (addrs & Hl & Hf).
  by apply (IfindexToAddrsAdd_found _ index addrs).
Qed.

Lemma IfindexToAddrsAdd_twice_witness :
  IfindexToAddrsAdd
    (fst (IfindexToAddrsAdd samples.addrs2 3 samples.net_10_0_0_2_24))
    3 samples.net_10_0_0_2_24
  = (fst (IfindexToAddrsAdd samples.addrs2 3 samples.net_10_0_0_2_24), false).
Proof.
  apply (IfindexToAddrsAdd_twice samples.addrs2 3 samples.net_10_0_0_2_24).
  vm_compute; reflexivity.
Defined.

Lemma noDupEntries_delete (l : list IPNet) (i : nat) :
  noDupEntries l -> noDupEntries (delete i l).
Proof.
  intros Hl j1 j2 a b Hne Ha Hb.
  rewrite list_lookup_delete in Ha, Hb.
  destruct (decide (j1 < i)%nat), (decide (j2 < i)%nat);
    eapply Hl; try exact Ha; try exact Hb; lia.
Qed.

Lemma noDupEntries_snoc (l : list IPNet) (addr : IPNet) :
  noDupEntries l ->
  (forall a, a ∈ l -> sameEntry a addr = false) ->
  noDupEntries (l ++ [addr]).
Proof.
  intros Hl Hfresh i j a b Hne Ha Hb.
  apply lookup_app_Some in Ha as [Ha | [Hi Ha]];
    apply lookup_app_Some in Hb as [Hb | [Hj Hb]].
  - by apply (Hl i j).
  - apply list_lookup_singleton_Some in Hb as [_ <-].
    apply Hfresh. by eapply list_elem_of_lookup_2.
  - apply list_lookup_singleton_Some in Ha as [_ <-].
    rewrite sameEntry_sym. apply Hfresh. by eapply list_elem_of_lookup_2.
  - apply list_lookup_singleton_Some in Ha as [Hi' _].
    apply list_lookup_singleton_Some in Hb as [Hj' _]. lia.
Qed.

Lemma noDupEntries_singleton (addr : IPNet) : noDupEntries [addr].
Proof.
  intros i j a b Hne Ha Hb.
  apply list_lookup_singleton_Some in Ha as [-> _].
  apply list_lookup_singleton_Some in Hb as [-> _]. done.
Qed.

(** X4: when no stored list holds the same entry twice, this stays so
    under [IfindexToAddrsAdd] and [IfindexToAddrsDel] (the empty map is
    such a map). In such a map a successful delete leaves no entry that
    matches the address, so a second delete of it returns false and
    changes nothing. *)
Theorem IfindexToAddrs_noDup_invariant
    (m : gmap Z (list IPNet)) (index : Z) (addr : IPNet) :
  allNoDup m ->
  allNoDup (fst (IfindexToAddrsAdd m index addr))
  /\ allNoDup (fst (IfindexToAddrsDel m index addr))
  /\ (snd (IfindexToAddrsDel m index addr) = true ->
      IfindexToAddrsDel (fst (IfindexToAddrsDel m index addr)) index addr
      = (fst (IfindexToAddrsDel m index addr), false)).
Proof.
  intros Hm. unfold allNoDup in *. split; [| split].
  - unfold IfindexToAddrsAdd.
    destruct (m !! index) as [addrs |] eqn:Hi.
    + destruct (existsb _ addrs) eqn:Hf; cbn [negb fst]; [done |].
      apply map_Forall_insert_2; [| done].
      apply noDupEntries_snoc; [by apply (Hm index) |].
      by apply existsb_sameEntry_false.
    + cbn [fst]. apply map_Forall_insert_2; [| done].
      apply noDupEntries_singleton.
  - unfold IfindexToAddrsDel.
    destruct (m !! index) as [addrs |] eqn:Hi; [| done].
    destruct (list_find _ addrs) as [[i a] |]; [| done].
    cbn [fst]. apply map_Forall_insert_2; [| done].
    rewrite <- delete_take_drop. apply noDupEntries_delete.
    by apply (Hm index).
  - assert (IfindexToAddrsDel m index addr = (m, false)
            \/ exists addrs i a,
                 m !! index = Some addrs /\ addrs !! i = Some a
                 /\ sameEntry a addr = true
                 /\ IfindexToAddrsDel m index addr
                    = (<[index := delete i addrs]> m, true)) as Hcase.
    { unfold IfindexToAddrsDel.
      destruct (m !! index) as [addrs |] eqn:Hi; [| by left].
      destruct (list_find _ addrs) as [[i a] |] eqn:Hf; [| by left].
      right. exists addrs, i, a.
      apply list_find_Some in Hf as (Hia & Ha & _).
      by rewrite <- delete_take_drop. }
    destruct Hcase as [-> | (addrs & i & a & Hi & Hia & Ha & ->)]; [done |].
    intros _. cbn [fst].
    apply (IfindexToAddrsDel_no_match _ index addr (delete i addrs));
      [by rewrite lookup_insert_eq |].
    intros b Hb. apply not_true_is_false. intros Hs.
    apply list_elem_of_lookup in Hb as [j Hj].
    rewrite list_lookup_delete in Hj.
    pose proof (sameEntry_common a b addr Ha Hs) as Hab.
    destruct (decide (j < i)%nat).
    + rewrite (Hm index addrs Hi i j a b) in Hab; [done | lia | done | done].
    + rewrite (Hm index addrs Hi i (S j) a b) in Hab;
        [done | lia | done | done].
Qed.

Lemma IfindexToAddrs_noDup_invariant_witness :
  allNoDup (fst (IfindexToAddrsAdd ∅ 2 samples.net_10_0_0_1_24)).
Proof.
  apply (proj1 (IfindexToAddrs_noDup_invariant ∅ 2 samples.net_10_0_0_1_24
                  (map_Forall_empty _))).
Defined.

Lemma IfindexToNameAdd_name
    (m : gmap Z linkNameType) (index : Z) (name type : string) :
  linkName <$> fst (IfindexToNameAdd m index name type) !! index = Some name.
Proof.
  unfold IfindexToNameAdd.
  destruct (m !! index) as [old |] eqn:Hi.
  - destruct (String.eqb_spec (linkName old) name) as [He | He]; cbn [negb fst].
    + rewrite Hi. simpl. by f_equal.
    + by rewrite lookup_insert_eq.
  - cbn [fst]. by rewrite lookup_insert_eq.
Qed.

(** X5: [IfindexToNameAdd] returns true exactly for an ifindex that was
    not known. Afterwards the ifindex is stored under the given name. The
    given type is stored when the ifindex is new or its name changes; when
    only the type differs the call changes nothing. No other ifindex is
    touched. *)
Theorem IfindexToNameAdd_stores
    (m : gmap Z linkNameType) (index : Z) (name type : string) :
  (snd (IfindexToNameAdd m index name type) = true <-> m !! index = None)
  /\ linkName <$> fst (IfindexToNameAdd m index name type) !! index
     = Some name
  /\ (forall old, m !! index = Some old -> linkName old = name ->
                  fst (IfindexToNameAdd m index name type) = m)
  /\ ((forall old, m !! index = Some old -> linkName old <> name) ->
      fst (IfindexToNameAdd m index name type) !! index
      = Some (mkLink name type))
  /\ (forall j, j <> index ->
                fst (IfindexToNameAdd m index name type) !! j = m !! j).
Proof.
  unfold IfindexToNameAdd.
  destruct (m !! index) as [old |] eqn:Hi.
  - destruct (String.eqb_spec (linkName old) name) as [He | He]; cbn [negb fst snd].
    + split; [done |]. split; [by rewrite Hi; simpl; f_equal |].
      split; [done |]. split; [| done].
      intros H. by destruct (H old eq_refl).
    + split; [done |]. split; [by rewrite lookup_insert_eq |].
      split; [by intros ? [= <-] |].
      split; [by rewrite lookup_insert_eq |].
      intros j Hj. by rewrite lookup_insert_ne.
  - cbn [fst snd]. split; [done |]. split; [by rewrite lookup_insert_eq |].
    split; [done |]. split; [by rewrite lookup_insert_eq |].
    intros j Hj. by rewrite lookup_insert_ne.
Qed.

(** Interface 2 is eth0 of type "device"; reporting it again as a
    "bridge" changes nothing. *)
Lemma IfindexToNameAdd_stores_witness :
  fst (IfindexToNameAdd samples.names2 2 "eth0" "bridge") = samples.names2.
Proof.
  apply (proj1 (proj2 (proj2 (IfindexToNameAdd_stores samples.names2 2
                                "eth0" "bridge")))
           samples.eth0); reflexivity.
Defined.

(** X6: [IfnameToIndex] answers from the cache whenever some cached
    ifindex carries the name, with an ifindex that carries it; only when
    none does is the kernel asked, and its answer (or error) is the
    result. After [IfindexToNameAdd] with a name, the name is found in the
    cache. *)
Theorem IfnameToIndex_cache_first
    (m : gmap Z linkNameType) (linkByName : string -> option Z)
    (ifname : string) :
  ((exists i e, m !! i = Some e /\ linkName e = ifname) ->
   exists j e, IfnameToIndex m linkByName ifname = Some j
               /\ m !! j = Some e /\ linkName e = ifname)
  /\ ((forall i e, m !! i = Some e -> linkName e <> ifname) ->
      IfnameToIndex m linkByName ifname = linkByName ifname)
  /\ (forall index type,
        exists j e,
          IfnameToIndex (fst (IfindexToNameAdd m index ifname type))
                        linkByName ifname = Some j
          /\ fst (IfindexToNameAdd m index ifname type) !! j = Some e
          /\ linkName e = ifname).
Proof.
  assert (forall m' : gmap Z linkNameType,
            (exists i e, m' !! i = Some e /\ linkName e = ifname) ->
            exists j e, IfnameToIndex m' linkByName ifname = Some j
                        /\ m' !! j = Some e /\ linkName e = ifname) as Hhit.
  { intros m' (i & e & Hi & He). unfold IfnameToIndex, IfnameToIndexIn.
    destruct (list_find _ (map_to_list m')) as [[k [j e']] |] eqn:Hf.
    - apply list_find_Some in Hf as (Hk & Hp & _).
      apply list_elem_of_lookup_2, elem_of_map_to_list in Hk.
      simpl in Hp. apply String.eqb_eq in Hp. by exists j, e'.
    - apply list_find_None in Hf. rewrite Forall_forall in Hf.
      exfalso. apply (Hf (i, e)); [by apply elem_of_map_to_list |].
      simpl. by apply String.eqb_eq. }
  split; [apply Hhit |]. split.
  - intros Hno. unfold IfnameToIndex, IfnameToIndexIn.
    destruct (list_find _ (map_to_list m)) as [[k [j e']] |] eqn:Hf; [| done].
    apply list_find_Some in Hf as (Hk & Hp & _).
    apply list_elem_of_lookup_2, elem_of_map_to_list in Hk.
    simpl in Hp. apply String.eqb_eq in Hp. by destruct (Hno j e' Hk).
  - intros index type. apply Hhit.
    pose proof (IfindexToNameAdd_name m index ifname type) as Hname.
    destruct (fst (IfindexToNameAdd m index ifname type) !! index)
      as [e |] eqn:He; [| done].
    exists index, e. split; [done |]. by injection Hname.
Qed.

(** No interface is called "wlan0" in the cache: the kernel is asked. *)
Lemma IfnameToIndex_cache_first_witness :
  IfnameToIndex samples.names2 (fun _ => Some 7) "wlan0" = Some 7.
Proof.
  apply (proj1 (proj2 (IfnameToIndex_cache_first samples.names2
                         (fun _ => Some 7) "wlan0"))).
  intros i e Hi He. unfold samples.names2 in Hi.
  apply lookup_singleton_Some in Hi as [_ <-]. discriminate He.
Defined.

(** X7: [IfindexToName] answers a known ifindex from the cache and asks
    the kernel otherwise. After [IfindexToNameAdd] the ifindex is answered
    with the given name without asking the kernel; after
    [IfindexToNameDel] the answer for the ifindex is again the kernel's. *)
Theorem IfindexToName_after_update
    (m : gmap Z linkNameType) (linkByIndex : Z -> option (string * string))
    (index : Z) (name type : string) :
  (exists t, IfindexToName (fst (IfindexToNameAdd m index name type))
                           linkByIndex index = Some (name, t))
  /\ IfindexToName (fst (IfindexToNameDel m index name)) linkByIndex index
     = linkByIndex index
  /\ (m !! index = None -> IfindexToName m linkByIndex index = linkByIndex index)
  /\ (forall e, m !! index = Some e ->
                IfindexToName m linkByIndex index
                = Some (linkName e, linkType e)).
Proof.
  split; [| split; [| split]].
  - pose proof (IfindexToNameAdd_name m index name type) as Hname.
    unfold IfindexToName.
    destruct (fst (IfindexToNameAdd m index name type) !! index)
      as [e |]; [| done].
    injection Hname as <-. by eexists.
  - unfold IfindexToName.
    destruct (IfindexToNameDel_lookup m index name) as [-> | [Hnone ->]].
    + by rewrite lookup_delete_eq.
    + by rewrite Hnone.
  - unfold IfindexToName. by intros ->.
  - unfold IfindexToName. by intros e ->.
Qed.

(** When no two cached ifindexes carry the same name, the order in which
    [range] delivers the entries has no bearing on what [IfnameToIndex]
    answers. *)
Lemma IfnameToIndexIn_any_order
    (m : gmap Z linkNameType) (entries : list (Z * linkNameType))
    (linkByName : string -> option Z) (ifname : string) :
  oneIfindexPerName m ->
  entries ≡ₚ map_to_list m ->
  IfnameToIndexIn entries linkByName ifname
  = IfnameToIndex m linkByName ifname.
Proof.
  intros Hone Hperm. unfold IfnameToIndex, IfnameToIndexIn.
  destruct (list_find _ entries) as [[k [i e]] |] eqn:Hf.
  - apply list_find_Some in Hf as (Hk & Hp & _).
    apply list_elem_of_lookup_2 in Hk. rewrite Hperm in Hk.
    apply elem_of_map_to_list in Hk.
    destruct (list_find _ (map_to_list m)) as [[k' [i' e']] |] eqn:Hf'.
    + apply list_find_Some in Hf' as (Hk' & Hp' & _).
      apply list_elem_of_lookup_2, elem_of_map_to_list in Hk'.
      f_equal. apply (Hone i i' e e' Hk Hk').
      cbn [snd] in Hp, Hp'. apply String.eqb_eq in Hp, Hp'. congruence.
    + apply list_find_None in Hf'. rewrite Forall_forall in Hf'.
      exfalso. apply (Hf' (i, e)); [by apply elem_of_map_to_list | done].
  - apply list_find_None in Hf. rewrite Forall_forall in Hf.
    destruct (list_find _ (map_to_list m)) as [[k' [i' e']] |] eqn:Hf';
      [| done].
    apply list_find_Some in Hf' as (Hk' & Hp' & _).
    apply list_elem_of_lookup_2 in Hk'. rewrite <- Hperm in Hk'.
    by destruct (Hf _ Hk').
Qed.

Lemma oneIfindexPerName_NoDup (m : gmap Z linkNameType) :
  NoDup ((fun e : Z * linkNameType => linkName (snd e)) <$> map_to_list m) ->
  oneIfindexPerName m.
Proof.
  intros Hnd i j e e' Hi Hj Hn.
  apply elem_of_map_to_list, list_elem_of_lookup in Hi as [a Ha].
  apply elem_of_map_to_list, list_elem_of_lookup in Hj as [b Hb].
  assert (a = b) as ->.
  { apply (NoDup_lookup _ a b (linkName e) Hnd).
    - by rewrite list_lookup_fmap, Ha.
    - rewrite list_lookup_fmap, Hb. cbn. by rewrite Hn. }
  rewrite Ha in Hb. by injection Hb.
Qed.

End zedrouter_more.

(** ** Policy routing rules *)

Module pbr_facts.
Import net net_facts zedrouter zedrouter_facts.

Lemma land_255 (b : N) : (b < 256)%N -> N.land b 255 = b.
Proof.
  intros Hb. change 255%N with (N.ones 8).
  rewrite N.land_ones. by apply N.mod_small.
Qed.

(** Under a mask of all ones two byte strings agree only when equal. *)
Lemma maskedEqual_ones (nn m ip : list N) :
  length nn = length ip -> length m = length nn ->
  Forall (fun k => k = 255%N) m -> isBytes nn -> isBytes ip ->
  maskedEqual nn m ip = true -> nn = ip.
Proof.
  revert m ip. induction nn as [| a nn IH]; intros m ip Hl Hm Hones Hnn Hip.
  - destruct ip; [done | discriminate].
  - destruct ip as [| b ip]; [discriminate |].
    destruct m as [| k m]; [discriminate |].
    inversion Hones; subst. inversion Hnn; subst. inversion Hip; subst.
    simpl. rewrite andb_true_iff, !land_255 by done.
    intros [Hab Hrest]. apply N.eqb_eq in Hab. subst b. f_equal.
    apply (IH m); simpl in *; try done; lia.
Qed.

Lemma To4_length (ip q : IP) : To4 ip = Some q -> length q = 4%nat.
Proof.
  unfold To4, IPv4len, IPv6len.
  destruct (Nat.eqb_spec (length ip) 4) as [H4 | H4]; [by intros [= <-] |].
  destruct (Nat.eqb_spec (length ip) 16) as [H16 | H16]; [| done].
  destruct (_ && _); [| done]. intros [= <-].
  rewrite length_drop. lia.
Qed.

Lemma isBytes_norm (ip : IP) : isBytes ip -> isBytes (norm ip).
Proof.
  intros H. unfold norm, To4.
  repeat match goal with
         | |- context [if ?c then _ else _] => destruct c
         end; try done.
  by apply Forall_drop.
Qed.

(** A network made of an address and the full mask for its family
    contains an address exactly when it is that address. *)
Lemma Contains_host_v4 (ip0 q x : IP) :
  To4 ip0 = Some q -> isBytes ip0 -> isBytes x ->
  Contains (mkIPNet ip0 (CIDRMask 32 32)) x = true <-> norm x = norm ip0.
Proof.
  intros Hq Hb Hx.
  pose proof (To4_length ip0 q Hq) as Hlen.
  assert (norm ip0 = q) as Hn by (unfold norm; by rewrite Hq).
  assert (isBytes q) as Hbq by (rewrite <- Hn; by apply isBytes_norm).
  assert (networkNumberAndMask (mkIPNet ip0 (CIDRMask 32 32))
          = (q, [255; 255; 255; 255]%N)) as Hnm.
  { unfold networkNumberAndMask. cbn [NetIP Mask]. rewrite Hq.
    change (CIDRMask 32 32) with [255; 255; 255; 255]%N.
    cbn [length]. unfold IPv4len. by rewrite Hlen. }
  unfold Contains. rewrite Hnm. fold (norm x). rewrite Hn. split.
  - destruct (Nat.eqb_spec (length (norm x)) (length q)) as [He | He];
      [| done].
    intros Hm. symmetry.
    apply (maskedEqual_ones q [255; 255; 255; 255]%N (norm x));
      [by rewrite He | by rewrite Hlen | repeat constructor | done
      | by apply isBytes_norm | done].
  - intros ->. by rewrite Nat.eqb_refl, maskedEqual_refl.
Qed.

Lemma Contains_host_v6 (ip0 x : IP) :
  To4 ip0 = None -> length ip0 = 16%nat -> isBytes ip0 -> isBytes x ->
  Contains (mkIPNet ip0 (CIDRMask 128 128)) x = true <-> norm x = norm ip0.
Proof.
  intros Hq Hlen Hb Hx.
  assert (norm ip0 = ip0) as Hn by (unfold norm; by rewrite Hq).
  assert (networkNumberAndMask (mkIPNet ip0 (CIDRMask 128 128))
          = (ip0, CIDRMask 128 128)) as Hnm.
  { unfold networkNumberAndMask. cbn [NetIP Mask]. rewrite Hq.
    unfold IPv6len, IPv4len. rewrite Hlen. cbn [Nat.eqb]. rewrite Hlen.
    replace (length (CIDRMask 128 128)) with 16%nat by (by vm_compute).
    reflexivity. }
  unfold Contains. rewrite Hnm. fold (norm x). rewrite Hn. split.
  - destruct (Nat.eqb_spec (length (norm x)) (length ip0)) as [He | He];
      [| done].
    intros Hm. symmetry.
    apply (maskedEqual_ones ip0 (CIDRMask 128 128) (norm x));
      [by rewrite He | by rewrite Hlen | vm_compute; repeat constructor
      | done | by apply isBytes_norm | done].
  - intros ->. by rewrite Nat.eqb_refl, maskedEqual_refl.
Qed.

(** X8: for an address of 4 or 16 bytes, [delSourceRule] deletes the very
    rule [addSourceRule] adds for the same arguments (which it first
    deletes, to avoid a duplicate). The rule points to table
    [FreeTable + ifindex] and is an IPv4 rule exactly when the address has
    a 4-byte form. For a bridge its source is the given network; otherwise
    its source matches the interface's own address and no other. *)
Theorem sourceRule_add_del (ifindex : Z) (p : IPNet) (bridge : bool) :
  (length (NetIP p) = 4 \/ length (NetIP p) = 16)%nat ->
  isBytes (NetIP p) ->
  exists r,
    addSourceRule ifindex p bridge = [RuleDel r; RuleAdd r]
    /\ delSourceRule ifindex p bridge = [RuleDel r]
    /\ Table r = FreeTable + ifindex
    /\ (Family r = AF_INET <-> is_Some (To4 (NetIP p)))
    /\ (Family r = AF_INET6 <-> To4 (NetIP p) = None)
    /\ (bridge = true -> Src r = Some p)
    /\ (bridge = false ->
        exists src, Src r = Some src
                    /\ forall ip, isBytes ip ->
                         (Contains src ip = true
                          <-> norm ip = norm (NetIP p))).
Proof.
  intros Hlen Hb. unfold addSourceRule, delSourceRule.
  destruct (To4 (NetIP p)) as [q |] eqn:Hq.
  - eexists. split; [reflexivity |]. split; [reflexivity |].
    cbn [Table Family Src]. split; [done |].
    split; [split; [by eexists | done] |].
    split; [split; [discriminate | done] |].
    split; [by intros -> |]. intros ->. eexists. split; [reflexivity |].
    intros ip Hip. by apply (Contains_host_v4 (NetIP p) q).
  - eexists. split; [reflexivity |]. split; [reflexivity |].
    cbn [Table Family Src]. split; [done |].
    split; [split; [discriminate | by intros [? ?]] |].
    split; [done |].
    split; [by intros -> |]. intros ->. eexists. split; [reflexivity |].
    intros ip Hip. apply Contains_host_v6; try done.
    destruct Hlen as [H4 | H16]; [| done].
    unfold To4, IPv4len in Hq. by rewrite H4 in Hq.
Qed.

(** The rule of a port with 10.0.0.1/24 is deleted as it was added. *)
Lemma sourceRule_add_del_witness :
  exists r,
    addSourceRule 2 samples.net_10_0_0_1_24 false = [RuleDel r; RuleAdd r]
    /\ delSourceRule 2 samples.net_10_0_0_1_24 false = [RuleDel r]
    /\ Table r = 502.
Proof.
  destruct (sourceRule_add_del 2 samples.net_10_0_0_1_24 false
              ltac:(left; reflexivity)
              ltac:(vm_compute; repeat constructor))
    as (r & Ha & Hd & Ht & _).
  exists r. repeat split; assumption.
Defined.

(** X9: [flushRules] asks the kernel to delete exactly the listed rules
    of table [FreeTable + ifindex] (the free table itself for ifindex 0),
    in the order listed, and nothing else; the rule [addSourceRule] makes
    for that ifindex is in that table. It ends the process at the first
    deletion the kernel refuses. *)
Theorem flushRules_selects_table
    (ruleDel : Rule -> bool) (ifindex : Z) (rules : list Rule) :
  (forall deleted,
     flushRules ruleDel ifindex rules = Some deleted ->
     deleted = filter (fun r => Table r = FreeTable + ifindex) rules)
  /\ (flushRules ruleDel ifindex rules = None <->
      exists r, r ∈ rules /\ Table r = FreeTable + ifindex
                /\ ruleDel r = false)
  /\ (forall p bridge r,
        RuleAdd r ∈ addSourceRule ifindex p bridge ->
        Table r = FreeTable + ifindex).
Proof.
  assert (forall r rest,
            flushRules ruleDel ifindex (r :: rest)
            = if negb (Table r =? FreeTable + ifindex)
              then flushRules ruleDel ifindex rest
              else if ruleDel r
                   then cons r <$> flushRules ruleDel ifindex rest
                   else None) as Hstep.
  { intros r rest. cbn [flushRules].
    destruct (Z.eqb_spec ifindex 0) as [-> | H0]; cbn [negb andb].
    - rewrite Z.add_0_r. by destruct (negb (Table r =? FreeTable)).
    - done. }
  split; [| split].
  - induction rules as [| r rest IH]; intros deleted.
    + by intros [= <-].
    + rewrite Hstep.
      destruct (Z.eqb_spec (Table r) (FreeTable + ifindex)) as [Ht | Ht];
        cbn [negb].
      * rewrite filter_cons_True by done. destruct (ruleDel r); [| done].
        destruct (flushRules ruleDel ifindex rest) as [d |]; [| done].
        intros [= <-]. f_equal. by apply IH.
      * rewrite filter_cons_False by done. apply IH.
  - induction rules as [| r rest IH].
    + split; [done |]. intros (r & Hr & _). by apply elem_of_nil in Hr.
    + rewrite Hstep.
      destruct (Z.eqb_spec (Table r) (FreeTable + ifindex)) as [Ht | Ht];
        cbn [negb].
      * destruct (ruleDel r) eqn:Hd.
        -- destruct (flushRules ruleDel ifindex rest) as [d |] eqn:Hf.
           ++ split; [done |]. intros (r' & Hr' & Ht' & Hd').
              apply elem_of_cons in Hr' as [-> | Hr']; [congruence |].
              assert (Some d = None) as Hn by (apply IH; by exists r').
              discriminate Hn.
           ++ split; [| done]. intros _.
              destruct (proj1 IH eq_refl) as (r' & Hr' & Hrest).
              exists r'. split; [by apply list_elem_of_further | done].
        -- split; [| done]. intros _. exists r.
           split; [apply list_elem_of_here | done].
      * rewrite IH. split.
        -- intros (r' & Hr' & Hrest). exists r'.
           split; [by apply list_elem_of_further | done].
        -- intros (r' & Hr' & Ht' & Hd').
           apply elem_of_cons in Hr' as [-> | Hr']; [done |]. by exists r'.
  - intros p bridge r Hr. unfold addSourceRule in Hr.
    apply elem_of_cons in Hr as [Hr | Hr]; [discriminate |].
    apply list_elem_of_singleton in Hr. injection Hr as ->.
    by destruct (To4 (NetIP p)).
Qed.

(** X10: [setFreeMgmtPorts] moves routes into the free table only for
    interfaces of ports that are in the new list and not in the old one,
    and flushes them from it only for interfaces of ports that are in the
    old list and not in the new one. So when the two lists hold the same
    ports, in particular when it is called again with the list it was
    last given, it makes no call at all. *)
Theorem setFreeMgmtPorts_difference
    (m : gmap Z linkNameType) (linkByName : string -> option Z)
    (old new : list string) :
  fst (setFreeMgmtPorts m linkByName old new) = new
  /\ (forall c, c ∈ snd (setFreeMgmtPorts m linkByName old new) ->
        match c with
        | CallMoveRoutesTable src ifindex dst =>
            src = 0 /\ dst = FreeTable
            /\ exists u, (u ∈ new) /\ (u ∉ old)
                         /\ IfnameToIndex m linkByName u = Some ifindex
        | CallFlushRoutesTable table ifindex =>
            table = FreeTable
            /\ exists u, (u ∈ old) /\ (u ∉ new)
                         /\ IfnameToIndex m linkByName u = Some ifindex
        end)
  /\ ((forall u, u ∈ new <-> u ∈ old) ->
      setFreeMgmtPorts m linkByName old new = (new, []))
  /\ setFreeMgmtPorts m linkByName new new = (new, []).
Proof.
  assert (forall (l : list string) (u : string),
            existsb (fun x => String.eqb x u) l = true <-> u ∈ l) as Hex.
  { intros l u. rewrite existsb_exists. split.
    - intros (x & Hx & He). apply String.eqb_eq in He. subst.
      by apply list_elem_of_In.
    - intros Hu. exists u. split; [by apply list_elem_of_In |].
      apply String.eqb_refl. }
  assert (forall (l : list string) (u : string),
            existsb (fun x => String.eqb u x) l = true <-> u ∈ l) as Hex'.
  { intros l u. rewrite existsb_exists. split.
    - intros (x & Hx & He). apply String.eqb_eq in He. subst.
      by apply list_elem_of_In.
    - intros Hu. exists u. split; [by apply list_elem_of_In |].
      apply String.eqb_refl. }
  assert (forall c, c ∈ snd (setFreeMgmtPorts m linkByName old new) ->
            match c with
            | CallMoveRoutesTable src ifindex dst =>
                src = 0 /\ dst = FreeTable
                /\ exists u, (u ∈ new) /\ (u ∉ old)
                             /\ IfnameToIndex m linkByName u = Some ifindex
            | CallFlushRoutesTable table ifindex =>
                table = FreeTable
                /\ exists u, (u ∈ old) /\ (u ∉ new)
                             /\ IfnameToIndex m linkByName u = Some ifindex
            end) as Hcalls.
  { intros c Hc. unfold setFreeMgmtPorts in Hc. cbn [snd] in Hc.
    apply elem_of_app in Hc as [Hc | Hc];
      apply list_elem_of_bind in Hc as (u & Hc & Hu).
    - destruct (existsb _ old) eqn:Hf; cbn [negb] in Hc;
        [by apply elem_of_nil in Hc |].
      destruct (IfnameToIndex m linkByName u) as [ifindex |] eqn:Hi;
        [| by apply elem_of_nil in Hc].
      apply list_elem_of_singleton in Hc as ->.
      split; [done |]. split; [done |]. exists u. split; [done |].
      split; [| done]. intros Hin. apply Hex in Hin. congruence.
    - destruct (existsb _ new) eqn:Hf; cbn [negb] in Hc;
        [by apply elem_of_nil in Hc |].
      destruct (IfnameToIndex m linkByName u) as [ifindex |] eqn:Hi;
        [| by apply elem_of_nil in Hc].
      apply list_elem_of_singleton in Hc as ->.
      split; [done |]. exists u. split; [done |].
      split; [| done]. intros Hin. apply Hex' in Hin. congruence. }
  assert ((forall u, u ∈ new <-> u ∈ old) ->
          setFreeMgmtPorts m linkByName old new = (new, [])) as Hsame.
  { intros Heq.
    destruct (snd (setFreeMgmtPorts m linkByName old new)) as [| c l] eqn:Hs.
    - rewrite (surjective_pairing (setFreeMgmtPorts _ _ _ _)), Hs. done.
    - exfalso. specialize (Hcalls c). rewrite ?Hs in Hcalls.
      specialize (Hcalls (list_elem_of_here _ _)).
      destruct c as [s i d | t i].
      + destruct Hcalls as (_ & _ & u & Hn & Ho & _). by apply Ho, Heq.
      + destruct Hcalls as (_ & u & Ho & Hn & _). by apply Hn, Heq. }
  split; [done |]. split; [exact Hcalls |]. split; [exact Hsame |].
  clear Hcalls Hsame.
  assert (forall c, c ∈ snd (setFreeMgmtPorts m linkByName new new) -> False)
    as Hnone.
  { intros c Hc. unfold setFreeMgmtPorts in Hc. cbn [snd] in Hc.
    apply elem_of_app in Hc as [Hc | Hc];
      apply list_elem_of_bind in Hc as (u & Hc & Hu).
    - apply Hex in Hu. rewrite Hu in Hc. by apply elem_of_nil in Hc.
    - apply Hex' in Hu. rewrite Hu in Hc. by apply elem_of_nil in Hc. }
  rewrite (surjective_pairing (setFreeMgmtPorts _ _ _ _)).
  destruct (snd (setFreeMgmtPorts m linkByName new new)) as [| c l];
    [done |].
  destruct (Hnone c (list_elem_of_here _ _)).
Qed.

(** The same two ports in another order: no call. *)
Lemma setFreeMgmtPorts_difference_witness :
  setFreeMgmtPorts samples.names2 (fun _ => None)
                   ["eth0"; "eth1"]%string ["eth1"; "eth0"]%string
  = (["eth1"; "eth0"]%string, []).
Proof.
  apply (proj1 (proj2 (proj2 (setFreeMgmtPorts_difference samples.names2
                                (fun _ => None)
                                ["eth0"; "eth1"]%string
                                ["eth1"; "eth0"]%string)))).
  intros u. rewrite !elem_of_cons, !elem_of_nil. tauto.
Defined.

End pbr_facts.

(** ** More on materializing a candidate *)

Module devicenetwork_more.
Import types net net_facts devicenetwork devicenetwork_facts.

(** *** Making a candidate from a list of port names *)

Lemma makeDevicePortConfig_names (DPCIsMgmt DT_CLIENT : Z)
    (ports free : list string) :
  NPC.IfName <$> DPC.Ports (makeDevicePortConfig DPCIsMgmt DT_CLIENT ports free)
  = ports.
Proof.
  unfold makeDevicePortConfig. cbn [DPC.Ports].
  rewrite <- list_fmap_compose. induction ports as [| u ports IH]; [done |].
  rewrite fmap_cons. by rewrite IH.
Qed.

Lemma makeDevicePortConfig_nth (DPCIsMgmt DT_CLIENT : Z)
    (ports free : list string) (i : nat) (p : NPC.t) :
  DPC.Ports (makeDevicePortConfig DPCIsMgmt DT_CLIENT ports free) !! i
  = Some p ->
  ports !! i = Some (NPC.IfName p)
  /\ NPC.Name p = NPC.IfName p
  /\ NPC.IsMgmt p = true
  /\ NPC.Dhcp p = DT_CLIENT
  /\ (NPC.Free p = true <-> NPC.IfName p ∈ free).
Proof.
  unfold makeDevicePortConfig. cbn [DPC.Ports].
  intros Hp. rewrite list_lookup_fmap in Hp.
  destruct (ports !! i) as [u |]; [| done].
  injection Hp as <-. cbn. split; [done |]. split; [done |].
  split; [done |]. split; [done |].
  rewrite existsb_exists. split.
  - intros (x & Hx & He). apply String.eqb_eq in He. subst.
    by apply list_elem_of_In.
  - intros Hu. exists u. split; [by apply list_elem_of_In |].
    apply String.eqb_refl.
Qed.

(** X11: [makeDevicePortConfig] makes one port per given name, in the
    given order; every port is a management port configured as DHCP
    client, named after its interface, and it is free exactly when its
    name is in the list of free ports. The version is [DPCIsMgmt]; the
    test history is empty. *)
Theorem makeDevicePortConfig_ports
    (DPCIsMgmt DT_CLIENT : Z) (ports free : list string) :
  NPC.IfName <$> DPC.Ports (makeDevicePortConfig DPCIsMgmt DT_CLIENT ports free)
  = ports
  /\ DPC.Version (makeDevicePortConfig DPCIsMgmt DT_CLIENT ports free)
     = DPCIsMgmt
  /\ DPC.LastSucceeded (makeDevicePortConfig DPCIsMgmt DT_CLIENT ports free) = 0
  /\ DPC.LastFailed (makeDevicePortConfig DPCIsMgmt DT_CLIENT ports free) = 0
  /\ (forall i p,
        DPC.Ports (makeDevicePortConfig DPCIsMgmt DT_CLIENT ports free) !! i
        = Some p ->
        ports !! i = Some (NPC.IfName p)
        /\ NPC.Name p = NPC.IfName p
        /\ NPC.IsMgmt p = true
        /\ NPC.Dhcp p = DT_CLIENT
        /\ (NPC.Free p = true <-> NPC.IfName p ∈ free)).
Proof.
  split; [apply makeDevicePortConfig_names |].
  split; [done |]. split; [done |]. split; [done |].
  intros i p. apply makeDevicePortConfig_nth.
Qed.

Lemma makeDevicePortConfig_lookup (DPCIsMgmt DT_CLIENT : Z)
    (ports free : list string) (p : NPC.t) :
  p ∈ DPC.Ports (makeDevicePortConfig DPCIsMgmt DT_CLIENT ports free) ->
  NPC.IfName p ∈ ports /\ NPC.IsMgmt p = true
  /\ (NPC.Free p = true <-> NPC.IfName p ∈ free).
Proof.
  intros Hp. apply list_elem_of_lookup in Hp as [i Hi].
  destruct (makeDevicePortConfig_nth _ _ _ _ i p Hi) as (Hn & _ & Hm & _ & Hf).
  split; [by eapply list_elem_of_lookup_2 | done].
Qed.

(** X12: the last-resort candidate has the given ports, all of them free
    management ports, and the candidate derived from the older
    configuration has the uplinks as ports, free when listed as free
    uplinks. The last resort's priority lies above the zero time and
    below the priority of the derived candidate. *)
Theorem LastResortDevicePortConfig_lowest
    (DPCIsMgmt DT_CLIENT : Z) (ports : list string)
    (globalConfig : DeviceNetworkConfig) :
  NPC.IfName <$> DPC.Ports (LastResortDevicePortConfig DPCIsMgmt DT_CLIENT ports)
  = ports
  /\ (forall p,
        p ∈ DPC.Ports (LastResortDevicePortConfig DPCIsMgmt DT_CLIENT ports) ->
        NPC.IsMgmt p = true /\ NPC.Free p = true)
  /\ NPC.IfName <$> DPC.Ports (MakeDevicePortConfig DPCIsMgmt DT_CLIENT globalConfig)
     = Uplink globalConfig
  /\ (forall p,
        p ∈ DPC.Ports (MakeDevicePortConfig DPCIsMgmt DT_CLIENT globalConfig) ->
        NPC.IsMgmt p = true
        /\ (NPC.Free p = true <-> NPC.IfName p ∈ FreeUplinks globalConfig))
  /\ 0 < DPC.TimePriority (LastResortDevicePortConfig DPCIsMgmt DT_CLIENT ports)
  /\ DPC.TimePriority (LastResortDevicePortConfig DPCIsMgmt DT_CLIENT ports)
     < DPC.TimePriority (MakeDevicePortConfig DPCIsMgmt DT_CLIENT globalConfig).
Proof.
  unfold LastResortDevicePortConfig, MakeDevicePortConfig, setTimePriority.
  cbn [DPC.Ports DPC.TimePriority].
  split; [apply makeDevicePortConfig_names |]. split.
  - intros p Hp.
    destruct (makeDevicePortConfig_lookup _ _ _ _ p Hp) as (Hn & Hm & Hf).
    split; [done |]. by apply Hf.
  - split; [apply makeDevicePortConfig_names |]. split.
    + intros p Hp.
      by destruct (makeDevicePortConfig_lookup _ _ _ _ p Hp) as (_ & Hm & Hf).
    + split; by vm_compute.
Qed.

(** X13: [lookupOnIfname] answers the first port of the candidate that
    has the interface name, and nothing exactly when no port has it. In a
    candidate made by [makeDevicePortConfig] every given port name is
    found. *)
Theorem lookupOnIfname_first (config : DPC.t) (ifname : string) :
  (forall c, lookupOnIfname config ifname = Some c ->
     exists i, DPC.Ports config !! i = Some c /\ NPC.IfName c = ifname
               /\ forall j d, (j < i)%nat -> DPC.Ports config !! j = Some d ->
                              NPC.IfName d <> ifname)
  /\ (lookupOnIfname config ifname = None <->
      forall d, d ∈ DPC.Ports config -> NPC.IfName d <> ifname)
  /\ (forall DPCIsMgmt DT_CLIENT ports free,
        ifname ∈ ports ->
        exists c, lookupOnIfname
                    (makeDevicePortConfig DPCIsMgmt DT_CLIENT ports free)
                    ifname = Some c
                  /\ NPC.IfName c = ifname /\ NPC.IsMgmt c = true).
Proof.
  unfold lookupOnIfname.
  assert (forall ports c,
            lookupOnIfnamePorts ports ifname = Some c ->
            exists i, ports !! i = Some c /\ NPC.IfName c = ifname
                      /\ forall j d, (j < i)%nat -> ports !! j = Some d ->
                                     NPC.IfName d <> ifname) as Hsome.
  { induction ports as [| d ports IH]; intros c; [done |].
    cbn [lookupOnIfnamePorts].
    destruct (String.eqb_spec (NPC.IfName d) ifname) as [He | He].
    - intros [= <-]. exists 0%nat. split; [done |]. split; [done |].
      intros j d' Hj. lia.
    - intros Hc. destruct (IH c Hc) as (i & Hi & Hn & Hbefore).
      exists (S i). split; [done |]. split; [done |].
      intros [| j] d' Hj Hd'.
      + by injection Hd' as <-.
      + apply (Hbefore j d'); [lia | done]. }
  assert (forall ports,
            lookupOnIfnamePorts ports ifname = None <->
            forall d, d ∈ ports -> NPC.IfName d <> ifname) as Hnone.
  { induction ports as [| d ports IH]; cbn [lookupOnIfnamePorts].
    - split; [| done]. intros _ d Hd. by apply elem_of_nil in Hd.
    - destruct (String.eqb_spec (NPC.IfName d) ifname) as [He | He].
      + split; [done |]. intros H. by destruct (H d (list_elem_of_here _ _)).
      + rewrite IH. split.
        * intros H d' Hd'. apply elem_of_cons in Hd' as [-> | Hd']; [done |].
          by apply H.
        * intros H d' Hd'. apply H. by apply list_elem_of_further. }
  split; [apply Hsome |]. split; [apply Hnone |].
  intros DPCIsMgmt DT_CLIENT ports free Hin.
  destruct (lookupOnIfnamePorts
              (DPC.Ports (makeDevicePortConfig DPCIsMgmt DT_CLIENT ports free))
              ifname) as [c |] eqn:Hl.
  - exists c. destruct (Hsome _ c Hl) as (i & Hi & Hn & _).
    split; [done |]. split; [done |].
    apply list_elem_of_lookup_2 in Hi.
    by destruct (makeDevicePortConfig_lookup _ _ _ _ c Hi) as (_ & Hm & _).
  - exfalso. pose proof (proj1 (Hnone _) Hl) as Hl'.
    pose proof (makeDevicePortConfig_names DPCIsMgmt DT_CLIENT ports free)
      as Hnames.
    rewrite <- Hnames in Hin.
    apply list_elem_of_fmap in Hin as (c & Hc & Hcin).
    by apply (Hl' c Hcin).
Qed.

(** *** What a status entry takes from its configured port *)

Lemma makePort_fields (h : Host) (now : Time) (gs : DNS.t) (ix : nat)
    (u : NPC.t) :
  exists p, makePort h now gs ix u = DNS.setPort gs ix p
            /\ portStatusFields p = portConfigFields u.
Proof.
  unfold makePort.
  destruct (IfnameToIndex h (NPC.IfName u)) as [ifindex |].
  - match goal with
    | |- context [CheckAndGetNetworkProxy h ?g ?q] =>
        destruct (CheckAndGetNetworkProxy h g q) as [pac err]
    end.
    eexists. split; [rewrite !setPort_setPort; reflexivity |].
    by destruct (dhcpErr _), err.
  - by exists (portFromConfig h u).
Qed.

Lemma makePorts_fields (h : Host) (now : Time) (ports : list NPC.t) :
  forall (gs : DNS.t) (ix : nat),
    (ix + length ports <= length (DNS.Ports gs))%nat ->
    (forall j, (j < ix)%nat ->
       DNS.Ports (makePorts h now gs ix ports) !! j = DNS.Ports gs !! j)
    /\ (forall k u, ports !! k = Some u ->
          exists p, DNS.Ports (makePorts h now gs ix ports) !! (ix + k)%nat
                    = Some p
                    /\ portStatusFields p = portConfigFields u).
Proof.
  induction ports as [| u rest IH]; intros gs ix Hlen; simpl in *.
  - by split.
  - destruct (makePort_fields h now gs ix u) as (p & Hp & Hf).
    rewrite Hp.
    destruct (IH (DNS.setPort gs ix p) (S ix)) as (Hlow & Hk).
    { cbn [DNS.Ports DNS.setPort DNS.setPorts]. rewrite length_insert. lia. }
    split.
    + intros j Hj. rewrite Hlow by lia.
      cbn [DNS.Ports DNS.setPort DNS.setPorts].
      apply list_lookup_insert_ne. lia.
    + intros [| k] u' Hu'; simpl in Hu'.
      * injection Hu' as <-. exists p. split; [| done].
        rewrite Nat.add_0_r, Hlow by lia.
        cbn [DNS.Ports DNS.setPort DNS.setPorts].
        apply list_lookup_insert_eq. lia.
      * destruct (Hk k u' Hu') as (p' & Hp' & Hf').
        exists p'. split; [| done].
        by replace (ix + S k)%nat with (S ix + k)%nat by lia.
Qed.

Lemma geo_steps_fields (h : Host) (now : Time) (tl v : Z) (old : DNS.t)
    (p : NPS.t) :
  portStatusFields (fst (updatePortGeo h now tl v (preservePort old p)))
  = portStatusFields p.
Proof. unfold updatePortGeo. by destruct (_ && _). Qed.

(** X14: the status [MakeDeviceNetworkStatus] returns has the version of
    the candidate, is not marked Testing, and has one entry per configured
    port, at the same index, with the interface name, name, management
    and free flags, DHCP mode, gateway and NTP server of that port,
    whether or not the interface exists and whatever the DHCP, proxy and
    geolocation look-ups answer. *)
Theorem MakeDeviceNetworkStatus_copies_config
    (h : Host) (now : Time) (cfg : DPC.t) (old : DNS.t) :
  DNS.Version (fst (MakeDeviceNetworkStatus h now cfg old)) = DPC.Version cfg
  /\ DNS.Testing (fst (MakeDeviceNetworkStatus h now cfg old)) = false
  /\ length (DNS.Ports (fst (MakeDeviceNetworkStatus h now cfg old)))
     = length (DPC.Ports cfg)
  /\ (forall j u,
        DPC.Ports cfg !! j = Some u ->
        exists p,
          DNS.Ports (fst (MakeDeviceNetworkStatus h now cfg old)) !! j = Some p
          /\ portStatusFields p = portConfigFields u).
Proof.
  destruct (synthesize_spec h now cfg) as (Hv & Hn & _).
  assert (DNS.Testing (synthesize h now cfg) = false) as Ht.
  { unfold synthesize.
    destruct (makePorts_spec h now (DPC.Ports cfg)
                (DNS.mk (DPC.Version cfg) false
                        (replicate (length (DPC.Ports cfg)) NPS.zero)) 0)
      as (_ & Ht & _); [| done].
    cbn [DNS.Ports]. by rewrite length_replicate. }
  split; [done |]. split; [done |]. split.
  - unfold MakeDeviceNetworkStatus, UpdateDeviceNetworkGeo, preserveGeo.
    cbn [fst DNS.Ports DNS.setPorts]. by rewrite !length_fmap.
  - intros j u Hu. rewrite MakeDeviceNetworkStatus_port.
    destruct (makePorts_fields h now (DPC.Ports cfg)
                (DNS.mk (DPC.Version cfg) false
                        (replicate (length (DPC.Ports cfg)) NPS.zero)) 0)
      as (_ & Hk).
    { cbn [DNS.Ports]. by rewrite length_replicate. }
    destruct (Hk j u Hu) as (p & Hp & Hf).
    rewrite Nat.add_0_l in Hp. fold (synthesize h now cfg) in Hp.
    rewrite Hp. eexists. split; [reflexivity |].
    by rewrite geo_steps_fields.
Qed.

(** *** The geolocation check *)

Lemma updateAddrGeo_fixed (h : Host) (now : Time) (tl : Z) (ai : AddrInfo.t) :
  fst (updateAddrGeo h now tl ai) = ai -> snd (updateAddrGeo h now tl ai) = false.
Proof.
  destruct (updateAddrGeo_cases h now tl ai)
    as [-> | (_ & info & _ & Hne & ->)]; [done |].
  cbn [fst snd]. intros H. apply (f_equal AddrInfo.Geo) in H.
  cbn in H. by subst.
Qed.

Lemma fmap_fst_fixed {A} (f : A -> A * bool) (l : list A) :
  (forall x, fst (f x) = x -> snd (f x) = false) ->
  fst <$> (f <$> l) = l -> existsb snd (f <$> l) = false.
Proof.
  intros Hf. induction l as [| x l IH]; [done |].
  rewrite !fmap_cons. cbn [existsb]. intros [= Hx Hl].
  by rewrite (Hf x Hx), (IH Hl).
Qed.

Lemma updatePortGeo_fixed (h : Host) (now : Time) (tl v : Z) (u : NPS.t) :
  fst (updatePortGeo h now tl v u) = u ->
  snd (updatePortGeo h now tl v u) = false.
Proof.
  unfold updatePortGeo. destruct (_ && _); [done |]. cbn [fst snd].
  intros H. apply (f_equal NPS.AddrInfoList) in H.
  cbn [NPS.AddrInfoList NPS.setAddrInfoList] in H.
  by apply (fmap_fst_fixed _ _ (updateAddrGeo_fixed h now tl)).
Qed.

(** X15: [UpdateDeviceNetworkGeo] returns true exactly when the status it
    leaves differs from the status it was given. *)
Theorem UpdateDeviceNetworkGeo_reports_change
    (h : Host) (now : Time) (timelimit : Z) (globalStatus : DNS.t) :
  snd (UpdateDeviceNetworkGeo h now timelimit globalStatus) = true
  <-> fst (UpdateDeviceNetworkGeo h now timelimit globalStatus) <> globalStatus.
Proof.
  split.
  - intros Ht Heq.
    assert (snd (UpdateDeviceNetworkGeo h now timelimit globalStatus) = false)
      as Hf; [| congruence].
    unfold UpdateDeviceNetworkGeo in *. cbn [fst snd] in *.
    apply (f_equal DNS.Ports) in Heq. cbn [DNS.Ports DNS.setPorts] in Heq.
    by apply (fmap_fst_fixed _ _
                (updatePortGeo_fixed h now timelimit
                   (DNS.Version globalStatus))).
  - intros Hne. apply not_false_is_true. intros Hf.
    by apply Hne, UpdateDeviceNetworkGeo_unchanged.
Qed.

Lemma clearGeoAddr_Addr (a b : AddrInfo.t) :
  AddrInfo.Addr a = AddrInfo.Addr b -> clearGeoAddr a = clearGeoAddr b.
Proof. unfold clearGeoAddr. by intros ->. Qed.

Lemma clearGeoPort_updatePortGeo (h : Host) (now : Time) (tl v : Z)
    (u : NPS.t) :
  clearGeoPort (fst (updatePortGeo h now tl v u)) = clearGeoPort u.
Proof.
  unfold updatePortGeo. destruct (_ && _); [done |]. cbn [fst].
  unfold clearGeoPort. destruct u. cbn. f_equal.
  rewrite <- !list_fmap_compose. apply list_fmap_ext. intros i x _.
  apply clearGeoAddr_Addr, updateAddrGeo_Addr.
Qed.

Lemma clearGeoPort_preservePort (old : DNS.t) (u : NPS.t) :
  clearGeoPort (preservePort old u) = clearGeoPort u.
Proof.
  unfold clearGeoPort, preservePort. destruct u. cbn. f_equal.
  rewrite <- !list_fmap_compose. apply list_fmap_ext. intros i x _.
  apply clearGeoAddr_Addr, preserveAddr_Addr.
Qed.

Lemma clearGeo_UpdateDeviceNetworkGeo (h : Host) (now : Time) (tl : Z)
    (gs : DNS.t) :
  clearGeo (fst (UpdateDeviceNetworkGeo h now tl gs)) = clearGeo gs.
Proof.
  unfold UpdateDeviceNetworkGeo, clearGeo, DNS.setPorts.
  cbn [fst DNS.Ports DNS.Version DNS.Testing]. f_equal.
  rewrite <- !list_fmap_compose. apply list_fmap_ext. intros i p _.
  apply clearGeoPort_updatePortGeo.
Qed.

(** X16: [UpdateDeviceNetworkGeo] changes nothing but geolocation
    annotations: ports, addresses, errors and all other fields stay. An
    entry is left entirely as it is when its address is link-local, when
    its port is not a management port of a status of version [DPCIsMgmt]
    or later, and when its annotation is younger than the time limit,
    whatever the geolocation service would answer. *)
Theorem UpdateDeviceNetworkGeo_frame
    (h : Host) (now : Time) (timelimit : Z) (globalStatus : DNS.t) :
  clearGeo (fst (UpdateDeviceNetworkGeo h now timelimit globalStatus))
  = clearGeo globalStatus
  /\ (forall j p i ai,
        DNS.Ports globalStatus !! j = Some p ->
        NPS.AddrInfoList p !! i = Some ai ->
        IsLinkLocalUnicast (AddrInfo.Addr ai) = true
        \/ (DPCIsMgmt h <= DNS.Version globalStatus /\ NPS.IsMgmt p = false)
        \/ now - AddrInfo.LastGeoTimestamp ai < timelimit ->
        exists p',
          DNS.Ports (fst (UpdateDeviceNetworkGeo h now timelimit globalStatus))
            !! j = Some p'
          /\ NPS.AddrInfoList p' !! i = Some ai).
Proof.
  split; [apply clearGeo_UpdateDeviceNetworkGeo |].
  intros j p i ai Hp Hai Hskip.
  unfold UpdateDeviceNetworkGeo. cbn [fst DNS.Ports DNS.setPorts].
  rewrite <- list_fmap_compose, list_lookup_fmap, Hp. cbn.
  eexists. split; [reflexivity |].
  unfold updatePortGeo.
  destruct ((DNS.Version globalStatus >=? DPCIsMgmt h) && negb (NPS.IsMgmt p))
    eqn:Hport; cbn [fst]; [done |].
  cbn [NPS.AddrInfoList NPS.setAddrInfoList].
  rewrite <- list_fmap_compose, list_lookup_fmap, Hai. cbn. f_equal.
  unfold updateAddrGeo.
  destruct Hskip as [Hll | [[Hv Hm] | Hyoung]].
  - by rewrite Hll.
  - exfalso. rewrite Hm in Hport. cbn in Hport.
    rewrite andb_true_r, Z.geb_leb in Hport.
    apply Z.leb_gt in Hport. lia.
  - destruct (IsLinkLocalUnicast _); [done |].
    apply Z.ltb_lt in Hyoung. by rewrite Hyoung.
Qed.

(** The eth0 address of the sample status was located at time 500; a
    check at time 600 with a limit of one second leaves it alone although
    the service would now answer differently. *)
Lemma UpdateDeviceNetworkGeo_frame_witness :
  exists p',
    DNS.Ports (fst (UpdateDeviceNetworkGeo
                      (samples.host None (Some samples.geo_moved)) 600 Second
                      (samples.old_status 500))) !! 0%nat = Some p'
    /\ NPS.AddrInfoList p' !! 0%nat
       = Some (AddrInfo.mk [10; 0; 0; 1]%N samples.geo_here 500).
Proof.
  apply (proj2 (UpdateDeviceNetworkGeo_frame
                  (samples.host None (Some samples.geo_moved)) 600 Second
                  (samples.old_status 500))
           0%nat
           (NPS.mk "eth0" "eth0" true true ProxyConfig.zero 4
              (mkIPNet [] []) [] "" [] []
              [AddrInfo.mk [10; 0; 0; 1]%N samples.geo_here 500] "" 0)
           0%nat (AddrInfo.mk [10; 0; 0; 1]%N samples.geo_here 500)
           eq_refl eq_refl).
  right. right. by vm_compute.
Defined.

Lemma updateAddrGeo_again (h : Host) (now : Time) (tl : Z) (ai : AddrInfo.t) :
  0 < tl ->
  updateAddrGeo h now tl (fst (updateAddrGeo h now tl ai))
  = (fst (updateAddrGeo h now tl ai), false).
Proof.
  intros Htl.
  destruct (updateAddrGeo_cases h now tl ai)
    as [H | (_ & info & _ & _ & ->)].
  - rewrite H. cbn [fst]. by rewrite H.
  - cbn [fst]. unfold updateAddrGeo. cbn [AddrInfo.Addr AddrInfo.LastGeoTimestamp].
    destruct (IsLinkLocalUnicast _); [done |].
    rewrite Z.sub_diag. by rewrite (proj2 (Z.ltb_lt 0 tl) Htl).
Qed.

Lemma fmap_again {A} (f : A -> A * bool) (l : list A) :
  (forall x, f (fst (f x)) = (fst (f x), false)) ->
  fst <$> (f <$> (fst <$> (f <$> l))) = fst <$> (f <$> l)
  /\ existsb snd (f <$> (fst <$> (f <$> l))) = false.
Proof.
  intros Hf. induction l as [| x l [IH1 IH2]]; [done |].
  rewrite !fmap_cons. cbn [existsb]. rewrite Hf. cbn [fst snd].
  by rewrite IH1, IH2.
Qed.

Lemma updatePortGeo_again (h : Host) (now : Time) (tl v : Z) (u : NPS.t) :
  0 < tl ->
  updatePortGeo h now tl v (fst (updatePortGeo h now tl v u))
  = (fst (updatePortGeo h now tl v u), false).
Proof.
  intros Htl. unfold updatePortGeo.
  destruct ((v >=? DPCIsMgmt h) && negb (NPS.IsMgmt u)) eqn:Hskip; cbn [fst].
  - by rewrite Hskip.
  - cbn [NPS.IsMgmt NPS.setAddrInfoList NPS.AddrInfoList]. rewrite Hskip.
    destruct (fmap_again _ (NPS.AddrInfoList u)
                (fun x => updateAddrGeo_again h now tl x Htl))
      as [H1 H2].
    rewrite H1, H2. by destruct u.
Qed.

(** X17: with a positive time limit, a second [UpdateDeviceNetworkGeo] at
    the same instant changes nothing and returns false: what was just
    fetched is not fetched again. *)
Theorem UpdateDeviceNetworkGeo_settles
    (h : Host) (now : Time) (timelimit : Z) (globalStatus : DNS.t) :
  0 < timelimit ->
  UpdateDeviceNetworkGeo h now timelimit
    (fst (UpdateDeviceNetworkGeo h now timelimit globalStatus))
  = (fst (UpdateDeviceNetworkGeo h now timelimit globalStatus), false).
Proof.
  intros Htl. unfold UpdateDeviceNetworkGeo.
  cbn [fst DNS.Ports DNS.Version DNS.setPorts].
  destruct (fmap_again _ (DNS.Ports globalStatus)
              (fun p => updatePortGeo_again h now timelimit
                          (DNS.Version globalStatus) p Htl))
    as [H1 H2].
  by rewrite H1, H2.
Qed.

Lemma UpdateDeviceNetworkGeo_settles_witness :
  UpdateDeviceNetworkGeo (samples.host None (Some samples.geo_moved))
    (5 * Second) Second
    (fst (UpdateDeviceNetworkGeo (samples.host None (Some samples.geo_moved))
            (5 * Second) Second (samples.old_status 500)))
  = (fst (UpdateDeviceNetworkGeo (samples.host None (Some samples.geo_moved))
            (5 * Second) Second (samples.old_status 500)), false).
Proof.
  apply (UpdateDeviceNetworkGeo_settles
           (samples.host None (Some samples.geo_moved)) (5 * Second) Second
           (samples.old_status 500)).
  by vm_compute.
Defined.

(** *** Looking up an old address *)

(** X18: [lookupPortStatusAddr] answers an entry of a port with the given
    interface name whose address is IP-equal to the given one; it answers
    nothing exactly when no such entry exists; and it answers the same
    for IP-equal addresses, so an IPv4 address is found under its 4-byte
    and under its 16-byte form alike. *)
Theorem lookupPortStatusAddr_by_Equal
    (status : DNS.t) (ifname : string) (addr : IP) :
  (forall ai,
     lookupPortStatusAddr status ifname addr = Some ai ->
     Equal (AddrInfo.Addr ai) addr = true
     /\ exists u, u ∈ DNS.Ports status /\ NPS.IfName u = ifname
                  /\ ai ∈ NPS.AddrInfoList u)
  /\ (lookupPortStatusAddr status ifname addr = None <->
      forall u ai, u ∈ DNS.Ports status -> NPS.IfName u = ifname ->
                   ai ∈ NPS.AddrInfoList u ->
                   Equal (AddrInfo.Addr ai) addr = false)
  /\ (forall addr', Equal addr addr' = true ->
        lookupPortStatusAddr status ifname addr'
        = lookupPortStatusAddr status ifname addr)
  /\ (length addr = 4%nat ->
      lookupPortStatusAddr status ifname (v4InV6Prefix ++ addr)
      = lookupPortStatusAddr status ifname addr).
Proof.
  unfold lookupPortStatusAddr. split; [| split; [| split]].
  - intros ai Hai.
    destruct (lookupPorts_Some _ _ _ _ Hai) as (u & Hu & Hn & Hin & He).
    split; [done |]. by exists u.
  - split.
    + intros Hnone u ai Hu Hn Hin. apply not_true_is_false. intros He.
      destruct (lookupPorts_is_Some _ _ _ _ _ Hu Hn Hin He) as [x Hx].
      congruence.
    + intros Hno.
      destruct (lookupPorts (DNS.Ports status) ifname addr) as [ai |] eqn:Hl;
        [| done].
      destruct (lookupPorts_Some _ _ _ _ Hl) as (u & Hu & Hn & Hin & He).
      by rewrite (Hno u ai Hu Hn Hin) in He.
  - intros addr' He. symmetry. by apply lookupPorts_congr.
  - intros Hlen. symmetry. apply lookupPorts_congr.
    apply Equal_4_16; [done | | done].
    rewrite length_app, Hlen. reflexivity.
Qed.

(** 10.0.0.1 is found on eth0 under its 16-byte form too. *)
Lemma lookupPortStatusAddr_by_Equal_witness :
  lookupPortStatusAddr (samples.old_status 500) "eth0"
                       (v4InV6Prefix ++ [10; 0; 0; 1]%N)
  = lookupPortStatusAddr (samples.old_status 500) "eth0" [10; 0; 0; 1]%N.
Proof.
  apply (proj2 (proj2 (proj2 (lookupPortStatusAddr_by_Equal
                                (samples.old_status 500) "eth0"
                                [10; 0; 0; 1]%N)))).
  reflexivity.
Defined.

(** *** Address events *)



(** *** The part the old status plays *)

Lemma clearGeo_preserveGeo (old gs : DNS.t) :
  clearGeo (preserveGeo old gs) = clearGeo gs.
Proof.
  unfold preserveGeo, clearGeo, DNS.setPorts.
  cbn [DNS.Ports DNS.Version DNS.Testing]. f_equal.
  rewrite <- !list_fmap_compose. apply list_fmap_ext. intros i p _.
  apply clearGeoPort_preservePort.
Qed.

Lemma fmap_fixed {A} (f : A -> A) (l : list A) :
  Forall (fun x => f x = x) l -> f <$> l = l.
Proof.
  induction 1 as [| x l Hx _ IH]; [done |].
  by rewrite fmap_cons, Hx, IH.
Qed.

Lemma clearGeoPort_fresh (p : NPS.t) :
  Forall fresh (NPS.AddrInfoList p) -> clearGeoPort p = p.
Proof.
  intros Hf. unfold clearGeoPort. rewrite fmap_fixed.
  - apply setAddrInfoList_id.
  - eapply Forall_impl; [exact Hf |].
    intros [a g t] [Hg Ht]. unfold clearGeoAddr. cbn in *. by subst.
Qed.

Lemma clearGeo_fresh (gs : DNS.t) :
  (forall p, p ∈ DNS.Ports gs -> Forall fresh (NPS.AddrInfoList p)) ->
  clearGeo gs = gs.
Proof.
  intros Hf. unfold clearGeo. rewrite fmap_fixed.
  - apply setPorts_id.
  - apply Forall_forall. intros p Hp. by apply clearGeoPort_fresh, Hf.
Qed.

(** *** Two runs: the order of the name cache *)

Lemma IfnameToIndex_withRange (h : Host)
    (entries : list (Z * zedrouter.linkNameType)) :
  zedrouter.oneIfindexPerName (ifindexToName h) ->
  rangeOk h ->
  entries ≡ₚ map_to_list (ifindexToName h) ->
  forall ifname,
    IfnameToIndex (withRange h entries) ifname = IfnameToIndex h ifname.
Proof.
  intros Hone Hok Hperm ifname. unfold IfnameToIndex.
  cbn [withRange ifindexToNameRange LinkByName].
  rewrite (zedrouter_more.IfnameToIndexIn_any_order
             (ifindexToName h) entries _ _ Hone Hperm).
  by rewrite (zedrouter_more.IfnameToIndexIn_any_order
                (ifindexToName h) (ifindexToNameRange h) _ _ Hone Hok).
Qed.

Section SameAnswers.
Variables (h : Host) (entries : list (Z * zedrouter.linkNameType)).
Hypothesis same :
  forall ifname,
    IfnameToIndex (withRange h entries) ifname = IfnameToIndex h ifname.

Lemma makePort_withRange (now : Time) (gs : DNS.t) (ix : nat) (u : NPC.t) :
  makePort (withRange h entries) now gs ix u = makePort h now gs ix u.
Proof. unfold makePort. rewrite same. reflexivity. Qed.

Lemma makePorts_withRange (now : Time) (gs : DNS.t) (ix : nat)
    (ports : list NPC.t) :
  makePorts (withRange h entries) now gs ix ports = makePorts h now gs ix ports.
Proof.
  revert gs ix. induction ports as [| u ports IH]; intros gs ix; [done |].
  cbn [makePorts]. by rewrite makePort_withRange, IH.
Qed.

Lemma synthesize_withRange (now : Time) (cfg : DPC.t) :
  synthesize (withRange h entries) now cfg = synthesize h now cfg.
Proof. unfold synthesize. apply makePorts_withRange. Qed.

Lemma MakeDeviceNetworkStatus_withRange (now : Time) (cfg : DPC.t)
    (old : DNS.t) :
  MakeDeviceNetworkStatus (withRange h entries) now cfg old
  = MakeDeviceNetworkStatus h now cfg old.
Proof.
  unfold MakeDeviceNetworkStatus. rewrite synthesize_withRange. reflexivity.
Qed.


End SameAnswers.

Lemma clearGeo_MakeDeviceNetworkStatus (h : Host) (now : Time) (cfg : DPC.t)
    (old : DNS.t) :
  clearGeo (fst (MakeDeviceNetworkStatus h now cfg old)) = synthesize h now cfg.
Proof.
  unfold MakeDeviceNetworkStatus. cbn [fst].
  rewrite clearGeo_UpdateDeviceNetworkGeo, clearGeo_preserveGeo.
  apply clearGeo_fresh. apply synthesize_fresh.
Qed.


(** With interfaces 2 and 3 both called eth0, the status made for eth0
    depends on which of the two [range] delivers first. *)
Example MakeDeviceNetworkStatus_order_matters :
  let e2 := (2, samples.eth0) in
  let e3 := (3, samples.eth0) in
  rangeOk (samples.host_twice [e2; e3])
  /\ rangeOk (samples.host_twice [e3; e2])
  /\ bool_decide
       (clearGeo (fst (MakeDeviceNetworkStatus (samples.host_twice [e2; e3])
                         1000 samples.candidate DNS.zero))
        = clearGeo (fst (MakeDeviceNetworkStatus (samples.host_twice [e3; e2])
                           1000 samples.candidate DNS.zero)))
     = false.
Proof.
  cbv zeta. split; [| split].
  - unfold rangeOk. vm_compute.
    first [apply Permutation_refl | apply perm_swap].
  - unfold rangeOk. vm_compute.
    first [apply Permutation_refl | apply perm_swap].
  - by vm_compute.
Qed.

(** X20: the old status given to [MakeDeviceNetworkStatus] bears on
    geolocation annotations only. Of one run, the status with the
    annotations blanked is the status as the first loop alone leaves it,
    whatever the old status. Of two runs at the same time on the same host
    from the same candidate, in which [range] may deliver the entries of
    the name cache in different orders, the statuses for two old statuses
    are the same once the annotations are blanked, when no two cached
    ifindexes carry the same name. *)
Theorem MakeDeviceNetworkStatus_old_only_geo
    (h : Host) (now : Time) (cfg : DPC.t) :
  (forall old,
     clearGeo (fst (MakeDeviceNetworkStatus h now cfg old))
     = synthesize h now cfg)
  /\ (forall entries old1 old2,
        zedrouter.oneIfindexPerName (ifindexToName h) ->
        rangeOk h ->
        entries ≡ₚ map_to_list (ifindexToName h) ->
        clearGeo (fst (MakeDeviceNetworkStatus h now cfg old1))
        = clearGeo (fst (MakeDeviceNetworkStatus (withRange h entries)
                           now cfg old2))).
Proof.
  split; [apply clearGeo_MakeDeviceNetworkStatus |].
  intros entries old1 old2 Hone Hok Hperm.
  rewrite (MakeDeviceNetworkStatus_withRange h entries
             (IfnameToIndex_withRange h entries Hone Hok Hperm)).
  by rewrite !clearGeo_MakeDeviceNetworkStatus.
Qed.

(** On the host with eth0 and eth1, a run that sees the name cache in the
    reverse order and starts from an old status with a geolocation
    annotation gives the same status, annotations aside. *)
Lemma MakeDeviceNetworkStatus_old_only_geo_witness :
  clearGeo (fst (MakeDeviceNetworkStatus (samples.host23 None None) 1000
                   samples.candidate DNS.zero))
  = clearGeo (fst (MakeDeviceNetworkStatus
                     (withRange (samples.host23 None None)
                        (reverse (map_to_list samples.names23)))
                     1000 samples.candidate (samples.old_status 500))).
Proof.
  apply (proj2 (MakeDeviceNetworkStatus_old_only_geo
                  (samples.host23 None None) 1000 samples.candidate)).
  - apply zedrouter_more.oneIfindexPerName_NoDup.
    apply (bool_decide_unpack _). by vm_compute.
  - unfold rangeOk. reflexivity.
  - apply reverse_Permutation.
Defined.



End devicenetwork_more.

(** ** More on the periodic connectivity test *)

Module nim_more.
Import types nim nim_facts.





(** X23: [tryDeviceConnectivityToCloud] returns the verdict of the probe.
    It ends in a run-time panic exactly when the probe passes while
    [NextDPCIndex] is negative (the index is compared with the length of
    the list only from above); an index at or past the end of the list is
    skipped without harm. *)
Theorem tryDeviceConnectivityToCloud_panics_iff
    (V : DeviceNetworkStatus.t -> Z -> bool)
    (R : DeviceNetworkContext -> string -> DeviceNetworkContext)
    (now : Time) (ctx : DeviceNetworkContext) :
  (tryDeviceConnectivityToCloud V R now ctx = None
   <-> V (DeviceNetworkStatus ctx) 1 = true /\ NextDPCIndex ctx < 0)
  /\ (forall ctx' r calls,
        tryDeviceConnectivityToCloud V R now ctx = Some (ctx', r, calls) ->
        r = V (DeviceNetworkStatus ctx) 1).
Proof.
  destruct (V (DeviceNetworkStatus ctx) 1) eqn:Hp.
  - assert (tryDeviceConnectivityToCloud V R now ctx
            = if NextDPCIndex ctx <? 0 then None
              else Some (setConnectivity ctx true
                           (NewTimer now (NetworkTestInterval ctx * Second)),
                         true, [])) as Hdef.
    { unfold tryDeviceConnectivityToCloud. rewrite Hp.
      destruct (Z.ltb_spec (NextDPCIndex ctx)
                  (Z.of_nat (length (DevicePortConfigList.PortConfigList
                                       (DevicePortConfigList ctx)))))
        as [Hlt | Hge].
      - unfold index. destruct (Z.ltb_spec (NextDPCIndex ctx) 0); [done |].
        destruct (lookup_lt_is_Some_2
                    (DevicePortConfigList.PortConfigList
                       (DevicePortConfigList ctx))
                    (Z.to_nat (NextDPCIndex ctx)) ltac:(lia)) as [cur ->].
        done.
      - destruct (Z.ltb_spec (NextDPCIndex ctx) 0); [lia | done]. }
    rewrite Hdef. destruct (Z.ltb_spec (NextDPCIndex ctx) 0).
    + split; [done | done].
    + split; [split; [done | intros [_ ?]; lia] |].
      by intros ctx' r calls [= _ <- _].
  - rewrite (try_failing V R now ctx Hp). split.
    + split; [done | by intros [? _]].
    + intros ctx' r calls.
      destruct (CloudConnectivityWorks ctx);
        [| destruct (Inprogress (Pending ctx))]; by intros [= _ <- _].
Qed.

(** X24: when the previous test had failed and the probe fails again,
    [tryDeviceConnectivityToCloud] itself does not re-arm the network-test
    timer: with a verification in progress it leaves the whole context as
    it is, and otherwise the context is what [RestartVerify] makes of the
    unchanged context. *)
Theorem tryDeviceConnectivityToCloud_no_rearm
    (V : DeviceNetworkStatus.t -> Z -> bool)
    (R : DeviceNetworkContext -> string -> DeviceNetworkContext)
    (now : Time) (ctx : DeviceNetworkContext) :
  CloudConnectivityWorks ctx = false ->
  V (DeviceNetworkStatus ctx) 1 = false ->
  (Inprogress (Pending ctx) = true ->
   tryDeviceConnectivityToCloud V R now ctx = Some (ctx, false, []))
  /\ (Inprogress (Pending ctx) = false ->
      tryDeviceConnectivityToCloud V R now ctx
      = Some (R ctx "tryDeviceConnectivityToCloud", false,
              [CallRestartVerify "tryDeviceConnectivityToCloud"]))
  /\ (forall ctx' r calls,
        tryDeviceConnectivityToCloud V R now ctx = Some (ctx', r, calls) ->
        calls = [] -> NetworkTestTimer ctx' = NetworkTestTimer ctx).
Proof.
  intros Hw Hp. rewrite (try_failing V R now ctx Hp), Hw.
  split; [by intros -> |]. split; [by intros -> |].
  intros ctx' r calls. destruct (Inprogress (Pending ctx)); by intros [= <- _ <-].
Qed.

Lemma tryDeviceConnectivityToCloud_no_rearm_witness :
  tryDeviceConnectivityToCloud (fun _ _ => false) samples.restart 1000
                               (samples.engine 0 false true)
  = Some (samples.engine 0 false true, false, []).
Proof.
  apply (proj1 (tryDeviceConnectivityToCloud_no_rearm
                  (fun _ _ => false) samples.restart 1000
                  (samples.engine 0 false true) eq_refl eq_refl)).
  reflexivity.
Defined.

End nim_more.

(** ** More on the LED manager: the handlers as [Run] composes them *)

Module ledmanager_more.
Import types ledmanager.

Section Runs.
Variable count : DeviceNetworkStatus.t -> Z.

Lemma run_ind (P : ledManagerContext -> Prop) :
  P initial ->
  (forall c ev, P c -> P (dispatch count c ev)) ->
  forall events, P (run count events).
Proof.
  intros H0 Hstep events. unfold run.
  generalize dependent initial.
  induction events as [| ev events IH]; intros c Hc; [exact Hc |].
  cbn [foldl]. apply IH, Hstep, Hc.
Qed.

Lemma updateDerivedLedCounter_derived (c : ledManagerContext) :
  updateDerivedLedCounter c
  = mkCtx (countChange c ++ [derived (usableAddressCount c) (ledCounter c)])
          (ledCounter c) (deviceNetworkStatus c) (usableAddressCount c)
          (derived (usableAddressCount c) (ledCounter c)).
Proof. reflexivity. Qed.

Lemma derived_ge_1 (u l : Z) : 1 <= derived u l.
Proof.
  unfold derived. destruct (Z.eqb_spec u 0); [lia |].
  destruct (Z.ltb_spec l 2); lia.
Qed.

Lemma derived_1_iff (u l : Z) : derived u l = 1 <-> u = 0.
Proof.
  unfold derived. destruct (Z.eqb_spec u 0); [done |].
  destruct (Z.ltb_spec l 2); split; intros; lia.
Qed.

Lemma transition_agrees (c : ledManagerContext) (s : DeviceNetworkStatus.t) :
  countAgrees count
    (if ((usableAddressCount c =? 0) && negb (count s =? 0))
        || (negb (usableAddressCount c =? 0) && (count s =? 0))
     then updateDerivedLedCounter
            (mkCtx (countChange c) (ledCounter c) s (count s)
                   (derivedLedCounter c))
     else mkCtx (countChange c) (ledCounter c) s (usableAddressCount c)
                (derivedLedCounter c)).
Proof.
  unfold countAgrees.
  destruct (Z.eqb_spec (usableAddressCount c) 0) as [Hu | Hu];
    destruct (Z.eqb_spec (count s) 0) as [Hc | Hc]; cbn; split; intros; lia.
Qed.

Lemma dispatch_agrees (c : ledManagerContext) (ev : Event) :
  countAgrees count c -> countAgrees count (dispatch count c ev).
Proof.
  intros Hc. destruct ev as [key s | key | key n | key]; cbn [dispatch].
  - unfold handleDNSModify.
    destruct (negb (String.eqb key "global")); [exact Hc |].
    destruct (DeviceNetworkStatus.Testing s); [exact Hc |].
    destruct (bool_decide _); [exact Hc |].
    apply (transition_agrees c s).
  - unfold handleDNSDelete.
    destruct (negb (String.eqb key "global")); [exact Hc |].
    apply (transition_agrees c DeviceNetworkStatus.zero).
  - unfold handleLedBlinkModify.
    destruct (negb (String.eqb key "ledconfig")); [exact Hc |].
    destruct (n =? ledCounter c); exact Hc.
  - unfold handleLedBlinkDelete.
    destruct (negb (String.eqb key "ledconfig")); exact Hc.
Qed.

Lemma update_sentAgrees (c : ledManagerContext) :
  Forall (fun v => 1 <= v) (countChange c) ->
  sentAgrees (updateDerivedLedCounter c).
Proof.
  intros Hall. rewrite updateDerivedLedCounter_derived. split; cbn.
  - apply Forall_app. split; [exact Hall |].
    constructor; [apply derived_ge_1 | constructor].
  - right. split; [apply last_snoc | reflexivity].
Qed.

Lemma status_sentAgrees (c : ledManagerContext) (s : DeviceNetworkStatus.t) :
  sentAgrees c ->
  sentAgrees (mkCtx (countChange c) (ledCounter c) s (usableAddressCount c)
                    (derivedLedCounter c)).
Proof. intros H. exact H. Qed.

Lemma dispatch_sentAgrees (c : ledManagerContext) (ev : Event) :
  sentAgrees c -> sentAgrees (dispatch count c ev).
Proof.
  intros Hc. pose proof (proj1 Hc) as Hall.
  destruct ev as [key s | key | key n | key]; cbn [dispatch].
  - unfold handleDNSModify.
    destruct (negb (String.eqb key "global")); [exact Hc |].
    destruct (DeviceNetworkStatus.Testing s); [exact Hc |].
    destruct (bool_decide _); [exact Hc |].
    cbn. destruct (_ || _); [| exact Hc].
    by apply update_sentAgrees.
  - unfold handleDNSDelete.
    destruct (negb (String.eqb key "global")); [exact Hc |].
    cbn. destruct (_ || _); [| exact Hc].
    by apply update_sentAgrees.
  - unfold handleLedBlinkModify.
    destruct (negb (String.eqb key "ledconfig")); [exact Hc |].
    destruct (n =? ledCounter c); [exact Hc |].
    by apply update_sentAgrees.
  - unfold handleLedBlinkDelete.
    destruct (negb (String.eqb key "ledconfig")); [exact Hc |].
    by apply update_sentAgrees.
Qed.

(** X25: whatever events [Run] has delivered, the usable address count of
    the context is zero exactly when the stored status has no usable
    address. The count of addresses of the empty status is zero. *)
Theorem run_usable_zero_iff (events : list Event) :
  count DeviceNetworkStatus.zero = 0 ->
  usableAddressCount (run count events) = 0
  <-> count (deviceNetworkStatus (run count events)) = 0.
Proof.
  intros H0. revert events.
  apply (run_ind (countAgrees count)); [| apply dispatch_agrees].
  unfold countAgrees, initial. cbn. by rewrite H0.
Qed.

(** X26: whatever events [Run] has delivered, every value sent to the
    blink routine is at least 1; before the first one the derived counter
    is 0; afterwards the last value sent is the derived counter, it is
    the value [updateDerivedLedCounter] would compute now, and it is 1
    exactly when the usable address count is zero. *)
Theorem run_sends_derived (events : list Event) :
  Forall (fun v => 1 <= v) (countChange (run count events))
  /\ (countChange (run count events) = [] ->
      derivedLedCounter (run count events) = 0)
  /\ (countChange (run count events) <> [] ->
      last (countChange (run count events))
      = Some (derivedLedCounter (run count events))
      /\ derivedLedCounter (updateDerivedLedCounter (run count events))
         = derivedLedCounter (run count events)
      /\ (derivedLedCounter (run count events) = 1
          <-> usableAddressCount (run count events) = 0)).
Proof.
  assert (sentAgrees (run count events)) as [Hall Hlast].
  { revert events. apply (run_ind sentAgrees); [| apply dispatch_sentAgrees].
    split; [constructor | by left]. }
  split; [exact Hall |]. split.
  - intros Hnil. destruct Hlast as [[_ H] | [H _]]; [exact H |].
    rewrite Hnil in H. discriminate.
  - intros Hne. destruct Hlast as [[H _] | [Hl Hd]]; [done |].
    split; [exact Hl |]. split.
    + rewrite updateDerivedLedCounter_derived. cbn. by rewrite Hd.
    + rewrite Hd. apply derived_1_iff.
Qed.

(** X27: [handleDNSModify], [handleDNSDelete] and [handleLedBlinkModify]
    take a repeated delivery without effect: the same event a second
    time leaves the context as the first left it, and nothing more is
    sent. [handleLedBlinkDelete] sends its value again. *)
Theorem handlers_repeated (ctx : ledManagerContext) :
  (forall key status,
      handleDNSModify count (handleDNSModify count ctx key status) key status
      = handleDNSModify count ctx key status)
  /\ (forall key,
        handleDNSDelete count (handleDNSDelete count ctx key) key
        = handleDNSDelete count ctx key)
  /\ (forall key n,
        handleLedBlinkModify (handleLedBlinkModify ctx key n) key n
        = handleLedBlinkModify ctx key n)
  /\ (forall d,
        countChange (handleLedBlinkDelete
                       (handleLedBlinkDelete ctx "ledconfig") "ledconfig")
        = countChange ctx ++ [d; d]
        <-> d = derived (usableAddressCount ctx) 0).
Proof.
  split; [| split; [| split]].
  - intros key s. unfold handleDNSModify at 2 3.
    destruct (negb (String.eqb key "global")) eqn:Hk.
    { unfold handleDNSModify. by rewrite Hk. }
    destruct (DeviceNetworkStatus.Testing s) eqn:Ht.
    { unfold handleDNSModify. by rewrite Hk, Ht. }
    destruct (bool_decide (deviceNetworkStatus ctx = s)) eqn:He.
    { unfold handleDNSModify. by rewrite Hk, Ht, He. }
    cbn. unfold handleDNSModify. rewrite Hk, Ht.
    destruct (_ || _); cbn; by rewrite bool_decide_eq_true_2.
  - intros key. unfold handleDNSDelete at 2 3.
    destruct (negb (String.eqb key "global")) eqn:Hk.
    { unfold handleDNSDelete. by rewrite Hk. }
    cbn. unfold handleDNSDelete. rewrite Hk.
    destruct (usableAddressCount ctx =? 0) eqn:Eu;
      destruct (count DeviceNetworkStatus.zero =? 0) eqn:Ec;
      cbn; rewrite ?Eu, ?Ec; cbn; rewrite ?Eu, ?Ec;
      unfold updateDerivedLedCounter; cbn; rewrite ?Eu, ?Ec; reflexivity.
  - intros key n. unfold handleLedBlinkModify at 2 3.
    destruct (negb (String.eqb key "ledconfig")) eqn:Hk.
    { unfold handleLedBlinkModify. by rewrite Hk. }
    destruct (Z.eqb_spec n (ledCounter ctx)) as [Hn | Hn].
    { unfold handleLedBlinkModify. rewrite Hk.
      by destruct (Z.eqb_spec n (ledCounter ctx)). }
    unfold handleLedBlinkModify. rewrite Hk. cbn. by rewrite Z.eqb_refl.
  - intros d. unfold handleLedBlinkDelete. cbn.
    fold (derived (usableAddressCount ctx) 0).
    rewrite <- app_assoc. cbn. split.
    + intros H. apply app_inv_head in H. by injection H as <-.
    + by intros ->.
Qed.

(** X28: [handleDNSDelete] under the key ["global"] stores the empty
    status and leaves the usable address count at zero; it sends the
    counter 1 when there were usable addresses and nothing otherwise.
    The count of addresses of the empty status is zero. *)
Theorem handleDNSDelete_clears (ctx : ledManagerContext) :
  count DeviceNetworkStatus.zero = 0 ->
  deviceNetworkStatus (handleDNSDelete count ctx "global")
  = DeviceNetworkStatus.zero
  /\ usableAddressCount (handleDNSDelete count ctx "global") = 0
  /\ ledCounter (handleDNSDelete count ctx "global") = ledCounter ctx
  /\ countChange (handleDNSDelete count ctx "global")
     = (if usableAddressCount ctx =? 0 then countChange ctx
        else countChange ctx ++ [1])
  /\ derivedLedCounter (handleDNSDelete count ctx "global")
     = (if usableAddressCount ctx =? 0 then derivedLedCounter ctx else 1).
Proof.
  intros H0. unfold handleDNSDelete. cbn. rewrite H0. cbn.
  destruct (Z.eqb_spec (usableAddressCount ctx) 0) as [Hu | Hu]; cbn.
  - by rewrite ?Hu.
  - done.
Qed.

(** X29: [Run] gives the same context with and without the events the
    handlers pass over: those under another key, and status updates
    marked [Testing]. *)
Theorem run_skips_unaccepted (events : list Event) :
  run count events = run count (filter (fun ev => accepted ev = true) events).
Proof.
  unfold run. generalize initial.
  induction events as [| ev events IH]; intros c; [reflexivity |].
  rewrite filter_cons. cbn [foldl].
  destruct (decide (accepted ev = true)) as [Ha | Ha].
  - cbn [foldl]. apply IH.
  - rewrite <- IH. f_equal.
    apply not_true_is_false in Ha.
    destruct ev as [key s | key | key n | key]; cbn in Ha |- *.
    + unfold handleDNSModify.
      destruct (String.eqb key "global"); cbn in Ha |- *; [| done].
      by destruct (DeviceNetworkStatus.Testing s).
    + unfold handleDNSDelete. by rewrite Ha.
    + unfold handleLedBlinkModify. by rewrite Ha.
    + unfold handleLedBlinkDelete. by rewrite Ha.
Qed.

End Runs.

Lemma run_usable_zero_iff_witness :
  usableAddressCount
    (run samples.countAddrs
       [DNSModify "global" (samples.status_eth0 false); DNSDelete "global"])
  = 0
  <-> samples.countAddrs
        (deviceNetworkStatus
           (run samples.countAddrs
              [DNSModify "global" (samples.status_eth0 false);
               DNSDelete "global"])) = 0.
Proof.
  apply (run_usable_zero_iff samples.countAddrs
           [DNSModify "global" (samples.status_eth0 false);
            DNSDelete "global"]).
  reflexivity.
Defined.

Lemma handleDNSDelete_clears_witness :
  countChange
    (handleDNSDelete samples.countAddrs
       (handleDNSModify samples.countAddrs samples.leds "global"
          (samples.status_eth0 false)) "global")
  = [2; 1].
Proof.
  pose proof (handleDNSDelete_clears samples.countAddrs
                (handleDNSModify samples.countAddrs samples.leds "global"
                   (samples.status_eth0 false)) eq_refl)
    as (_ & _ & _ & H & _).
  exact H.
Defined.

End ledmanager_more.
